(* ===== verification/_CoqProject ===== *)
-Q . S2P
Prelude.v
Text.v
Ledger.v
Provider.v
World.v
Sweeper.v
Reconcile.v
VpnManager.v
PyDecimal.v
Payment.v
Frontend.v
PaymentLink.v
Concurrency.v
LogsBot.v
System.v
Scheduler.v
