(* ===== verification/Prelude.v ===== *)
(** * A verification development for hrvpn, a VPN subscription bot

    hrvpn (sources under [src/]) sells time-limited Outline VPN keys
    through a Telegram bot; users pay through the YooMoney gateway.
    [main.py] starts one asyncio process with these parts:
    - the ledger: an SQLite database with the tables [subscriptions],
      [test_usage] and [purchase_history]. Its access module [db.py] is
      not among the sources: the functions it provides are modelled from
      the spec (sections 3, 4.1, 6) and marked spec_modelled in the
      manifest; the SQL written inline in [tasks.py] and
      [telegram_bot.py] is modelled from the code;
    - the key provider: an Outline server reached through
      [vpn_manager.manager], and the wrapper [create_vpn_key_with_name];
    - the lifecycle sweeper [check_subscriptions] and the
      reconciliation loop [sync_keys] of [tasks.py], two periodic tasks;
    - the payment webhook [yoomoney_notification] of [telegram_bot.py];
    - the chat handlers of [telegram_bot.py], which build the payment
      labels and callback data that the webhook parses back, and grant
      the one-hour trial;
    - separately, [logs_bot.py]: a second bot that forwards the lines of
      [bot.log] to the owner.
    The tasks and handlers share the ledger and the server and
    interleave at every [await].

    Files, in dependency order (each opens with its own summary):
    - [Prelude] (this file): the monad [PyM S A = S -> S * option A] of
      Python effects (an exception keeps the state reached at the raise
      point), [py_try], the notation scope [hrvpn_scope], the tactic
      [bool_to_prop], the hint databases [hrvpn] and [hrvpn_rw], and
      generic list lemmas.
    - [Text]: [str.split], [isdigit], [int()], [str(n)], [startswith],
      [strip], [replace] on [string]; print/parse round trips.
    - [Ledger]: rows ([Subscription], [PurchaseRecord]), the ledger
      operations, the invariant [ledger_wf] and the step relation
      [ledger_step]; a notification flag, once set, is never reset.
    - [Provider]: the Outline server ([Server], [srv_create], ...), its
      invariant [srv_wf] and the [issued] ids.
    - [World]: the shared state (ledger, server, outbox of Telegram
      messages, clock in microseconds, the oracle [w_net] deciding which
      remote calls fail), the effects [send], [db_update], [db_insert],
      [provider_call], and [world_wf].
    - [Sweeper]: one sweep cycle, a fold over the snapshot of rows:
      branch per row, notices sent once, teardown key-before-row, a
      failed key deletion retried by the next cycle, a crash in the
      [except] branch ends the task.
    - [Reconcile]: one [sync_keys] cycle over gsets: drift repair,
      idempotence, independence from Python's set iteration order, the
      unguarded [get_keys].
    - [VpnManager]: key creation with its catch-all [except].
    - [PyDecimal]: [Decimal(str)] and [quantize] from [_pydecimal]
      (28 digits, ROUND_HALF_EVEN).
    - [Payment]: the webhook: signature gate, idempotency by
      [operation_id], plan matching, renewal and new-purchase branches;
      a run never changes the ledger without recording the payment, and
      the amount is rounded half-even to hundredths before the 0.01
      tolerance of the plan lookup.
    - [Frontend]: the dispatcher in registration order and every
      callback handler; the bot's own buttons round-trip, and the
      renewal flow (button, link, payment) refines the abstract contract
      [renew_abs] on the view [sub_view]; the trial is granted once.
    - [PaymentLink]: [generate_payment_link] with Python's [urlencode]
      and the gateway's reader [parse_qsl]; the gateway reads back the
      sum, the label, the wallet and the notification URL the bot put
      in the link.
    - [Concurrency]: the segments of two schedules cut at [await]
      points, composed by hand: a renewal during the sweeper's cycle is
      lost to its stale snapshot, and a reconciliation cycle between
      key creation and row insertion destroys a paid purchase.
    - [LogsBot]: [logs_bot.py]: Python values and [==] (nobody is
      authorized), the monitor loop (it catches up when sends succeed,
      and feeds on its own error records when they fail).
    - [System]: the rules [safe] for each effect and the tactic
      [safe_auto] prove that every handler and cycle keeps [world_wf];
      [sys_step] composes whole handler runs (library lemmas; the key
      creation's [safe_create] is used by [Scheduler]).
    - [Scheduler]: the event loop of [main()] at [await] granularity.
      A task is a resumption [Res] that finishes or suspends with the
      rest of its code; the sweep cycle, the sync cycle and the webhook
      are written with a suspension at every [await] whose I/O suspends
      (SQLite, Telegram; the Outline calls are synchronous) and erase to
      their sequential handlers. [sched_step] resumes any task, accepts
      requests, restarts the loops after their sleep and lets time
      pass. A program logic parametric in an invariant and a preorder
      ([mspec] for segments, [rspec] for tasks, [loop_invariant] for
      the loop) proves that under every schedule the bot confirms only
      what it has recorded: a renewal confirmation, a paid key or a
      trial key is always backed by its purchase or trial record. Two concurrent
      deliveries of one renewal both pass the idempotency check and
      extend the subscription twice; two concurrent taps on the trial
      button both pass the [test_usage] check and grant two trials; the
      two races of [Concurrency] happen on this loop (a renewal lost to
      the sweeper's snapshot, a paid key deleted by a sync cycle); a
      teardown whose error message fails ends the sweeper loop, which
      no later schedule restarts.

    Bounds and fuel: times are integers in microseconds (the code's
    [total_seconds()] thresholds become exact integer comparisons); the
    trial lasts [3600 * 10^6]; [n_digits] of [PyDecimal] recurses with
    fuel [N.size c], which exceeds the number of decimal digits of [c];
    the [while True] loops are one cycle ([Sweeper], [Reconcile]) or
    [n] iterations ([LogsBot.monitor_loop]), with the number needed to
    catch up proved enough; in [Scheduler] a loop is a task restarted
    after each cycle, so it runs for as long as the schedule goes on.

    Not modelled: [db.py] itself (its functions are modelled from the
    spec), [add_user] and [init_db] (a [users] table nothing reads, and
    schema creation), logging other than [logs_bot.py]'s writes to its
    watched file, the sleeps, button texts and Markdown, the SHA-1 function (a section parameter)
    and the aiogram/aiohttp frameworks (handlers are called directly; an
    exception in the webhook is an HTTP 500). In [Scheduler] the chat
    updates other than the trial run as one segment each (their awaits
    are reads and sends, whose interleaving changes only what they
    display), and one suspension stands for an [execute] and the
    [commit] after it, since SQLite shows the change to other
    connections only at the commit. *)

From stdpp Require Export base list gmap strings.
From Stdlib Require Export ZArith Lia.

Declare Scope hrvpn_scope.
Delimit Scope hrvpn_scope with hr.
Open Scope hrvpn_scope.

(** ** Python effects

    [PyM S A] is a computation over a state [S] that returns an [A] or
    raises an exception. A raised exception keeps the state reached at
    the raise point, as Python does: side effects made before the raise
    are not rolled back. *)

Definition PyM (S A : Type) : Type := S -> S * option A.

Definition py_ret {S A} (a : A) : PyM S A := fun s => (s, Some a).

Definition py_raise {S A} : PyM S A := fun s => (s, None).

Definition py_bind {S A B} (c : PyM S A) (k : A -> PyM S B) : PyM S B :=
  fun s => match c s with
           | (s', Some a) => k a s'
           | (s', None) => (s', None)
           end.

(** [try: c except: h] *)
Definition py_try {S A} (c : PyM S A) (h : PyM S A) : PyM S A :=
  fun s => match c s with
           | (s', Some a) => (s', Some a)
           | (s', None) => h s'
           end.

Definition py_get {S} : PyM S S := fun s => (s, Some s).

Definition py_modify {S} (f : S -> S) : PyM S unit := fun s => (f s, Some tt).

Notation "'let*' x ':=' c 'in' k" := (py_bind c (fun x => k))
  (at level 10, x name, c at level 100, k at level 200) : hrvpn_scope.

Notation "c '>>' k" := (py_bind c (fun _ => k))
  (at level 190, right associativity) : hrvpn_scope.

(** ** Generic lemmas *)

Section PyMLemmas.
Context {S A B : Type}.

Lemma py_bind_ret (a : A) (k : A -> PyM S B) s :
  py_bind (py_ret a) k s = k a s.
Proof. reflexivity. Qed.

Lemma py_bind_raise (k : A -> PyM S B) s :
  py_bind py_raise k s = (s, None).
Proof. reflexivity. Qed.

Lemma py_bind_Some (c : PyM S A) (k : A -> PyM S B) s s' a :
  c s = (s', Some a) -> py_bind c k s = k a s'.
Proof. intros H. unfold py_bind. by rewrite H. Qed.

Lemma py_bind_None (c : PyM S A) (k : A -> PyM S B) s s' :
  c s = (s', None) -> py_bind c k s = (s', None).
Proof. intros H. unfold py_bind. by rewrite H. Qed.

Lemma py_try_Some (c h : PyM S A) s s' a :
  c s = (s', Some a) -> py_try c h s = (s', Some a).
Proof. intros H. unfold py_try. by rewrite H. Qed.

Lemma py_try_None (c h : PyM S A) s s' :
  c s = (s', None) -> py_try c h s = h s'.
Proof. intros H. unfold py_try. by rewrite H. Qed.
End PyMLemmas.

Create HintDb hrvpn discriminated.
Create Rewrite HintDb hrvpn_rw.
#[export] Hint Rewrite @py_bind_ret @py_bind_raise : hrvpn_rw.

(** Lists. *)

Lemma filter_map_NoDup {A B} (f : A -> B) (P : A -> Prop) `{!forall x, Decision (P x)}
    (l : list A) :
  NoDup (f <$> l) -> NoDup (f <$> filter P l).
Proof.
  induction l as [|x l IH]; simpl; [done|].
  rewrite NoDup_cons. intros [Hx Hl]. rewrite filter_cons.
  case_decide; simpl; [rewrite NoDup_cons; split|]; auto.
  intros Hin. apply Hx. apply list_elem_of_fmap in Hin as (y & -> & Hy).
  apply list_elem_of_fmap. exists y. split; [done|].
  by apply list_elem_of_filter in Hy as [_ ?].
Qed.

Lemma fmap_filter_subseteq {A B} (f : A -> B) (P : A -> Prop) `{!forall x, Decision (P x)}
    (l : list A) (y : B) :
  y ∈ f <$> filter P l -> y ∈ f <$> l.
Proof.
  rewrite !list_elem_of_fmap. intros (x & -> & Hx).
  apply list_elem_of_filter in Hx as [_ Hx]. eauto.
Qed.

#[export] Hint Resolve filter_map_NoDup fmap_filter_subseteq : hrvpn.

(** Turn the boolean comparisons of the code into propositions. *)
Ltac bool_to_prop :=
  repeat match goal with
  | H : (_ && _)%bool = true |- _ => apply andb_prop in H as [? ?]
  | H : (_ && _)%bool = false |- _ => apply andb_false_iff in H as [?|?]
  | H : negb _ = true |- _ => apply negb_true_iff in H
  | H : negb _ = false |- _ => apply negb_false_iff in H
  | H : (_ <? _)%Z = true |- _ => apply Z.ltb_lt in H
  | H : (_ <? _)%Z = false |- _ => apply Z.ltb_ge in H
  | H : (_ <=? _)%Z = true |- _ => apply Z.leb_le in H
  | H : (_ <=? _)%Z = false |- _ => apply Z.leb_gt in H
  | H : (_ =? _)%Z = true |- _ => apply Z.eqb_eq in H
  | H : (_ =? _)%Z = false |- _ => apply Z.eqb_neq in H
  | H : (_ <? _)%N = true |- _ => apply N.ltb_lt in H
  | H : (_ <? _)%N = false |- _ => apply N.ltb_ge in H
  | H : (_ <=? _)%N = true |- _ => apply N.leb_le in H
  | H : (_ <=? _)%N = false |- _ => apply N.leb_gt in H
  | H : (_ =? _)%N = true |- _ => apply N.eqb_eq in H
  | H : (_ =? _)%N = false |- _ => apply N.eqb_neq in H
  end.

(** Case analysis on the first [if] of the goal, keeping its equation. *)
Ltac case_if :=
  match goal with
  | |- context [if ?b then _ else _] =>
      let E := fresh "E" in destruct b eqn:E; bool_to_prop
  end.

Lemma NoDup_fmap_eq {A B} (f : A -> B) (l : list A) x y :
  NoDup (f <$> l) -> x ∈ l -> y ∈ l -> f x = f y -> x = y.
Proof.
  induction l as [|z l IH]; simpl; [by intros _ ?%elem_of_nil|].
  rewrite NoDup_cons. intros [Hz Hl] Hx Hy Hxy.
  apply elem_of_cons in Hx as [->|Hx]; apply elem_of_cons in Hy as [->|Hy]; auto.
  - destruct Hz. rewrite Hxy. by apply list_elem_of_fmap_2.
  - destruct Hz. rewrite <- Hxy. by apply list_elem_of_fmap_2.
Qed.

(** A map that keeps a projection keeps the projected list. *)
Lemma fmap_keeps_proj {A B} (p : A -> B) (g : A -> A) (l : list A) :
  (forall x, p (g x) = p x) -> p <$> (g <$> l) = p <$> l.
Proof. intros Hg. rewrite <- list_fmap_compose. apply list_fmap_ext. intros; apply Hg. Qed.

Lemma filter_all {A} (P : A -> Prop) `{!forall x, Decision (P x)} (l : list A) :
  (forall x, x ∈ l -> P x) -> filter P l = l.
Proof.
  induction l as [|x l IH]; intros Hl; [done|]. rewrite filter_cons, decide_True.
  - f_equal. apply IH. intros y Hy. apply Hl. by apply list_elem_of_further.
  - apply Hl, list_elem_of_here.
Qed.

Lemma filter_filter_iff {A} (P Q R : A -> Prop)
    `{!forall x, Decision (P x)} `{!forall x, Decision (Q x)} `{!forall x, Decision (R x)}
    (l : list A) :
  (forall x, P x /\ Q x <-> R x) -> filter P (filter Q l) = filter R l.
Proof.
  intros HPQ. induction l as [|x l IH]; [done|].
  rewrite !filter_cons. specialize (HPQ x).
  destruct (decide (Q x)), (decide (R x)); rewrite ?filter_cons; try tauto.
  - rewrite decide_True by tauto. by f_equal.
  - rewrite decide_False by tauto. done.
Qed.
