(* ===== verification/Text.v ===== *)
(** * Python string operations used by the bot

    The bot builds and parses its payment labels and callback data with
    a few built-in string operations. They are modelled here on Rocq's
    [string] (8-bit characters; the labels and amounts the program
    handles are ASCII):
    - [py_split sep s] is [s.split(sep)] for a one-character separator;
    - [py_isdigit] is [str.isdigit] restricted to ASCII digits;
    - [py_int_of_digits] is [int(s)] on a string that passed [isdigit];
    - [py_int] is [int(s)] on any string: surrounding whitespace, one
      sign, and single underscores between digits are accepted;
    - [py_str_N] and [py_str_Z] are [str(n)] of an integer;
    - [py_strip], [py_replace_char] and [py_startswith].
    The round trips [int(str(n)) = n] and
    [(a + "_" + b).split("_") = [a] + b.split("_")] for [a] without
    underscore are proved here; they carry the label round trips of the
    payment and front-end files. *)

From S2P Require Import Prelude.
From Stdlib Require Import Ascii String DecimalString DecimalN.

Local Open Scope char_scope.

(** ** Characters *)

Definition is_digit (c : ascii) : bool :=
  (48 <=? nat_of_ascii c)%nat && (nat_of_ascii c <=? 57)%nat.

(** Python's [str.isspace] on the ASCII range. *)
Definition is_space (c : ascii) : bool :=
  let n := nat_of_ascii c in
  ((9 <=? n) && (n <=? 13))%nat || ((28 <=? n) && (n <=? 32))%nat.

(** ** [str.split] with a one-character separator. *)
Fixpoint py_split (sep : ascii) (s : string) : list string :=
  match s with
  | EmptyString => [EmptyString]
  | String c s' =>
      let parts := py_split sep s' in
      if decide (c = sep) then EmptyString :: parts
      else match parts with
           | p :: ps => String c p :: ps
           | [] => [String c EmptyString]
           end
  end.

Fixpoint has_char (c : ascii) (s : string) : bool :=
  match s with
  | EmptyString => false
  | String d s' => bool_decide (d = c) || has_char c s'
  end.

Fixpoint all_chars (p : ascii -> bool) (s : string) : bool :=
  match s with
  | EmptyString => true
  | String c s' => p c && all_chars p s'
  end.

(** [str.isdigit]: non-empty and every character a digit. *)
Definition py_isdigit (s : string) : bool :=
  match s with
  | EmptyString => false
  | _ => all_chars is_digit s
  end.

(** [str.startswith]. *)
Definition py_startswith (s pre : string) : bool := String.prefix pre s.

(** [str.replace(a, b)] for one-character [a] and [b]. *)
Fixpoint py_replace_char (a b : ascii) (s : string) : string :=
  match s with
  | EmptyString => EmptyString
  | String c s' => String (if decide (c = a) then b else c) (py_replace_char a b s')
  end.

Fixpoint lstrip (s : string) : string :=
  match s with
  | String c s' => if is_space c then lstrip s' else s
  | EmptyString => EmptyString
  end.

Definition rev_string (s : string) : string :=
  string_of_list_ascii (rev (list_ascii_of_string s)).

(** [str.strip()]. *)
Definition py_strip (s : string) : string :=
  rev_string (lstrip (rev_string (lstrip s))).

(** ** Integers and their decimal text *)

(** [str(n)] for [n >= 0]. *)
Definition py_str_N (n : N) : string := NilZero.string_of_uint (N.to_uint n).

(** [str(z)]. *)
Definition py_str_Z (z : Z) : string :=
  if (z <? 0)%Z then String "-" (py_str_N (Z.to_N (- z))) else py_str_N (Z.to_N z).

(** [int(s)] on a string of ASCII digits (leading zeros allowed). *)
Definition py_int_of_digits (s : string) : option Z :=
  match NilZero.uint_of_string s with
  | Some d => Some (Z.of_N (N.of_uint d))
  | None => None
  end.

(** The loop of [int] over a string of digits: [acc * 10 + digit]. *)
Fixpoint digits_acc (acc : N) (s : string) : N :=
  match s with
  | EmptyString => acc
  | String c s' => digits_acc (acc * 10 + N.of_nat (nat_of_ascii c - 48)) s'
  end.

(** Digits with single underscores between them, as [int] accepts. *)
Fixpoint digits_us (prev_digit : bool) (s : string) : bool :=
  match s with
  | EmptyString => prev_digit
  | String c s' =>
      if is_digit c then digits_us true s'
      else if decide (c = "_") then prev_digit && digits_us false s'
      else false
  end.

Fixpoint drop_char (a : ascii) (s : string) : string :=
  match s with
  | EmptyString => EmptyString
  | String c s' => if decide (c = a) then drop_char a s' else String c (drop_char a s')
  end.

Definition py_int_unsigned (s : string) : option Z :=
  if digits_us false s then py_int_of_digits (drop_char "_" s) else None.

(** [int(s)]; [None] is the [ValueError] Python raises. *)
Definition py_int (s : string) : option Z :=
  match py_strip s with
  | String "-" t => option_map Z.opp (py_int_unsigned t)
  | String "+" t => py_int_unsigned t
  | t => py_int_unsigned t
  end.

(** ** Lemmas *)

Lemma string_of_uint_digits d :
  all_chars is_digit (NilEmpty.string_of_uint d) = true.
Proof. induction d; simpl; auto. Qed.

Lemma py_str_N_nonempty n : py_str_N n <> EmptyString.
Proof.
  unfold py_str_N, NilZero.string_of_uint.
  destruct (N.to_uint n); discriminate.
Qed.

Lemma py_str_N_isdigit n : py_isdigit (py_str_N n) = true.
Proof.
  unfold py_isdigit. pose proof (py_str_N_nonempty n).
  destruct (py_str_N n) eqn:E; [done|]. rewrite <- E.
  unfold py_str_N, NilZero.string_of_uint.
  destruct (N.to_uint n); (reflexivity || apply string_of_uint_digits).
Qed.

Lemma all_digits_no_char c s :
  is_digit c = false -> all_chars is_digit s = true -> has_char c s = false.
Proof.
  intros Hc. induction s as [|d s IH]; simpl; [done|].
  intros [Hd Hs]%andb_prop. rewrite IH by done.
  case_bool_decide; subst; [congruence|done].
Qed.

Lemma py_isdigit_no_char c s :
  is_digit c = false -> py_isdigit s = true -> has_char c s = false.
Proof. intros Hc. destruct s; [done|]. apply all_digits_no_char, Hc. Qed.

Lemma py_str_N_no_underscore n : has_char "_" (py_str_N n) = false.
Proof. apply py_isdigit_no_char; [done|apply py_str_N_isdigit]. Qed.

Lemma uint_of_string_acc s d acc :
  NilEmpty.uint_of_string s = Some d ->
  digits_acc acc s = match acc with N0 => N.of_uint d | Npos p => Npos (Pos.of_uint_acc d p) end.
Proof.
  revert d acc. induction s as [|c s IH]; intros d acc Hs.
  - simplify_eq/=. by destruct acc.
  - simpl in Hs. destruct (NilEmpty.uint_of_string s) as [d0|] eqn:E; [|done].
    simpl. rewrite (IH d0) by done.
    apply uint_of_char_spec in Hs.
    destruct_or! Hs; destruct Hs as [-> ->]; destruct acc as [|p]; simpl.
    all: try done; do 2 f_equal; lia.
Qed.

(** [int(str(n)) = n]. *)
Lemma py_int_of_digits_str n : py_int_of_digits (py_str_N n) = Some (Z.of_N n).
Proof.
  unfold py_int_of_digits, py_str_N.
  destruct (NilZero.usu_gen (N.to_uint n)) as [H|H]; rewrite H;
    [by rewrite DecimalN.Unsigned.of_to|].
  rewrite <- (DecimalN.Unsigned.of_to n).
  destruct (N.to_uint n) eqn:E; [reflexivity|..];
    rewrite NilZero.usu in H by discriminate; injection H as <-; reflexivity.
Qed.

Lemma uint_of_string_digits s :
  all_chars is_digit s = true -> exists d, NilEmpty.uint_of_string s = Some d.
Proof.
  induction s as [|c s IH]; simpl; [eauto|].
  intros [Hc Hs]%andb_true_iff. destruct (IH Hs) as [d ->]. simpl.
  destruct c as [[] [] [] [] [] [] [] []]; simpl in Hc |- *; try discriminate; eauto.
Qed.

(** [int(s)] of a digit string is the loop [digits_acc]. *)
Lemma py_int_of_digits_acc s :
  py_isdigit s = true -> py_int_of_digits s = Some (Z.of_N (digits_acc 0 s)).
Proof.
  destruct s as [|c s']; [done|]. intros Hd.
  destruct (uint_of_string_digits _ Hd) as [d Hu].
  unfold py_int_of_digits.
  change (NilZero.uint_of_string _) with (NilEmpty.uint_of_string (String c s')). rewrite Hu.
  by rewrite (uint_of_string_acc _ d 0).
Qed.

Lemma digits_acc_app acc s t : digits_acc acc (s ++ t) = digits_acc (digits_acc acc s) t.
Proof. revert acc. induction s; simpl; auto. Qed.

Lemma digits_acc_str n : digits_acc 0 (py_str_N n) = n.
Proof.
  pose proof (py_int_of_digits_str n) as H.
  rewrite py_int_of_digits_acc in H by apply py_str_N_isdigit. injection H. lia.
Qed.

Lemma all_chars_app p s t : all_chars p (s ++ t) = all_chars p s && all_chars p t.
Proof. induction s as [|c s IH]; simpl; [done|]. by rewrite IH, andb_assoc. Qed.

Lemma all_chars_list p l : all_chars p (string_of_list_ascii l) = forallb p l.
Proof. induction l as [|c l IH]; simpl; [done|]. by rewrite IH. Qed.

Lemma all_chars_rev p s : all_chars p (rev_string s) = all_chars p s.
Proof.
  unfold rev_string. rewrite all_chars_list.
  rewrite <- (string_of_list_ascii_of_string s) at 2. rewrite all_chars_list.
  induction (list_ascii_of_string s) as [|c l IH]; simpl; [done|].
  rewrite forallb_app, IH. simpl. by rewrite andb_true_r, andb_comm.
Qed.

Lemma rev_string_involutive s : rev_string (rev_string s) = s.
Proof.
  unfold rev_string. by rewrite list_ascii_of_string_of_list_ascii, rev_involutive,
    string_of_list_ascii_of_string.
Qed.

Lemma lstrip_id s : all_chars (fun c => negb (is_space c)) s = true -> lstrip s = s.
Proof. destruct s as [|c s]; simpl; [done|]. by intros [->%negb_true_iff _]%andb_true_iff. Qed.

(** [s.strip()] leaves a string without whitespace unchanged. *)
Lemma py_strip_id s : all_chars (fun c => negb (is_space c)) s = true -> py_strip s = s.
Proof.
  intros H. unfold py_strip. rewrite (lstrip_id s H), lstrip_id.
  - apply rev_string_involutive.
  - by rewrite all_chars_rev.
Qed.

Lemma drop_char_id a s : has_char a s = false -> drop_char a s = s.
Proof.
  induction s as [|c s IH]; simpl; [done|]. intros [Hc Hs]%orb_false_iff.
  rewrite decide_False, IH; [done..|]. intros ->. by rewrite bool_decide_true in Hc.
Qed.

Lemma digit_no_space c : is_digit c = true -> negb (is_space c) = true.
Proof. destruct c as [[] [] [] [] [] [] [] []]; by vm_compute. Qed.

Lemma all_chars_impl (p q : ascii -> bool) s :
  (forall c, p c = true -> q c = true) -> all_chars p s = true -> all_chars q s = true.
Proof.
  intros Hpq. induction s as [|c s IH]; simpl; [done|].
  intros [Hc Hs]%andb_true_iff. by rewrite Hpq, IH.
Qed.

Lemma digits_us_true s : all_chars is_digit s = true -> digits_us true s = true.
Proof. induction s as [|c s IH]; simpl; [done|]. intros [-> Hs]%andb_true_iff. auto. Qed.

Lemma py_str_N_cons n : exists c s, py_str_N n = String c s /\ is_digit c = true.
Proof.
  pose proof (py_str_N_isdigit n) as H. pose proof (py_str_N_nonempty n).
  destruct (py_str_N n) as [|c s]; [done|]. simpl in H. apply andb_true_iff in H as [? _]. eauto.
Qed.

(** [int(str(n)) = n] for the full [int]. *)
Lemma py_int_str_N n : py_int (py_str_N n) = Some (Z.of_N n).
Proof.
  pose proof (py_str_N_isdigit n) as Hd. pose proof (py_int_of_digits_str n) as Hv.
  pose proof (py_str_N_no_underscore n) as Hu.
  unfold py_int. rewrite py_strip_id.
  2:{ eapply all_chars_impl; [apply digit_no_space|]. unfold py_isdigit in Hd. by destruct (py_str_N n). }
  destruct (py_str_N_cons n) as (c & s & Hcs & Hc). rewrite Hcs in Hd, Hv, Hu |- *.
  assert (Hpy : py_int_unsigned (String c s) = Some (Z.of_N n)).
  { unfold py_int_unsigned. rewrite (drop_char_id "_" _ Hu), Hv. simpl. rewrite Hc.
    simpl in Hd. apply andb_true_iff in Hd as [_ Hs]. by rewrite digits_us_true. }
  destruct c as [[] [] [] [] [] [] [] []]; try discriminate; exact Hpy.
Qed.

Lemma py_int_str_Z z : (0 <= z)%Z -> py_int (py_str_Z z) = Some z.
Proof.
  intros Hz. unfold py_str_Z. rewrite (proj2 (Z.ltb_ge _ _)) by done.
  rewrite py_int_str_N. f_equal. lia.
Qed.

Lemma py_str_Z_isdigit z : (0 <= z)%Z -> py_isdigit (py_str_Z z) = true.
Proof. intros Hz. unfold py_str_Z. rewrite (proj2 (Z.ltb_ge _ _)) by done. apply py_str_N_isdigit. Qed.

Lemma py_str_Z_no_underscore z : has_char "_" (py_str_Z z) = false.
Proof. unfold py_str_Z. destruct (z <? 0)%Z; simpl; apply py_str_N_no_underscore. Qed.

Lemma py_startswith_app pre s : py_startswith (pre ++ s) pre = true.
Proof.
  unfold py_startswith. induction pre as [|a pre IH]; simpl; [by destruct s|].
  destruct (ascii_dec a a); [done|congruence].
Qed.

Lemma string_app_assoc a b c : ((a ++ b) ++ c)%string = (a ++ (b ++ c))%string.
Proof.
  induction a as [|x a IH]; [done|].
  change (String x ((a ++ b) ++ c) = String x (a ++ (b ++ c)))%string. by rewrite IH.
Qed.

Lemma py_replace_char_id a b s : has_char a s = false -> py_replace_char a b s = s.
Proof.
  induction s as [|c s IH]; simpl; [done|]. intros [Hc Hs]%orb_false_iff.
  rewrite decide_False, IH; [done..|]. intros ->. by rewrite bool_decide_true in Hc.
Qed.

Lemma py_split_nonempty sep s : py_split sep s <> [].
Proof. induction s as [|c s IH]; simpl; [done|]. case_decide; [done|]. by destruct (py_split sep s). Qed.

(** A digit string contains no separator, so [split] leaves it whole. *)
Lemma py_split_no_sep sep s : has_char sep s = false -> py_split sep s = [s].
Proof.
  induction s as [|c s IH]; simpl; [done|].
  intros [Hc Hs]%orb_false_iff. rewrite IH by done.
  case_decide; [subst; by rewrite bool_decide_true in Hc|done].
Qed.

Lemma py_split_app sep a b :
  has_char sep a = false ->
  py_split sep (a ++ String sep b)%string = a :: py_split sep b.
Proof.
  induction a as [|c a IH]; simpl.
  - intros _. by rewrite decide_True.
  - intros [Hc Ha]%orb_false_iff. rewrite IH by done.
    rewrite decide_False; [done|]. intros ->. by rewrite bool_decide_true in Hc.
Qed.

#[export] Hint Resolve py_str_N_no_underscore py_str_N_isdigit : hrvpn.
#[export] Hint Rewrite py_int_of_digits_str : hrvpn_rw.
