(* ===== verification/Ledger.v ===== *)
(** * The ledger: the SQLite tables of the bot

    The tables [subscriptions], [test_usage] and [purchase_history].
    The module [db.py] that wraps them is not among the sources, so its
    functions ([save_subscription], [extend_subscription],
    [delete_subscription], [save_purchase_history]) are modelled from the
    spec (sections 3, 4.1 and 6). The SQL statements written inline in
    [src/tasks.py] and [src/telegram_bot.py] (flag updates, deletion by
    key id, the idempotency and trial lookups) are modelled from their
    code.

    Rows are kept in [rowid] order, the order in which SQLite returns
    them to a [SELECT] without [ORDER BY]. Timestamps are microseconds
    since the epoch, the resolution of Python's [datetime]. The
    invariant [ledger_wf] (unique row ids, unique key ids, unique
    operation ids, ids below the autoincrement counter) is preserved by
    every operation. *)

From S2P Require Import Prelude.

(** ** Data *)

Record Subscription := mkSub {
  sub_id : Z;
  sub_user : Z;
  sub_key : string;
  sub_url : string;
  expires_at : Z;
  notified_5_days : bool;
  notified_1_day : bool;
  notified_expired : bool
}.

(** The [kind] column: ['new_subscription'] or ['renew_subscription']. *)
Inductive PurchaseKind := NewSubscription | RenewSubscription.

#[export] Instance PurchaseKind_eq_dec : EqDecision PurchaseKind.
Proof. solve_decision. Defined.

Record PurchaseRecord := mkPurchase {
  pr_user : Z;
  pr_amount : Z;     (** in hundredths: [float(matching_amount)] *)
  pr_period : Z;     (** days *)
  pr_kind : PurchaseKind;
  pr_label : string;
  pr_op : string     (** [operation_id], unique *)
}.

Record Ledger := mkLedger {
  subs : list Subscription;
  next_sub_id : Z;            (** the autoincrement counter of [subscriptions.id] *)
  test_usage : list (Z * Z);  (** [(user_id, used_at)] *)
  purchases : list PurchaseRecord
}.

Definition empty_ledger : Ledger := mkLedger [] 1 [] [].

(** [timedelta(days=d)] in microseconds. *)
Definition days_us (d : Z) : Z := d * 86400 * 1000000.

(** The three notification flags, one constructor per column. *)
Inductive Flag := Flag5Days | Flag1Day | FlagExpired.

Definition set_flag_of (f : Flag) (s : Subscription) : Subscription :=
  match f with
  | Flag5Days => mkSub (sub_id s) (sub_user s) (sub_key s) (sub_url s) (expires_at s)
                       true (notified_1_day s) (notified_expired s)
  | Flag1Day => mkSub (sub_id s) (sub_user s) (sub_key s) (sub_url s) (expires_at s)
                      (notified_5_days s) true (notified_expired s)
  | FlagExpired => mkSub (sub_id s) (sub_user s) (sub_key s) (sub_url s) (expires_at s)
                         (notified_5_days s) (notified_1_day s) true
  end.

Definition flag_of (f : Flag) (s : Subscription) : bool :=
  match f with
  | Flag5Days => notified_5_days s
  | Flag1Day => notified_1_day s
  | FlagExpired => notified_expired s
  end.

Definition with_subs (L : Ledger) (l : list Subscription) : Ledger :=
  mkLedger l (next_sub_id L) (test_usage L) (purchases L).

(** ** Operations *)

Definition lookup_sub (sid : Z) (L : Ledger) : option Subscription :=
  find (fun s => bool_decide (sub_id s = sid)) (subs L).

(** [SELECT key_id FROM subscriptions] *)
Definition ledger_key_ids (L : Ledger) : list string := sub_key <$> subs L.

(** [UPDATE subscriptions SET notified_x = 1 WHERE id = ?] *)
Definition set_flag (f : Flag) (sid : Z) (L : Ledger) : Ledger :=
  with_subs L ((fun s => if bool_decide (sub_id s = sid) then set_flag_of f s else s) <$> subs L).

(** [DELETE FROM subscriptions WHERE key_id = ?] *)
Definition delete_by_key (k : string) (L : Ledger) : Ledger :=
  with_subs L (filter (fun s => sub_key s <> k) (subs L)).

(** [db.delete_subscription(sub_id, user_id)]:
    [DELETE FROM subscriptions WHERE id = ? AND user_id = ?]. *)
Definition delete_subscription (sid uid : Z) (L : Ledger) : Ledger :=
  with_subs L (filter (fun s => ~ (sub_id s = sid /\ sub_user s = uid)) (subs L)).

(** [db.extend_subscription(user_id, sub_id, days)]: the expiry moves
    forward from its current value; the flags are left as they are. *)
Definition extend_subscription (uid sid days : Z) (L : Ledger) : Ledger :=
  with_subs L ((fun s =>
    if bool_decide (sub_id s = sid /\ sub_user s = uid)
    then mkSub (sub_id s) (sub_user s) (sub_key s) (sub_url s) (expires_at s + days_us days)
               (notified_5_days s) (notified_1_day s) (notified_expired s)
    else s) <$> subs L).

(** [db.save_subscription(user_id, key_data, duration)]: a new row with
    [expires_at = now + duration]. [key_id] is unique: inserting a key
    id already present raises [IntegrityError], here [None]. *)
Definition save_subscription (uid : Z) (key url : string) (duration now : Z) (L : Ledger)
    : option Ledger :=
  if bool_decide (key ∈ ledger_key_ids L) then None
  else Some (mkLedger
    (subs L ++ [mkSub (next_sub_id L) uid key url (now + duration) false false false])
    (next_sub_id L + 1) (test_usage L) (purchases L)).

(** [SELECT COUNT( * ) FROM purchase_history WHERE operation_id = ?] > 0 *)
Definition purchase_exists (op : string) (L : Ledger) : bool :=
  bool_decide (op ∈ pr_op <$> purchases L).

(** [db.save_purchase_history(...)]; [operation_id] is unique. *)
Definition save_purchase_history (p : PurchaseRecord) (L : Ledger) : option Ledger :=
  if purchase_exists (pr_op p) L then None
  else Some (mkLedger (subs L) (next_sub_id L) (test_usage L) (purchases L ++ [p])).

(** [SELECT COUNT( * ) FROM test_usage WHERE user_id = ?] > 0 *)
Definition has_used_test (uid : Z) (L : Ledger) : bool :=
  bool_decide (uid ∈ fst <$> test_usage L).

(** [INSERT INTO test_usage (user_id, used_at) VALUES (?, ?)] *)
Definition add_test_usage (uid now : Z) (L : Ledger) : Ledger :=
  mkLedger (subs L) (next_sub_id L) (test_usage L ++ [(uid, now)]) (purchases L).

(** ** Invariant *)

Definition ledger_wf (L : Ledger) : Prop :=
  NoDup (sub_id <$> subs L) /\
  NoDup (sub_key <$> subs L) /\
  Forall (fun s => sub_id s < next_sub_id L)%Z (subs L) /\
  NoDup (pr_op <$> purchases L).

(** Every state change the program makes on the ledger is one of these
    steps. *)
Inductive ledger_step : Ledger -> Ledger -> Prop :=
  | ls_set_flag f sid L : ledger_step L (set_flag f sid L)
  | ls_delete_by_key k L : ledger_step L (delete_by_key k L)
  | ls_delete_subscription sid uid L : ledger_step L (delete_subscription sid uid L)
  | ls_extend uid sid d L : ledger_step L (extend_subscription uid sid d L)
  | ls_save uid k url dur now L L' :
      save_subscription uid k url dur now L = Some L' -> ledger_step L L'
  | ls_purchase p L L' : save_purchase_history p L = Some L' -> ledger_step L L'
  | ls_test_usage uid now L : ledger_step L (add_test_usage uid now L).

(** [s'] has every notification flag that [s] has. *)
Definition flags_le (s s' : Subscription) : Prop :=
  forall f, flag_of f s = true -> flag_of f s' = true.

(** [L'] comes from [L] without any flag going back to false: every row
    of [L'] is either new (an id at or above [L]'s counter) or descends
    from the row of [L] with its id. *)
Definition descends (L L' : Ledger) : Prop :=
  (next_sub_id L <= next_sub_id L')%Z /\
  forall s', s' ∈ subs L' ->
    (next_sub_id L <= sub_id s')%Z \/
    exists s, s ∈ subs L /\ sub_id s = sub_id s' /\ flags_le s s'.

#[export] Instance ledger_wf_dec L : Decision (ledger_wf L).
Proof. unfold ledger_wf. apply _. Defined.

(** ** Lemmas *)

Lemma flags_le_refl s : flags_le s s.
Proof. by intros f. Qed.

Lemma flags_le_trans s1 s2 s3 : flags_le s1 s2 -> flags_le s2 s3 -> flags_le s1 s3.
Proof. intros H1 H2 f Hf. by apply H2, H1. Qed.

Lemma flags_le_set_flag_of f s : flags_le s (set_flag_of f s).
Proof. intros g; destruct f, g; simpl; auto. Qed.

Lemma flag_of_set_flag_of f s : flag_of f (set_flag_of f s) = true.
Proof. by destruct f. Qed.

Lemma set_flag_of_id f s : sub_id (set_flag_of f s) = sub_id s.
Proof. by destruct f. Qed.

Lemma set_flag_of_key f s : sub_key (set_flag_of f s) = sub_key s.
Proof. by destruct f. Qed.

Lemma set_flag_of_user f s : sub_user (set_flag_of f s) = sub_user s.
Proof. by destruct f. Qed.

Lemma set_flag_elem f sid L s' :
  s' ∈ subs (set_flag f sid L) ->
  exists s, s ∈ subs L /\ sub_id s' = sub_id s /\ sub_user s' = sub_user s.
Proof.
  unfold set_flag; simpl. intros (s & -> & Hs)%list_elem_of_fmap. exists s.
  split; [done|]. case_bool_decide; by rewrite ?set_flag_of_id, ?set_flag_of_user.
Qed.

#[export] Hint Resolve flags_le_refl flags_le_set_flag_of : hrvpn.
#[export] Hint Rewrite set_flag_of_id set_flag_of_key flag_of_set_flag_of : hrvpn_rw.

Lemma descends_refl L : descends L L.
Proof. split; [lia|]. intros s' Hs'. right. exists s'. eauto with hrvpn. Qed.

Lemma descends_trans L1 L2 L3 : descends L1 L2 -> descends L2 L3 -> descends L1 L3.
Proof.
  intros [Hn12 H12] [Hn23 H23]. split; [lia|].
  intros s3 Hs3. destruct (H23 s3 Hs3) as [?|(s2 & Hs2 & Hid2 & Hle2)]; [left; lia|].
  destruct (H12 s2 Hs2) as [?|(s1 & Hs1 & Hid1 & Hle1)]; [left; lia|].
  right. exists s1. split_and!; [done|congruence|by eapply flags_le_trans].
Qed.

Lemma descends_same_rows L L' :
  subs L' = subs L -> next_sub_id L' = next_sub_id L -> descends L L'.
Proof.
  intros Hs Hn. split; [lia|]. rewrite Hs. intros s' Hs'. right. exists s'. eauto with hrvpn.
Qed.

(** Rewriting the rows with a map that keeps ids and flags. *)
Lemma descends_map L (g : Subscription -> Subscription) :
  (forall s, sub_id (g s) = sub_id s) -> (forall s, flags_le s (g s)) ->
  descends L (with_subs L (g <$> subs L)).
Proof.
  intros Hid Hle. split; simpl; [lia|]. intros s' (s & -> & Hs)%list_elem_of_fmap.
  right. exists s. auto.
Qed.

Lemma descends_filter L (P : Subscription -> Prop) `{!forall s, Decision (P s)} :
  descends L (with_subs L (filter P (subs L))).
Proof.
  split; simpl; [lia|]. intros s' [_ Hs']%list_elem_of_filter.
  right. exists s'. eauto with hrvpn.
Qed.

Lemma ledger_step_descends L L' : ledger_step L L' -> descends L L'.
Proof.
  destruct 1 as [f sid L|k L|sid uid L|uid sid d L|uid k url dur now L L' Hs|p L L' Hs|uid now L].
  - apply descends_map; intros s; case_bool_decide; eauto with hrvpn.
    by rewrite set_flag_of_id.
  - apply descends_filter.
  - apply descends_filter.
  - apply descends_map; intros s; case_bool_decide; eauto with hrvpn. by intros [].
  - unfold save_subscription in Hs. case_bool_decide; [done|]. injection Hs as <-.
    split; simpl; [lia|]. intros s' [Hs'|Hs']%elem_of_app; [|apply list_elem_of_singleton in Hs' as ->].
    + right. exists s'. eauto with hrvpn.
    + left. simpl. lia.
  - unfold save_purchase_history in Hs. destruct (purchase_exists _ _); [done|].
    injection Hs as <-. by apply descends_same_rows.
  - by apply descends_same_rows.
Qed.

Lemma rtc_ledger_step_descends L L' : rtc ledger_step L L' -> descends L L'.
Proof.
  induction 1; [apply descends_refl|].
  eapply descends_trans; [apply ledger_step_descends|]; eauto.
Qed.

(** Well-formedness after a row map that keeps ids and keys. *)
Lemma wf_map L (g : Subscription -> Subscription) :
  (forall s, sub_id (g s) = sub_id s) -> (forall s, sub_key (g s) = sub_key s) ->
  ledger_wf L -> ledger_wf (with_subs L (g <$> subs L)).
Proof.
  intros Hid Hkey (Hids & Hkeys & Hlt & Hops). unfold ledger_wf; simpl.
  rewrite !fmap_keeps_proj by done. split_and!; auto.
  apply Forall_fmap, (Forall_impl _ _ _ Hlt). intros s; simpl. by rewrite Hid.
Qed.

Lemma wf_filter L (P : Subscription -> Prop) `{!forall s, Decision (P s)} :
  ledger_wf L -> ledger_wf (with_subs L (filter P (subs L))).
Proof.
  intros (Hids & Hkeys & Hlt & Hops). unfold ledger_wf; simpl.
  split_and!; eauto with hrvpn.
  rewrite Forall_forall in *. intros s [_ Hs]%list_elem_of_filter. auto.
Qed.

Lemma wf_save uid k url dur now L L' :
  save_subscription uid k url dur now L = Some L' -> ledger_wf L -> ledger_wf L'.
Proof.
  unfold save_subscription. case_bool_decide as Hk; [done|]. intros [= <-].
  intros (Hids & Hkeys & Hlt & Hops). unfold ledger_wf; simpl.
  rewrite !fmap_app. split_and!; simpl; auto.
  - apply NoDup_app. split_and!; [done| |by apply NoDup_singleton].
    intros x (s & -> & Hs)%list_elem_of_fmap Hx%list_elem_of_singleton. subst.
    rewrite Forall_forall in Hlt. specialize (Hlt s Hs). lia.
  - apply NoDup_app. split_and!; [done| |by apply NoDup_singleton].
    by intros x Hx ?%list_elem_of_singleton; subst.
  - apply Forall_app. split; [|by constructor; [simpl; lia|]].
    apply (Forall_impl _ _ _ Hlt). lia.
Qed.

Lemma wf_purchase p L L' :
  save_purchase_history p L = Some L' -> ledger_wf L -> ledger_wf L'.
Proof.
  unfold save_purchase_history, purchase_exists. case_bool_decide as Hop; [done|].
  intros [= <-] (Hids & Hkeys & Hlt & Hops). unfold ledger_wf; simpl.
  rewrite fmap_app. split_and!; auto.
  apply NoDup_app. split_and!; [done| |by apply NoDup_singleton].
  by intros x Hx ?%list_elem_of_singleton; subst.
Qed.

Lemma ledger_step_wf L L' : ledger_wf L -> ledger_step L L' -> ledger_wf L'.
Proof.
  intros Hwf. destruct 1.
  - apply wf_map; auto; intros s; case_bool_decide; auto using set_flag_of_id, set_flag_of_key.
  - by apply wf_filter.
  - by apply wf_filter.
  - apply wf_map; auto; intros s; by case_bool_decide.
  - by eapply wf_save.
  - by eapply wf_purchase.
  - done.
Qed.

Lemma find_fmap_keep (P : Subscription -> bool) (g : Subscription -> Subscription) l :
  (forall s, P (g s) = P s) -> find P (g <$> l) = g <$> find P l.
Proof. intros Hg. induction l as [|s l IH]; simpl; [done|]. rewrite Hg. by destruct (P s). Qed.

Lemma lookup_sub_elem sid L s : lookup_sub sid L = Some s -> s ∈ subs L /\ sub_id s = sid.
Proof.
  unfold lookup_sub. intros H. apply find_some in H as [Hin Hp].
  apply bool_decide_eq_true in Hp. by rewrite list_elem_of_In.
Qed.

Lemma sub_id_if_set_flag (b : bool) f s :
  sub_id (if b then set_flag_of f s else s) = sub_id s.
Proof. destruct b; [apply set_flag_of_id|done]. Qed.

Lemma set_flag_key_ids f sid L : ledger_key_ids (set_flag f sid L) = ledger_key_ids L.
Proof.
  unfold ledger_key_ids, set_flag; simpl. apply fmap_keeps_proj.
  intros s. case_bool_decide; [apply set_flag_of_key|done].
Qed.

Lemma filter_key_ids L (P : Subscription -> Prop) `{!forall s, Decision (P s)} :
  ledger_key_ids (with_subs L (filter P (subs L))) ⊆ ledger_key_ids L.
Proof. intros k. apply fmap_filter_subseteq. Qed.

Lemma lookup_set_flag f sid L s :
  lookup_sub sid L = Some s -> lookup_sub sid (set_flag f sid L) = Some (set_flag_of f s).
Proof.
  intros Hl. pose proof (lookup_sub_elem _ _ _ Hl) as [_ Hid].
  unfold lookup_sub, set_flag; simpl.
  rewrite find_fmap_keep; [|intros s0; by rewrite sub_id_if_set_flag].
  fold (lookup_sub sid L). rewrite Hl; simpl. by rewrite bool_decide_true.
Qed.

(** ** Theorems *)

(** A renewal for a row the user does not own changes no row. *)
Lemma extend_subscription_none uid sid d L :
  (forall s, s ∈ subs L -> ~ (sub_id s = sid /\ sub_user s = uid)) ->
  subs (extend_subscription uid sid d L) = subs L.
Proof.
  intros Hn. unfold extend_subscription; simpl. rewrite <- (list_fmap_id (subs L)) at 2.
  apply list_fmap_ext. intros i s Hs. apply list_elem_of_lookup_2 in Hs.
  by rewrite bool_decide_false by (apply Hn, Hs).
Qed.

Lemma purchase_exists_app op ps p L :
  pr_op p = op -> purchase_exists op (mkLedger (subs L) (next_sub_id L) (test_usage L) (ps ++ [p])) = true.
Proof.
  intros <-. unfold purchase_exists. apply bool_decide_eq_true. cbn.
  rewrite fmap_app. apply elem_of_app. right. set_solver.
Qed.

(** C4: a notification flag, once set, is never cleared: along any
    sequence of ledger operations from a well-formed ledger, the row
    that keeps a given id keeps every flag it had. *)
Theorem flags_never_reset L L' s s' :
  ledger_wf L -> rtc ledger_step L L' ->
  s ∈ subs L -> s' ∈ subs L' -> sub_id s = sub_id s' -> flags_le s s'.
Proof.
  intros (Hids & _ & Hlt & _) Hsteps Hs Hs' Hid.
  destruct (rtc_ledger_step_descends _ _ Hsteps) as [_ H].
  destruct (H s' Hs') as [Hge|(s0 & Hs0 & Hid0 & Hle)].
  - rewrite Forall_forall in Hlt. specialize (Hlt s Hs). lia.
  - by rewrite (NoDup_fmap_eq sub_id (subs L) s s0) by (done || congruence).
Qed.

(** renewal is additive: [extend_subscription] moves the expiry of
    the user's row forward by the renewed days from its current value,
    and keeps its notification flags. *)
Theorem extend_subscription_additive uid sid d L s :
  lookup_sub sid L = Some s -> sub_user s = uid ->
  lookup_sub sid (extend_subscription uid sid d L) =
    Some (mkSub sid uid (sub_key s) (sub_url s) (expires_at s + days_us d)
                (notified_5_days s) (notified_1_day s) (notified_expired s)).
Proof.
  intros Hl Hu. pose proof (lookup_sub_elem _ _ _ Hl) as [_ Hid].
  unfold lookup_sub, extend_subscription; simpl.
  rewrite find_fmap_keep;
    [|intros s0; by destruct (bool_decide (sub_id s0 = sid /\ sub_user s0 = uid))].
  fold (lookup_sub sid L). rewrite Hl; simpl. rewrite bool_decide_true by done.
  by subst.
Qed.

(** ** Witnesses *)

Definition ex_sub : Subscription := mkSub 1 42 "7" "ss://7" 1000 false false false.
Definition ex_ledger : Ledger := mkLedger [ex_sub] 2 [] [].

Lemma flags_never_reset_witness : flags_le ex_sub (set_flag_of Flag5Days ex_sub).
Proof.
  apply (flags_never_reset ex_ledger (set_flag Flag5Days 1 ex_ledger)).
  - apply (bool_decide_unpack _). vm_compute. reflexivity.
  - apply rtc_once, ls_set_flag.
  - apply list_elem_of_here.
  - apply list_elem_of_here.
  - reflexivity.
Defined.

Lemma extend_subscription_additive_witness :
  lookup_sub 1 (extend_subscription 42 1 30 ex_ledger) =
    Some (mkSub 1 42 "7" "ss://7" (1000 + days_us 30) false false false).
Proof. apply (extend_subscription_additive 42 1 30 ex_ledger ex_sub); reflexivity. Defined.
