(* ===== verification/Provider.v ===== *)
(** * The key provider: an Outline server

    The bot reaches the Outline server through the [outline_vpn] library
    ([vpn_manager.manager]). The server is an external collaborator,
    modelled from the interface of spec section 6: [create_key],
    [rename_key], [get_key], [delete_key], [get_keys]. Outline numbers its
    keys with a counter and uses the decimal text of the number as key
    id; the access URL is an opaque string, a function of the key id
    here (only its uniqueness matters to the program).

    [srv_wf] says that every stored key is filed under its own id and
    that every id was issued by the counter. Under it, [srv_create]
    returns a key id that is on no key of the server, nor on any key the
    server ever issued. The failures of the calls (network, HTTP errors)
    are not here but in [World]. *)

From S2P Require Import Prelude Text.

Record RemoteKey := mkKey {
  key_id : string;
  key_name : string;
  access_url : string
}.

Record Server := mkServer {
  srv_keys : gmap string RemoteKey;
  srv_next : N
}.

Definition outline_url (id : string) : string := ("ss://outline/" +:+ id)%string.

(** [POST /access-keys]: a new key under the next number. *)
Definition srv_create (S : Server) : RemoteKey * Server :=
  let id := py_str_N (srv_next S) in
  let k := mkKey id "" (outline_url id) in
  (k, mkServer (<[id := k]> (srv_keys S)) (srv_next S + 1)).

(** [PUT /access-keys/{id}/name]; [true] on HTTP 204. *)
Definition srv_rename (id name : string) (S : Server) : bool * Server :=
  match srv_keys S !! id with
  | Some k => (true, mkServer (<[id := mkKey id name (access_url k)]> (srv_keys S)) (srv_next S))
  | None => (false, S)
  end.

(** [GET /access-keys/{id}]. *)
Definition srv_get (id : string) (S : Server) : option RemoteKey := srv_keys S !! id.

(** [DELETE /access-keys/{id}]; [true] on HTTP 204, [false] when there
    is no such key. *)
Definition srv_delete (id : string) (S : Server) : bool * Server :=
  (bool_decide (is_Some (srv_keys S !! id)), mkServer (delete id (srv_keys S)) (srv_next S)).

(** The ids of [GET /access-keys]. *)
Definition srv_ids (S : Server) : gset string := dom (srv_keys S).

Definition issued (S : Server) (id : string) : Prop :=
  exists n, (n < srv_next S)%N /\ id = py_str_N n.

Definition srv_wf (S : Server) : Prop :=
  map_Forall (fun id k => key_id k = id /\ issued S id) (srv_keys S).

(** ** Lemmas *)

Lemma py_str_N_inj n m : py_str_N n = py_str_N m -> n = m.
Proof.
  intros H. apply (f_equal py_int_of_digits) in H. rewrite !py_int_of_digits_str in H.
  injection H. lia.
Qed.

(** A created key id was issued by no earlier call. *)
Lemma srv_create_fresh S id :
  issued S id -> id <> key_id (fst (srv_create S)).
Proof. intros (n & Hn & ->) ?%py_str_N_inj. simpl in *. lia. Qed.

Lemma srv_create_not_in S : srv_wf S -> srv_keys S !! key_id (fst (srv_create S)) = None.
Proof.
  intros Hwf. destruct (srv_keys S !! _) as [k|] eqn:E; [|done].
  destruct (Hwf _ _ E) as [_ Hiss]. by destruct (srv_create_fresh S _ Hiss).
Qed.

Lemma issued_mono S S' id :
  (srv_next S <= srv_next S')%N -> issued S id -> issued S' id.
Proof. intros Hle (n & Hn & ->). exists n. split; [lia|done]. Qed.

Lemma srv_create_wf S : srv_wf S -> srv_wf (snd (srv_create S)).
Proof.
  intros Hwf. unfold srv_wf; simpl. apply map_Forall_insert_2.
  - split; [done|]. exists (srv_next S). simpl. split; [lia|done].
  - apply (map_Forall_impl _ _ _ Hwf). intros id k [? ?]. split; [done|].
    eapply issued_mono; [|done]. simpl. lia.
Qed.

Lemma srv_rename_wf id name S : srv_wf S -> srv_wf (snd (srv_rename id name S)).
Proof.
  intros Hwf. unfold srv_rename. destruct (srv_keys S !! id) as [k|] eqn:E; [|done].
  unfold srv_wf; simpl. apply map_Forall_insert_2; [|done].
  split; [done|]. by destruct (Hwf _ _ E).
Qed.

Lemma srv_delete_wf id S : srv_wf S -> srv_wf (snd (srv_delete id S)).
Proof. intros Hwf. by apply map_Forall_delete. Qed.

Lemma srv_delete_ids id S : srv_ids (snd (srv_delete id S)) = srv_ids S ∖ {[id]}.
Proof. unfold srv_ids; simpl. by rewrite dom_delete_L. Qed.

#[export] Hint Resolve srv_create_wf srv_rename_wf srv_delete_wf : hrvpn.
#[export] Hint Rewrite srv_delete_ids : hrvpn_rw.

Lemma srv_wf_shrink S S' :
  srv_next S' = srv_next S -> srv_keys S' ⊆ srv_keys S -> srv_wf S -> srv_wf S'.
Proof.
  intros Hn Hsub Hwf id k Hk. destruct (Hwf id k) as [? (n & ? & ?)]; [by eapply lookup_weaken|].
  split; [done|]. exists n. rewrite Hn. done.
Qed.

Lemma issued_same_next S S' id : srv_next S' = srv_next S -> issued S id -> issued S' id.
Proof. intros Hn. apply issued_mono. lia. Qed.

Lemma server_ext S1 S2 :
  srv_next S1 = srv_next S2 -> (forall id, srv_keys S1 !! id = srv_keys S2 !! id) -> S1 = S2.
Proof. destruct S1, S2; simpl. intros -> H. f_equal. by apply map_eq. Qed.

(** [issued] is decidable: parse the id back and compare. *)
Lemma issued_iff S id :
  issued S id <->
  match py_int_of_digits id with
  | Some z => (0 <= z < Z.of_N (srv_next S))%Z /\ py_str_N (Z.to_N z) = id
  | None => False
  end.
Proof.
  split.
  - intros (n & Hn & ->). rewrite py_int_of_digits_str. rewrite N2Z.id. split; [lia|done].
  - destruct (py_int_of_digits id) as [z|]; [|done]. intros [Hz <-].
    exists (Z.to_N z). split; [lia|done].
Qed.

#[export] Instance issued_dec S id : Decision (issued S id).
Proof.
  destruct (py_int_of_digits id) as [z|] eqn:E.
  - destruct (decide ((0 <= z < Z.of_N (srv_next S))%Z /\ py_str_N (Z.to_N z) = id)) as [H|H];
      [left|right]; rewrite issued_iff, E; done.
  - right. rewrite issued_iff, E. tauto.
Defined.

#[export] Instance srv_wf_dec S : Decision (srv_wf S).
Proof. unfold srv_wf. apply _. Defined.
