(* ===== verification/World.v ===== *)
(** * The shared world of the bot's tasks and its effects

    The sweeper, the reconciliation loop and the payment webhook act on
    one world: the ledger, the Outline server, the messages sent to users
    through Telegram ([bot.send_message]), and the clock. Every call to
    Telegram or to the Outline server may fail (network, HTTP error,
    blocked bot). [w_net] decides, for each call, whether it goes through
    or raises. A world is fixed for one run of a handler or of one cycle,
    so the model covers every pattern of failures.

    The computations are in [PyM World] (see [Prelude]): a failed call
    raises, and the state changes made before it are kept. The ledger
    is local SQLite and is not made to fail.

    Each effect corresponds to a call of the sources:
    - [send uid m]: [bot.send_message(uid, text, ...)];
    - [create_key], [rename_key], [get_key], [delete_key], [get_keys]:
      the [manager] methods of the same names;
    - [utcnow]: [datetime.now(timezone.utc)];
    - [db_read], [db_update], [db_insert]: SQL statements. *)

From S2P Require Import Prelude Text Ledger Provider.

(** The messages the bot sends, one constructor per text. *)
Inductive Msg :=
  | MsgFiveDays                  (** 5 days left, with a renew button *)
  | MsgOneDay                    (** 1 day left, with a renew button *)
  | MsgExpired                   (** expired, key deleted, with a buy button *)
  | MsgTeardownError (key : string)  (** the key could not be deleted *)
  | MsgWrongAmount               (** wrong payment amount *)
  | MsgRenewed (days : Z)        (** payment received, renewed for [days] *)
  | MsgPaidKeyIntro              (** payment received, here is your key *)
  | MsgAccessUrl (url : string)  (** the access URL, with an instructions button *)
  | MsgKeyError                  (** the VPN key could not be created *)
  (** the front-end's answers; a keyboard is the list of its callback data *)
  | MsgMenu (buttons : list string)  (** "choose an action" *)
  | MsgInstructionText           (** how to install Outline *)
  | MsgYourKeys                  (** "your keys:" *)
  | MsgKeyText (url : string)    (** an access URL *)
  | MsgDaysLeft (n : Z)          (** n days left *)
  | MsgHoursLeft (n : Z)         (** less than n hours left *)
  | MsgMinutesLeft (n : Z)       (** less than n minutes left *)
  | MsgSubExpired                (** the subscription has expired *)
  | MsgRenewOrBuy                (** renew or buy, with two buttons *)
  | MsgNoActiveSubs              (** no active subscription, with a buy button *)
  | MsgChoosePeriodNew           (** periods of a new key, with three buttons *)
  | MsgNothingToRenew            (** no subscription to renew *)
  | MsgChooseSub (buttons : list string)          (** which subscription to renew *)
  | MsgChooseRenewPeriod (buttons : list string)  (** periods of a renewal *)
  | MsgBadPeriod                 (** invalid period *)
  | MsgBadRenewData              (** invalid renewal data *)
  | MsgPayLink (period amount : Z) (label : string)  (** the payment link button *)
  | MsgTestUsed                  (** the trial was already used *)
  | MsgTestKeyIntro              (** "your test key:" *)
  | MsgTestValidity              (** the key is valid for one hour *)
  | MsgTestError                 (** the trial could not be saved *)
  | MsgTestKeyFail.              (** the trial key could not be created *)

#[export] Instance Msg_eq_dec : EqDecision Msg.
Proof. solve_decision. Defined.

(** The calls that may fail. *)
Inductive Call :=
  | CallSend (uid : Z) (m : Msg)
  | CallCreateKey
  | CallRenameKey (id : string)
  | CallGetKey (id : string)
  | CallDeleteKey (id : string)
  | CallGetKeys.

Record World := mkWorld {
  w_ledger : Ledger;
  w_server : Server;
  w_outbox : list (Z * Msg);
  w_now : Z;
  w_net : Call -> bool
}.

Definition M := PyM World.

Definition set_ledger (L : Ledger) (w : World) : World :=
  mkWorld L (w_server w) (w_outbox w) (w_now w) (w_net w).

Definition set_server (S : Server) (w : World) : World :=
  mkWorld (w_ledger w) S (w_outbox w) (w_now w) (w_net w).

Definition add_msg (uid : Z) (m : Msg) (w : World) : World :=
  mkWorld (w_ledger w) (w_server w) (w_outbox w ++ [(uid, m)]) (w_now w) (w_net w).

(** ** Effects *)

Definition send (uid : Z) (m : Msg) : M unit :=
  fun w => if w_net w (CallSend uid m) then (add_msg uid m w, Some tt) else (w, None).

Definition utcnow : M Z := fun w => (w, Some (w_now w)).

Definition db_read {A} (f : Ledger -> A) : M A := fun w => (w, Some (f (w_ledger w))).

Definition db_update (f : Ledger -> Ledger) : M unit :=
  py_modify (fun w => set_ledger (f (w_ledger w)) w).

(** An insert that may violate a uniqueness constraint. *)
Definition db_insert (f : Ledger -> option Ledger) : M unit :=
  fun w => match f (w_ledger w) with
           | Some L => (set_ledger L w, Some tt)
           | None => (w, None)
           end.

Definition provider_call {A} (c : Call) (f : Server -> A * Server) : M A :=
  fun w => if w_net w c then (set_server (snd (f (w_server w))) w, Some (fst (f (w_server w))))
           else (w, None).

Definition create_key : M RemoteKey := provider_call CallCreateKey srv_create.

Definition rename_key (id name : string) : M bool :=
  provider_call (CallRenameKey id) (srv_rename id name).

(** [get_key] raises on a missing key (HTTP 404). *)
Definition get_key (id : string) : M RemoteKey :=
  fun w => if w_net w (CallGetKey id)
           then match srv_get id (w_server w) with
                | Some k => (w, Some k)
                | None => (w, None)
                end
           else (w, None).

Definition delete_key (id : string) : M bool := provider_call (CallDeleteKey id) (srv_delete id).

Definition get_keys : M (list RemoteKey) :=
  fun w => if w_net w CallGetKeys then (w, Some (snd <$> map_to_list (srv_keys (w_server w))))
           else (w, None).

(** ** The world invariant

    The ledger and the server are well formed, and every key id of the
    ledger was issued by the server (it may since have been deleted
    there). *)
Definition world_wf (w : World) : Prop :=
  ledger_wf (w_ledger w) /\ srv_wf (w_server w) /\
  Forall (issued (w_server w)) (ledger_key_ids (w_ledger w)).

(** ** Lemmas *)

Section EffectLemmas.
Context {A : Type} (k : unit -> M A) (w : World).

Lemma send_ok uid m :
  w_net w (CallSend uid m) = true -> py_bind (send uid m) k w = k tt (add_msg uid m w).
Proof. intros H. unfold py_bind, send. by rewrite H. Qed.

Lemma send_fail uid m :
  w_net w (CallSend uid m) = false -> py_bind (send uid m) k w = (w, None).
Proof. intros H. unfold py_bind, send. by rewrite H. Qed.

Lemma db_update_bind f : py_bind (db_update f) k w = k tt (set_ledger (f (w_ledger w)) w).
Proof. reflexivity. Qed.
End EffectLemmas.

Lemma send_try_ok uid m h w :
  w_net w (CallSend uid m) = true -> py_try (send uid m) h w = (add_msg uid m w, Some tt).
Proof. intros H. unfold py_try, send. by rewrite H. Qed.

Lemma send_try_fail uid m h w :
  w_net w (CallSend uid m) = false -> py_try (send uid m) h w = h w.
Proof. intros H. unfold py_try, send. by rewrite H. Qed.

#[export] Hint Rewrite @db_update_bind : hrvpn_rw.

#[export] Instance world_wf_dec w : Decision (world_wf w).
Proof. unfold world_wf. apply _. Defined.
