(* ===== verification/Sweeper.v ===== *)
(** * The lifecycle sweeper: [check_subscriptions] of [src/tasks.py]

    Every hour the sweeper reads every row of [subscriptions] (one
    [SELECT], a snapshot) and processes the rows one after the other. For
    each row it computes the time left and takes at most one branch of an
    [if]/[elif] chain:
    - between 4 and 5 days left and no 5-day notice yet: send the notice,
      then set [notified_5_days];
    - between 0 and 1 day left and no 1-day notice yet: the same with
      [notified_1_day];
    - expired and [notified_expired] not set: delete the key on the
      server, delete the row, send the expiry message, then set
      [notified_expired] (on a row that is gone by then).
    Each branch is wrapped in [try]/[except]. The handler of the first
    two only logs. The handler of the third sends an error message to
    the user, outside any [try]: if that send fails too, the exception
    ends the [while True] task, and no later row or cycle is processed.

    [check_row] is the loop body, [sweep_rows] the [for] loop over the
    snapshot, [check_subscriptions_cycle] one iteration of the
    [while True] loop (the [asyncio.sleep(3600)] between iterations is
    the world changing between cycles). Times are microseconds, so the
    comparisons of [total_seconds()] with 345600, 432000 and 86400 are
    the comparisons of the microsecond difference with those values
    times 10^6. A key deletion that fails sets no flag, so the row is
    torn down by the first later cycle whose deletion goes through
    ([failed_teardown_retried]). *)

From S2P Require Import Prelude Text Ledger Provider World.

Module Sweeper.

Definition five_days_lo : Z := 345600 * 1000000.
Definition five_days_hi : Z := 432000 * 1000000.
Definition one_day : Z := 86400 * 1000000.

Inductive Branch := BFiveDays | BOneDay | BExpired | BNone.

(** The [if]/[elif] chain of lines 30, 49 and 68. *)
Definition branch (s : Subscription) (now : Z) : Branch :=
  let left := (expires_at s - now)%Z in
  if ((five_days_lo <? left) && (left <=? five_days_hi) && negb (notified_5_days s))%Z
  then BFiveDays
  else if ((0 <? left) && (left <=? one_day) && negb (notified_1_day s))%Z
  then BOneDay
  else if ((left <=? 0) && negb (notified_expired s))%Z
  then BExpired
  else BNone.

(** The first two branches (lines 31-46 and 50-65): send the notice,
    then set the flag; a failed send is logged and leaves the flag
    unset. *)
Definition notify (m : Msg) (f : Flag) (s : Subscription) : M unit :=
  py_try (send (sub_user s) m >> db_update (set_flag f (sub_id s))) (py_ret tt).

(** The teardown of an expired subscription, the [try] block of lines
    69-86. *)
Definition teardown (s : Subscription) : M unit :=
  delete_key (sub_key s) >>
  db_update (delete_subscription (sub_id s) (sub_user s)) >>
  send (sub_user s) MsgExpired >>
  db_update (set_flag FlagExpired (sub_id s)).

(** The body of the [for sub in subscriptions] loop. *)
Definition check_row (s : Subscription) : M unit :=
  let* now := utcnow in
  match branch s now with
  | BFiveDays => notify MsgFiveDays Flag5Days s
  | BOneDay => notify MsgOneDay Flag1Day s
  | BExpired =>
      py_try (teardown s) (send (sub_user s) (MsgTeardownError (sub_key s)))
  | BNone => py_ret tt
  end.

Fixpoint sweep_rows (rows : list Subscription) : M unit :=
  match rows with
  | [] => py_ret tt
  | s :: rest => check_row s >> sweep_rows rest
  end.

(** One iteration of [while True]: read the snapshot, then process it. *)
Definition check_subscriptions_cycle : M unit :=
  let* rows := db_read subs in sweep_rows rows.

(** ** Computation lemmas *)

Lemma check_row_eq s w :
  check_row s w =
    match branch s (w_now w) with
    | BFiveDays => notify MsgFiveDays Flag5Days s w
    | BOneDay => notify MsgOneDay Flag1Day s w
    | BExpired => py_try (teardown s) (send (sub_user s) (MsgTeardownError (sub_key s))) w
    | BNone => (w, Some tt)
    end.
Proof. unfold check_row, py_bind, utcnow. simpl. by destruct (branch s (w_now w)). Qed.

Lemma notify_eq m f s w :
  notify m f s w =
    if w_net w (CallSend (sub_user s) m)
    then (set_ledger (set_flag f (sub_id s) (w_ledger w)) (add_msg (sub_user s) m w), Some tt)
    else (w, Some tt).
Proof. unfold notify, py_try, py_bind, send. by destruct (w_net w _). Qed.

(** The world after the key is deleted and the row removed. *)
Definition torn_down (s : Subscription) (w : World) : World :=
  set_ledger (delete_subscription (sub_id s) (sub_user s) (w_ledger w))
             (set_server (snd (srv_delete (sub_key s) (w_server w))) w).

Lemma teardown_eq s w :
  teardown s w =
    if w_net w (CallDeleteKey (sub_key s)) then
      if w_net w (CallSend (sub_user s) MsgExpired)
      then (set_ledger (set_flag FlagExpired (sub_id s) (w_ledger (torn_down s w)))
                       (add_msg (sub_user s) MsgExpired (torn_down s w)), Some tt)
      else (torn_down s w, None)
    else (w, None).
Proof.
  unfold teardown, py_bind, delete_key, provider_call, send, db_update, py_modify.
  destruct (w_net w (CallDeleteKey _)); [|done]. simpl.
  by destruct (w_net w (CallSend _ _)).
Qed.

(** ** What a row, or a cycle, may change

    [sweep_effect n w w'] : from [w] to [w'] the network and the clock are
    the same, the ledger moved by ledger steps and lost no key id it did
    not have, the server kept its counter and lost keys only, and at
    most [n] messages were appended to the outbox. *)
Definition sweep_effect (n : nat) (w w' : World) : Prop :=
  w_net w' = w_net w /\ w_now w' = w_now w /\
  rtc ledger_step (w_ledger w) (w_ledger w') /\
  ledger_key_ids (w_ledger w') ⊆ ledger_key_ids (w_ledger w) /\
  srv_next (w_server w') = srv_next (w_server w) /\
  srv_keys (w_server w') ⊆ srv_keys (w_server w) /\
  exists new, w_outbox w' = w_outbox w ++ new /\ length new <= n.

Lemma effect_refl n w : sweep_effect n w w.
Proof. split_and!; try done. exists []. rewrite app_nil_r. simpl. split; [done|lia]. Qed.

Lemma effect_trans n m w1 w2 w3 :
  sweep_effect n w1 w2 -> sweep_effect m w2 w3 -> sweep_effect (n + m) w1 w3.
Proof.
  intros (Hn1 & Ht1 & Hl1 & Hk1 & Hx1 & Hs1 & o1 & Ho1 & Hlen1)
         (Hn2 & Ht2 & Hl2 & Hk2 & Hx2 & Hs2 & o2 & Ho2 & Hlen2).
  split_and!; try congruence.
  - by transitivity (w_ledger w2).
  - by transitivity (ledger_key_ids (w_ledger w2)).
  - by transitivity (srv_keys (w_server w2)).
  - exists (o1 ++ o2). rewrite Ho2, Ho1, app_assoc, length_app. split; [done|lia].
Qed.

Lemma effect_weaken n m w w' : n <= m -> sweep_effect n w w' -> sweep_effect m w w'.
Proof.
  intros Hle (Hn & Ht & Hl & Hk & Hx & Hs & o & Ho & Hlen).
  split_and!; try done. exists o. split; [done|lia].
Qed.

Lemma effect_msg uid m w : sweep_effect 1 w (add_msg uid m w).
Proof. split_and!; try done. exists [(uid, m)]. simpl. split; [done|lia]. Qed.

Lemma effect_flag f sid w : sweep_effect 0 w (set_ledger (set_flag f sid (w_ledger w)) w).
Proof.
  split_and!; try done; simpl.
  - apply rtc_once, ls_set_flag.
  - by rewrite set_flag_key_ids.
  - exists []. rewrite app_nil_r. simpl. split; [done|lia].
Qed.

Lemma effect_torn_down s w : sweep_effect 0 w (torn_down s w).
Proof.
  split_and!; try done; simpl.
  - apply rtc_once, ls_delete_subscription.
  - apply filter_key_ids.
  - apply delete_subseteq.
  - exists []. rewrite app_nil_r. simpl. split; [done|lia].
Qed.

Lemma effect_send uid m w w' r : send uid m w = (w', r) -> sweep_effect 1 w w'.
Proof.
  unfold send. destruct (w_net w _); intros [= <- _]; [apply effect_msg|apply effect_refl].
Qed.

#[export] Hint Resolve effect_refl effect_msg effect_flag effect_torn_down effect_send : hrvpn.

Lemma check_row_effect s w w' r : check_row s w = (w', r) -> sweep_effect 1 w w'.
Proof.
  rewrite check_row_eq.
  destruct (branch s (w_now w)); rewrite ?notify_eq; unfold py_try; rewrite ?teardown_eq.
  1,2: case_if; intros [= <- _]; [|apply effect_refl];
       eapply (effect_trans 1 0); [apply effect_msg|exact (effect_flag _ _ (add_msg _ _ w))].
  - case_if; [case_if|].
    + intros [= <- _]. apply (effect_trans 0 1 _ (torn_down s w)); [apply effect_torn_down|].
      apply (effect_trans 1 0 _ (add_msg (sub_user s) MsgExpired (torn_down s w)));
        [apply effect_msg|].
      exact (effect_flag FlagExpired (sub_id s) (add_msg (sub_user s) MsgExpired (torn_down s w))).
    + intros H. apply (effect_trans 0 1 _ (torn_down s w)); eauto with hrvpn.
    + eauto with hrvpn.
  - intros [= <- _]. apply effect_refl.
Qed.

Lemma sweep_rows_effect rows w w' r :
  sweep_rows rows w = (w', r) -> sweep_effect (length rows) w w'.
Proof.
  revert w. induction rows as [|s rows IH]; intros w; simpl.
  - intros [= <- _]. apply effect_refl.
  - unfold py_bind. destruct (check_row s w) as [w1 [[]|]] eqn:E.
    + intros H. apply (effect_trans 1 (length rows) _ w1); eauto using check_row_effect.
    + intros [= <- _]. apply (effect_weaken 1); [lia|]. eauto using check_row_effect.
Qed.

(** The notice a flag records. *)
Definition msg_of_flag (f : Flag) : Msg :=
  match f with
  | Flag5Days => MsgFiveDays
  | Flag1Day => MsgOneDay
  | FlagExpired => MsgExpired
  end.

(** Whether processing the row raises out of the loop: the teardown
    failed and the error message of the [except] handler failed too. *)
Definition row_crashes (net : Call -> bool) (now : Z) (s : Subscription) : bool :=
  match branch s now with
  | BExpired =>
      (negb (net (CallDeleteKey (sub_key s))) || negb (net (CallSend (sub_user s) MsgExpired))) &&
      negb (net (CallSend (sub_user s) (MsgTeardownError (sub_key s))))
  | _ => false
  end.

Lemma check_subscriptions_cycle_eq w :
  check_subscriptions_cycle w = sweep_rows (subs (w_ledger w)) w.
Proof. reflexivity. Qed.

Lemma branch_flag_false f s now :
  flag_of f s = true -> branch s now <> match f with
                                       | Flag5Days => BFiveDays
                                       | Flag1Day => BOneDay
                                       | FlagExpired => BExpired
                                       end.
Proof.
  unfold branch. intros Hf. destruct f; simpl in Hf; rewrite Hf;
    rewrite ?andb_false_r; simpl; repeat case_if; discriminate.
Qed.

(** Project the fields of a world built by the effects. *)
Ltac world_simpl :=
  cbn [torn_down set_ledger set_server add_msg w_net w_now w_ledger w_server w_outbox] in *.

Lemma branch_expired_iff s now :
  branch s now = BExpired <-> (expires_at s - now <= 0)%Z /\ notified_expired s = false.
Proof.
  unfold branch, five_days_lo, five_days_hi, one_day.
  repeat case_if; split; intros; destruct_and?; simplify_eq; split_and?;
    try done; try congruence; lia.
Qed.

Lemma check_row_raises s w :
  snd (check_row s w) = None <-> row_crashes (w_net w) (w_now w) s = true.
Proof.
  rewrite check_row_eq. unfold row_crashes.
  destruct (branch s (w_now w)); rewrite ?notify_eq; unfold py_try; rewrite ?teardown_eq;
    unfold send;
    destruct (w_net w (CallDeleteKey (sub_key s))) eqn:E1,
      (w_net w (CallSend (sub_user s) MsgExpired)) eqn:E2,
      (w_net w (CallSend (sub_user s) (MsgTeardownError (sub_key s)))) eqn:E3;
    simpl; world_simpl; rewrite ?E1, ?E2, ?E3; repeat case_if; simpl; split; intros H;
    (discriminate H || reflexivity).
Qed.

(** ** Theorems *)

(** a sweep cycle sends at most one message per subscription row it
    read, and only appends to what was sent before. *)
Theorem sweep_cycle_one_message_per_row w :
  exists new, w_outbox (fst (check_subscriptions_cycle w)) = w_outbox w ++ new /\
              length new <= length (subs (w_ledger w)).
Proof.
  rewrite check_subscriptions_cycle_eq. destruct (sweep_rows _ w) as [w' r] eqn:E; simpl.
  by apply sweep_rows_effect in E as (_ & _ & _ & _ & _ & _ & ?).
Qed.

(** C6: the 5-day notice is sent once. A row with 4 to 5 days left and
    no 5-day notice yet gets exactly that notice, and its row gets
    [notified_5_days]. A later sweep inside the same window reads the
    row with the flag set and does nothing for it. *)
Theorem five_day_notice_once s w :
  lookup_sub (sub_id s) (w_ledger w) = Some s ->
  branch s (w_now w) = BFiveDays ->
  w_net w (CallSend (sub_user s) MsgFiveDays) = true ->
  let (w1, r) := check_row s w in
  r = Some tt /\
  w_outbox w1 = w_outbox w ++ [(sub_user s, MsgFiveDays)] /\
  lookup_sub (sub_id s) (w_ledger w1) = Some (set_flag_of Flag5Days s) /\
  forall w2, (five_days_lo < expires_at s - w_now w2 <= five_days_hi)%Z ->
    check_row (set_flag_of Flag5Days s) w2 = (w2, Some tt).
Proof.
  intros Hl Hb Hnet. rewrite check_row_eq, Hb, notify_eq, Hnet.
  split_and!; [done|done|by apply lookup_set_flag|].
  intros w2 Hwin. rewrite check_row_eq.
  unfold branch; simpl. unfold five_days_lo, five_days_hi, one_day in *.
  repeat case_if; simpl in *; try lia; done.
Qed.

(** a notice whose flag is set is never sent again: processing a
    row whose flag [f] is set sends no message of [f]'s kind. *)
Theorem check_row_no_repeat f s w :
  flag_of f s = true ->
  exists new, w_outbox (fst (check_row s w)) = w_outbox w ++ new /\
              (sub_user s, msg_of_flag f) ∉ new.
Proof.
  intros Hf. pose proof (branch_flag_false f s (w_now w) Hf) as Hb.
  rewrite check_row_eq. unfold py_try. rewrite ?teardown_eq.
  destruct (branch s (w_now w)); rewrite ?notify_eq; unfold send;
    repeat case_if; simpl;
    first [exists []; rewrite app_nil_r; split; [done|set_solver]
          |eexists [_]; split; [done|]; destruct f; simpl in *; set_solver].
Qed.

(** C7: the teardown of an expired row is all or nothing on the ledger
    and the server: either the key is gone from the server and the row
    from the ledger, or neither was touched (the delete call failed),
    so the row is still there to be retried. The key is deleted before
    the row, so no run leaves a row whose key is gone by the sweep. *)
Theorem teardown_all_or_nothing s w w' r :
  branch s (w_now w) = BExpired -> check_row s w = (w', r) ->
  ((sub_key s ∉ srv_ids (w_server w')) /\
   (forall s', s' ∈ subs (w_ledger w') -> ~ (sub_id s' = sub_id s /\ sub_user s' = sub_user s))) \/
  (w_server w' = w_server w /\ w_ledger w' = w_ledger w).
Proof.
  intros Hb. rewrite check_row_eq, Hb. unfold py_try. rewrite teardown_eq. unfold send.
  assert (Hgone : forall L, forall s', s' ∈ subs (delete_subscription (sub_id s) (sub_user s) L) ->
            ~ (sub_id s' = sub_id s /\ sub_user s' = sub_user s)).
  { intros L s' Hs'. by apply list_elem_of_filter in Hs' as [? _]. }
  assert (Hkey : sub_key s ∉ srv_ids (snd (srv_delete (sub_key s) (w_server w)))).
  { rewrite srv_delete_ids. set_solver. }
  repeat case_if; intros [= <- _]; world_simpl;
    first [right; done
          |left; split; [done|]; first [apply Hgone
                                       |intros s' (s0 & Hs0 & -> & ->)%set_flag_elem; eauto]].
Qed.

(** An expired row stays expired as time passes. *)
Lemma expired_branch_later s now now' :
  branch s now = BExpired -> (now <= now')%Z -> branch s now' = BExpired.
Proof. rewrite !branch_expired_iff. intros [? ?] ?. split; [lia|done]. Qed.

(** C31: a teardown whose key deletion failed is retried by the next
    cycle. A cycle reads the single row [s], expired; the Outline call
    [delete_key] fails and the except block tells the user. The row and
    the server are left as they were (no flag is set, so the row is
    still in the teardown branch) and the user got the error message.
    At any later time, once the deletion goes through, the next cycle
    deletes the key and the row. *)
Theorem failed_teardown_retried w s now net :
  subs (w_ledger w) = [s] -> branch s (w_now w) = BExpired ->
  w_net w (CallDeleteKey (sub_key s)) = false ->
  w_net w (CallSend (sub_user s) (MsgTeardownError (sub_key s))) = true ->
  (w_now w <= now)%Z -> net (CallDeleteKey (sub_key s)) = true ->
  let w1 := fst (check_subscriptions_cycle w) in
  let w2 := fst (check_subscriptions_cycle (mkWorld (w_ledger w1) (w_server w1) (w_outbox w1) now net)) in
  w_ledger w1 = w_ledger w /\ w_server w1 = w_server w /\
  w_outbox w1 = w_outbox w ++ [(sub_user s, MsgTeardownError (sub_key s))] /\
  subs (w_ledger w2) = [] /\ sub_key s ∉ srv_ids (w_server w2).
Proof.
  intros Hs Hb Hd Hm Hle Hd'. cbv zeta.
  assert (E1 : fst (check_subscriptions_cycle w) = add_msg (sub_user s) (MsgTeardownError (sub_key s)) w).
  { rewrite check_subscriptions_cycle_eq, Hs. cbn [sweep_rows].
    unfold py_bind. rewrite check_row_eq, Hb. unfold py_try. rewrite teardown_eq, Hd.
    unfold send. by rewrite Hm. }
  rewrite E1. world_simpl. split_and!; [done|done|done| |].
  all: rewrite check_subscriptions_cycle_eq; cbn [w_ledger]; rewrite Hs; cbn [sweep_rows].
  all: unfold py_bind; rewrite check_row_eq; cbn [w_now];
    rewrite (expired_branch_later s (w_now w) now Hb Hle); unfold py_try;
    rewrite teardown_eq; cbn [w_net]; rewrite Hd'; unfold send.
  all: repeat case_if; world_simpl.
  all: cbn; rewrite ?Hs, ?filter_cons_False by tauto; try done.
  all: rewrite dom_delete_L; set_solver.
Qed.

(** a cycle ends in an exception exactly when some row it reads
    crashes: its teardown failed and the error message to the user
    failed as well. The spec asks that one user's failure never block
    the sweep; the code lets this one escape the loop. *)
Theorem sweep_rows_raises rows w :
  snd (sweep_rows rows w) = None <-> Exists (fun s => row_crashes (w_net w) (w_now w) s = true) rows.
Proof.
  revert w. induction rows as [|s rows IH]; intros w; simpl.
  - rewrite Exists_nil. done.
  - rewrite Exists_cons. unfold py_bind.
    destruct (check_row s w) as [w1 [[]|]] eqn:E.
    + pose proof (check_row_effect _ _ _ _ E) as (Hn & Ht & _).
      rewrite IH, Hn, Ht. pose proof (check_row_raises s w) as Hr. rewrite E in Hr.
      simpl in Hr. intuition congruence.
    + pose proof (check_row_raises s w) as Hr. rewrite E in Hr. simpl in *. intuition.
Qed.

(** after a row raises, the rest of the snapshot is not processed:
    the cycle over [rows1 ++ rows2] ends exactly as the cycle over
    [rows1]. No later subscription gets its notice or its teardown in
    this cycle, nor in any later one, since the task is dead. *)
Theorem sweep_crash_skips_rest rows1 rows2 w :
  snd (sweep_rows rows1 w) = None -> sweep_rows (rows1 ++ rows2) w = sweep_rows rows1 w.
Proof.
  revert w. induction rows1 as [|s rows1 IH]; intros w; simpl; [done|].
  unfold py_bind. destruct (check_row s w) as [w1 [[]|]]; [apply IH|done].
Qed.

(** ** Witnesses

    A row of user 42 with key ["7"] and 4.5 days left at time 0, an
    expired row of user 43 with key ["8"], and the worlds around them. *)

Definition row_5d : Subscription := mkSub 1 42 "7" "ss://outline/7" (388800 * 1000000) false false false.
Definition row_exp : Subscription := mkSub 2 43 "8" "ss://outline/8" (-5) false false false.

Definition srv_78 : Server :=
  mkServer (<["7" := mkKey "7" "" "ss://outline/7"]> (<["8" := mkKey "8" "" "ss://outline/8"]> ∅)) 9.

Definition world_with (rows : list Subscription) (net : Call -> bool) : World :=
  mkWorld (mkLedger rows 3 [] []) srv_78 [] 0 net.

(** Every call goes through. *)
Definition net_up : Call -> bool := fun _ => true.

(** The server refuses deletions and Telegram refuses every message. *)
Definition net_down : Call -> bool :=
  fun c => match c with CallDeleteKey _ | CallSend _ _ => false | _ => true end.

Lemma five_day_notice_once_witness :
  w_outbox (fst (check_row row_5d (world_with [row_5d] net_up))) = [(42%Z, MsgFiveDays)] /\
  check_row (set_flag_of Flag5Days row_5d) (world_with [] net_up) = (world_with [] net_up, Some tt).
Proof.
  pose proof (five_day_notice_once row_5d (world_with [row_5d] net_up) eq_refl eq_refl eq_refl) as H.
  destruct (check_row row_5d _) as [w1 r]; simpl. destruct H as (_ & -> & _ & H). split; [done|].
  apply H. unfold five_days_lo, five_days_hi. simpl. lia.
Defined.

Lemma check_row_no_repeat_witness :
  exists new, w_outbox (fst (check_row (set_flag_of Flag5Days row_5d) (world_with [] net_up))) =
              [] ++ new /\ (42%Z, MsgFiveDays) ∉ new.
Proof. exact (check_row_no_repeat Flag5Days (set_flag_of Flag5Days row_5d) (world_with [] net_up) eq_refl). Defined.

Lemma teardown_all_or_nothing_witness :
  w_server (fst (check_row row_exp (world_with [row_exp] net_down))) = srv_78 /\
  w_ledger (fst (check_row row_exp (world_with [row_exp] net_down))) = mkLedger [row_exp] 3 [] [].
Proof.
  destruct (teardown_all_or_nothing row_exp (world_with [row_exp] net_down) _ _ eq_refl
              (surjective_pairing _)) as [[Hk _]|[Hs Hl]].
  - exfalso. apply Hk. vm_compute. set_solver.
  - by rewrite Hs, Hl.
Defined.

(** Deletions fail, messages go through. *)
Definition net_no_delete : Call -> bool :=
  fun c => match c with CallDeleteKey _ => false | _ => true end.

(** The expired row of user 43 survives a cycle whose deletion fails,
    and goes an hour later, once the server accepts the deletion. *)
Lemma failed_teardown_retried_witness :
  let w1 := fst (check_subscriptions_cycle (world_with [row_exp] net_no_delete)) in
  let w2 := fst (check_subscriptions_cycle (mkWorld (w_ledger w1) (w_server w1) (w_outbox w1) 3600000000 net_up)) in
  w_ledger w1 = mkLedger [row_exp] 3 [] [] /\ w_server w1 = srv_78 /\
  w_outbox w1 = [(43%Z, MsgTeardownError "8")] /\
  subs (w_ledger w2) = [] /\ "8" ∉ srv_ids (w_server w2).
Proof.
  exact (failed_teardown_retried (world_with [row_exp] net_no_delete) row_exp 3600000000 net_up
           eq_refl eq_refl eq_refl eq_refl ltac:(cbn; lia) eq_refl).
Defined.

(** The spec's isolation requirement fails on this input: the expired
    row of user 43 raises, and the row of user 42 after it never gets its
    5-day notice in this cycle. *)
Lemma sweep_crash_skips_rest_witness :
  sweep_rows ([row_exp] ++ [row_5d]) (world_with [row_exp; row_5d] net_down) =
  (world_with [row_exp; row_5d] net_down, None).
Proof.
  rewrite (sweep_crash_skips_rest [row_exp] [row_5d]); [|reflexivity].
  reflexivity.
Defined.

(** The spec's scenario of section 8: two sweeps inside the 5-day
    window send the notice once. *)
Example two_sweeps_one_notice :
  w_outbox (fst (check_subscriptions_cycle
                   (fst (check_subscriptions_cycle (world_with [row_5d] net_up))))) =
  [(42%Z, MsgFiveDays)].
Proof. vm_compute. reflexivity. Qed.

End Sweeper.
