(* ===== verification/Reconcile.v ===== *)
(** * The reconciliation loop: [sync_keys] of [src/tasks.py]

    Every ten minutes [sync_keys] lists the keys of the Outline server,
    reads the key ids of the ledger, and repairs the drift between the
    two sets:
    - keys on the server only are deleted from the server, one by one,
      each deletion in its own [try] (a failure is logged and the loop
      goes on);
    - rows whose key is on the ledger side only are deleted from the
      ledger ([DELETE ... WHERE key_id = ?]).
    The call [manager.get_keys()] is outside any [try]: when it fails the
    exception ends the task.

    Python iterates over a [set] in an order fixed by string hashing,
    which varies between runs ([PYTHONHASHSEED]). The model iterates over
    [elements] of a [gset], and [delete_orphans_perm] shows that any
    other order gives the same world. *)

From S2P Require Import Prelude Text Ledger Provider World.

Module Reconcile.

(** [for key_id in keys_only_on_server: try: manager.delete_key(key_id)
    except Exception: log]. *)
Fixpoint delete_orphans (ks : list string) : M unit :=
  match ks with
  | [] => py_ret tt
  | k :: rest => py_try (delete_key k >> py_ret tt) (py_ret tt) >> delete_orphans rest
  end.

(** [for key_id in keys_only_in_db: DELETE FROM subscriptions WHERE
    key_id = ?], then one commit. *)
Definition delete_rows (ks : list string) (L : Ledger) : Ledger :=
  foldl (fun L k => delete_by_key k L) L ks.

(** One iteration of the [while True] loop of [sync_keys]. *)
Definition sync_keys_cycle : M unit :=
  let* server_keys := get_keys in
  let server_key_ids : gset string := list_to_set (key_id <$> server_keys) in
  let* db_key_ids := db_read (fun L => list_to_set (ledger_key_ids L) : gset string) in
  let keys_only_on_server := server_key_ids ∖ db_key_ids in
  let keys_only_in_db := db_key_ids ∖ server_key_ids in
  delete_orphans (elements keys_only_on_server) >>
  db_update (delete_rows (elements keys_only_in_db)).

(** ** Lemmas *)

(** The server after [delete_orphans ks]: a key is gone exactly when it
    is in [ks] and its deletion went through. *)
Definition deleted_by (net : Call -> bool) (ks : list string) (id : string) : Prop :=
  id ∈ ks /\ net (CallDeleteKey id) = true.

#[export] Instance deleted_by_dec net ks id : Decision (deleted_by net ks id).
Proof. unfold deleted_by. apply _. Defined.

Lemma deleted_by_cons_fail net k ks id :
  net (CallDeleteKey k) = false -> deleted_by net (k :: ks) id <-> deleted_by net ks id.
Proof.
  intros Hk. unfold deleted_by. rewrite elem_of_cons.
  split; [intros [[->|?] ?]; [congruence|done]|intros [? ?]; auto].
Qed.

Lemma set_server_id w : set_server (w_server w) w = w.
Proof. by destruct w. Qed.

Lemma set_ledger_id w : set_ledger (w_ledger w) w = w.
Proof. by destruct w. Qed.

Lemma delete_orphans_spec ks w :
  exists S', delete_orphans ks w = (set_server S' w, Some tt) /\
    srv_next S' = srv_next (w_server w) /\
    forall id, srv_keys S' !! id =
      if decide (deleted_by (w_net w) ks id) then None else srv_keys (w_server w) !! id.
Proof.
  revert w. induction ks as [|k ks IH]; intros w.
  - exists (w_server w). rewrite set_server_id. split_and!; [done|done|].
    intros id. case_decide as Hd; [|done]. destruct Hd as [Hin _]. by apply elem_of_nil in Hin.
  - cbn [delete_orphans]. unfold py_bind, py_try, delete_key, provider_call.
    destruct (w_net w (CallDeleteKey k)) eqn:Hk; simpl.
    + destruct (IH (set_server (mkServer (delete k (srv_keys (w_server w))) (srv_next (w_server w))) w))
        as (S' & -> & Hn & Hl).
      exists S'. split_and!; [done|done|]. intros id. rewrite Hl; simpl.
      destruct (decide (id = k)) as [->|Hne].
      * rewrite lookup_delete_eq. repeat case_decide; try done.
        all: match goal with H : ¬ deleted_by _ (_ :: _) _ |- _ =>
               destruct H; split; [set_solver|done] end.
      * rewrite lookup_delete_ne by done. unfold deleted_by. simpl.
        repeat case_decide; set_solver.
    + destruct (IH w) as (S' & -> & Hn & Hl). exists S'. split_and!; [done|done|].
      intros id. rewrite Hl. pose proof (deleted_by_cons_fail _ k ks id Hk).
      repeat case_decide; tauto.
Qed.

(** C32: the order in which Python iterates over the set of orphans does
    not matter: deleting them in any permutation of the list gives the
    same world. *)
Lemma delete_orphans_perm ks ks' w :
  ks ≡ₚ ks' -> delete_orphans ks w = delete_orphans ks' w.
Proof.
  intros Hp.
  destruct (delete_orphans_spec ks w) as (S1 & -> & Hn1 & Hl1).
  destruct (delete_orphans_spec ks' w) as (S2 & -> & Hn2 & Hl2).
  destruct S1 as [m1 n1], S2 as [m2 n2]; simpl in *. subst.
  do 3 f_equal. apply map_eq. intros id. rewrite Hl1, Hl2.
  assert (deleted_by (w_net w) ks id <-> deleted_by (w_net w) ks' id).
  { unfold deleted_by. by rewrite Hp. }
  repeat case_decide; tauto.
Qed.

Lemma delete_rows_spec ks L :
  delete_rows ks L = with_subs L (filter (fun s => sub_key s ∉ ks) (subs L)).
Proof.
  revert L. induction ks as [|k ks IH]; intros L; simpl.
  - destruct L as [l n t p]. unfold with_subs; simpl. f_equal. symmetry.
    apply filter_all. intros s _. apply not_elem_of_nil.
  - rewrite IH. unfold delete_by_key, with_subs; simpl. f_equal.
    apply filter_filter_iff. intros s. rewrite not_elem_of_cons. tauto.
Qed.

(** With a well formed server, [GET /access-keys] lists its key ids. *)
Lemma get_keys_ids S :
  srv_wf S -> list_to_set (key_id <$> (snd <$> map_to_list (srv_keys S))) = srv_ids S.
Proof.
  intros Hwf. apply set_eq. intros id.
  rewrite elem_of_list_to_set, list_elem_of_fmap. unfold srv_ids. rewrite elem_of_dom.
  split.
  - intros (k & -> & ([id' k'] & -> & Hin)%list_elem_of_fmap). simpl.
    apply elem_of_map_to_list in Hin. destruct (Hwf _ _ Hin) as [-> _]. eauto.
  - intros [k Hk]. exists k. destruct (Hwf _ _ Hk) as [Hid _]. split; [done|].
    apply list_elem_of_fmap. exists (key_id k, k). split; [done|].
    apply elem_of_map_to_list. by rewrite Hid.
Qed.

(** The outcome of a cycle whose [get_keys] call went through. *)
Lemma sync_keys_cycle_eq w :
  srv_wf (w_server w) -> w_net w CallGetKeys = true ->
  let srv := srv_ids (w_server w) in
  let db : gset string := list_to_set (ledger_key_ids (w_ledger w)) in
  exists S', sync_keys_cycle w =
    (set_ledger (delete_rows (elements (db ∖ srv)) (w_ledger w)) (set_server S' w), Some tt) /\
    srv_next S' = srv_next (w_server w) /\
    forall id, srv_keys S' !! id =
      if decide (deleted_by (w_net w) (elements (srv ∖ db)) id) then None
      else srv_keys (w_server w) !! id.
Proof.
  intros Hwf Hget srv db. unfold sync_keys_cycle, py_bind, get_keys, db_read. rewrite Hget.
  simpl. rewrite get_keys_ids by done. fold srv db.
  destruct (delete_orphans_spec (elements (srv ∖ db)) w) as (S' & -> & Hn & Hl).
  exists S'. split_and!; done.
Qed.

Lemma delete_rows_key_ids (X : gset string) L :
  (list_to_set (ledger_key_ids (delete_rows (elements X) L)) : gset string) =
  list_to_set (ledger_key_ids L) ∖ X.
Proof.
  rewrite delete_rows_spec. apply set_eq. intros k. unfold ledger_key_ids; simpl.
  rewrite elem_of_difference, !elem_of_list_to_set, !list_elem_of_fmap. split.
  - intros (s & -> & [Hn Hs]%list_elem_of_filter). rewrite elem_of_elements in Hn. eauto.
  - intros [(s & -> & Hs) Hn]. exists s. split; [done|].
    apply list_elem_of_filter. by rewrite elem_of_elements.
Qed.

Lemma srv_ids_after (net : Call -> bool) (X : gset string) S S' :
  (forall id, srv_keys S' !! id =
     if decide (deleted_by net (elements X) id) then None else srv_keys S !! id) ->
  forall id, id ∈ srv_ids S' <-> id ∈ srv_ids S /\ ~ (id ∈ X /\ net (CallDeleteKey id) = true).
Proof.
  intros Hl id. unfold srv_ids. rewrite !elem_of_dom, Hl.
  case_decide as Hd; unfold deleted_by in Hd; rewrite elem_of_elements in Hd.
  - split; [by intros []|tauto].
  - tauto.
Qed.

(** ** Theorems *)

(** with no drift (the ledger's key ids are exactly the server's),
    a reconciliation cycle changes nothing. *)
Theorem sync_no_drift_noop w :
  srv_wf (w_server w) -> w_net w CallGetKeys = true ->
  list_to_set (ledger_key_ids (w_ledger w)) = srv_ids (w_server w) ->
  sync_keys_cycle w = (w, Some tt).
Proof.
  intros Hwf Hget Hsame. destruct (sync_keys_cycle_eq w Hwf Hget) as (S' & -> & Hn & Hl).
  simpl in *. rewrite Hsame, difference_diag_L in *. rewrite elements_empty in Hl |- *.
  assert (S' = w_server w) as ->.
  { apply server_ext; [done|]. intros id. rewrite Hl. case_decide as Hd; [|done].
    destruct Hd as [?%elem_of_nil _]. done. }
  rewrite set_server_id. cbn [delete_rows foldl]. by rewrite set_ledger_id.
Qed.

(** C22: a cycle whose calls all go through repairs the drift: afterwards
    the ledger's key ids are exactly the server's key ids, which are the
    key ids present on both sides before. *)
Theorem sync_repairs_drift w :
  srv_wf (w_server w) -> w_net w CallGetKeys = true ->
  (forall k, w_net w (CallDeleteKey k) = true) ->
  let w' := fst (sync_keys_cycle w) in
  list_to_set (ledger_key_ids (w_ledger w')) = srv_ids (w_server w') /\
  srv_ids (w_server w') = srv_ids (w_server w) ∩ list_to_set (ledger_key_ids (w_ledger w)).
Proof.
  intros Hwf Hget Hdel. destruct (sync_keys_cycle_eq w Hwf Hget) as (S' & -> & Hn & Hl).
  simpl. rewrite delete_rows_key_ids.
  pose proof (srv_ids_after _ _ _ _ Hl) as Hids.
  assert (srv_ids S' = srv_ids (w_server w) ∩ list_to_set (ledger_key_ids (w_ledger w))) as HS.
  { apply set_eq. intros id. rewrite Hids, Hdel, elem_of_intersection, elem_of_difference.
    clear. destruct (decide (id ∈ (list_to_set (ledger_key_ids (w_ledger w)) : gset string))); tauto. }
  rewrite HS. split; [|done]. clear. apply set_eq. intros id.
  rewrite elem_of_intersection, !elem_of_difference.
  destruct (decide (id ∈ srv_ids (w_server w))); tauto.
Qed.


(** An orphan whose deletion succeeds is gone after the cycle. *)
Lemma sync_orphan_gone w k :
  srv_wf (w_server w) -> w_net w CallGetKeys = true ->
  k ∈ srv_ids (w_server w) -> k ∉ ledger_key_ids (w_ledger w) ->
  w_net w (CallDeleteKey k) = true ->
  k ∉ srv_ids (w_server (fst (sync_keys_cycle w))).
Proof.
  intros Hwf Hget Hk Hnot Hdel. destruct (sync_keys_cycle_eq w Hwf Hget) as (S' & -> & Hn & Hl).
  simpl. rewrite (srv_ids_after _ _ _ _ Hl). intros [_ []]. split; [|done].
  apply elem_of_difference. split; [done|]. rewrite elem_of_list_to_set. done.
Qed.

(** C8: a key on the server that no ledger row owns is deleted from the
    server by one cycle, whatever happens to the deletion of the other
    orphans. A ledger row whose key is on the server is kept. *)
Theorem sync_orphan_remote_deleted w k :
  srv_wf (w_server w) -> w_net w CallGetKeys = true ->
  k ∈ srv_ids (w_server w) -> k ∉ ledger_key_ids (w_ledger w) ->
  w_net w (CallDeleteKey k) = true ->
  let w' := fst (sync_keys_cycle w) in
  k ∉ srv_ids (w_server w') /\
  forall s, s ∈ subs (w_ledger w) -> sub_key s ∈ srv_ids (w_server w) -> s ∈ subs (w_ledger w').
Proof.
  intros Hwf Hget Hk Hnot Hdel. split; [by apply sync_orphan_gone|].
  destruct (sync_keys_cycle_eq w Hwf Hget) as (S' & -> & Hn & Hl). simpl.
  intros s Hs Hks. rewrite delete_rows_spec. simpl. apply list_elem_of_filter.
    split; [|done]. rewrite elem_of_elements. set_solver.
Qed.

(** C28: when [manager.get_keys()] fails, the exception leaves the cycle
    before any repair; the task of [sync_keys] ends there. *)
Theorem sync_get_keys_failure_raises w :
  w_net w CallGetKeys = false -> sync_keys_cycle w = (w, None).
Proof. intros H. unfold sync_keys_cycle, py_bind, get_keys. by rewrite H. Qed.

(** ** Witnesses

    The spec's scenario of section 8: the server holds keys ["7"] and
    ["9"], the ledger has one row, for key ["7"]; key ["9"] is an orphan
    on the server. A second world also has a row for key ["5"], which the
    server no longer has. *)

Definition srv_79 : Server :=
  mkServer (<["7" := mkKey "7" "" "ss://outline/7"]> (<["9" := mkKey "9" "" "ss://outline/9"]> ∅)) 10.

Definition row_7 : Subscription := mkSub 1 42 "7" "ss://outline/7" 0 false false false.
Definition row_5 : Subscription := mkSub 2 43 "5" "ss://outline/5" 0 false false false.

Definition sync_world (rows : list Subscription) (S : Server) (net : Call -> bool) : World :=
  mkWorld (mkLedger rows 3 [] []) S [] 0 net.

Definition all_up : Call -> bool := fun _ => true.

Lemma sync_orphan_remote_deleted_witness :
  "9" ∉ srv_ids (w_server (fst (sync_keys_cycle (sync_world [row_7] srv_79 all_up)))) /\
  row_7 ∈ subs (w_ledger (fst (sync_keys_cycle (sync_world [row_7] srv_79 all_up)))).
Proof.
  destruct (sync_orphan_remote_deleted (sync_world [row_7] srv_79 all_up) "9") as [H1 H2].
  - apply (bool_decide_unpack _). vm_compute. reflexivity.
  - reflexivity.
  - vm_compute. set_solver.
  - vm_compute. set_solver.
  - reflexivity.
  - split; [done|]. apply H2; [apply list_elem_of_here|vm_compute; set_solver].
Defined.

Lemma sync_repairs_drift_witness :
  srv_ids (w_server (fst (sync_keys_cycle (sync_world [row_7; row_5] srv_79 all_up)))) = {["7"]}.
Proof.
  destruct (sync_repairs_drift (sync_world [row_7; row_5] srv_79 all_up)) as [_ ->].
  - apply (bool_decide_unpack _). vm_compute. reflexivity.
  - reflexivity.
  - reflexivity.
  - vm_compute. set_solver.
Defined.

Lemma sync_no_drift_noop_witness :
  sync_keys_cycle (sync_world [row_7] (snd (srv_delete "9" srv_79)) all_up) =
  (sync_world [row_7] (snd (srv_delete "9" srv_79)) all_up, Some tt).
Proof.
  apply sync_no_drift_noop.
  - apply (bool_decide_unpack _). vm_compute. reflexivity.
  - reflexivity.
  - vm_compute. set_solver.
Defined.


Lemma sync_get_keys_failure_raises_witness :
  sync_keys_cycle (sync_world [row_5] srv_79 (fun _ => false)) =
  (sync_world [row_5] srv_79 (fun _ => false), None).
Proof. by apply sync_get_keys_failure_raises. Defined.

Lemma delete_orphans_perm_witness :
  delete_orphans ["7"; "9"] (sync_world [] srv_79 all_up) =
  delete_orphans ["9"; "7"] (sync_world [] srv_79 all_up).
Proof. apply delete_orphans_perm. apply Permutation_swap. Defined.

End Reconcile.
