(* ===== verification/VpnManager.v ===== *)
(** * Key creation: [create_vpn_key_with_name] of [src/vpn_manager.py]

    The wrapper creates a key on the Outline server, renames it
    ["User_<user_id>_<now in ISO format>"], reads it back and returns its
    id, name and access URL. Any exception of the three calls is caught:
    the wrapper then returns [None]. A key created before the failure
    stays on the server with no ledger row; it is an orphan, and the
    next reconciliation cycle deletes it ([failed_creation_reconciled]).

    The text of [datetime.isoformat] is a parameter [isoformat] of the
    section: the name is stored on the server and never read back by the
    program. *)

From S2P Require Import Prelude Text Ledger Provider World Reconcile.

Module VpnManager.

Section WithIsoformat.
Context (isoformat : Z -> string).

Definition key_name_for (uid now : Z) : string :=
  ("User_" +:+ py_str_Z uid +:+ "_" +:+ isoformat now)%string.

Definition create_vpn_key_with_name (uid : Z) : M (option RemoteKey) :=
  py_try
    (let* key := create_key in
     let* now := utcnow in
     let* _ := rename_key (key_id key) (key_name_for uid now) in
     let* key := get_key (key_id key) in
     py_ret (Some key))
    (py_ret None).

(** ** Lemmas *)

(** The id the next [create_key] gets. *)
Definition next_key_id (w : World) : string := py_str_N (srv_next (w_server w)).

(** What a run of the wrapper may change: only the server, by adding
    the key [next_key_id w] (possibly renamed) and moving the counter. *)
Definition creation_effect (w w' : World) : Prop :=
  w_ledger w' = w_ledger w /\ w_outbox w' = w_outbox w /\
  w_now w' = w_now w /\ w_net w' = w_net w /\
  (srv_next (w_server w) <= srv_next (w_server w'))%N /\
  (srv_wf (w_server w) -> srv_wf (w_server w')) /\
  forall id, id ∈ srv_ids (w_server w') -> id ∈ srv_ids (w_server w) \/ id = next_key_id w.

(** The server after [create_key], and after the rename that follows. *)
Definition created (w : World) : Server := snd (srv_create (w_server w)).
Definition renamed (uid : Z) (w : World) : Server :=
  snd (srv_rename (next_key_id w) (key_name_for uid (w_now w)) (created w)).

Lemma create_vpn_key_eq uid w :
  create_vpn_key_with_name uid w =
  if w_net w CallCreateKey then
    if w_net w (CallRenameKey (next_key_id w)) then
      let w2 := set_server (renamed uid w) w in
      if w_net w (CallGetKey (next_key_id w)) then
        match srv_get (next_key_id w) (renamed uid w) with
        | Some k => (w2, Some (Some k))
        | None => (w2, Some None)
        end
      else (w2, Some None)
    else (set_server (created w) w, Some None)
  else (w, Some None).
Proof.
  unfold create_vpn_key_with_name, py_try, py_bind, create_key, rename_key, get_key,
    provider_call, utcnow, py_ret, renamed, created, next_key_id.
  destruct (w_net w CallCreateKey); [|done]. simpl.
  destruct (w_net w (CallRenameKey _)); [|done]. simpl.
  destruct (w_net w (CallGetKey _)); [|done]. simpl.
  by destruct (srv_get _ _).
Qed.

Lemma created_ids w : srv_ids (created w) = {[next_key_id w]} ∪ srv_ids (w_server w).
Proof. unfold srv_ids, created, next_key_id; simpl. by rewrite dom_insert_L. Qed.

Lemma renamed_lookup uid w :
  srv_keys (renamed uid w) =
  <[next_key_id w := mkKey (next_key_id w) (key_name_for uid (w_now w))
                           (outline_url (next_key_id w))]> (srv_keys (created w)).
Proof. unfold renamed, srv_rename, created; simpl. by rewrite lookup_insert_eq. Qed.

Lemma renamed_ids uid w : srv_ids (renamed uid w) = srv_ids (created w).
Proof.
  unfold srv_ids. rewrite renamed_lookup, dom_insert_L. apply subseteq_union_1_L.
  apply singleton_subseteq_l, elem_of_dom. unfold created; simpl. rewrite lookup_insert_eq. eauto.
Qed.

Lemma renamed_next uid w : srv_next (renamed uid w) = (srv_next (w_server w) + 1)%N.
Proof. unfold renamed, srv_rename. by destruct (srv_keys (created w) !! _). Qed.

Lemma creation_effect_refl w : creation_effect w w.
Proof. split_and!; try done; try lia. intros id Hid. by left. Qed.

Lemma creation_effect_server w S :
  (srv_next (w_server w) <= srv_next S)%N -> (srv_wf (w_server w) -> srv_wf S) ->
  srv_ids S = srv_ids (created w) -> creation_effect w (set_server S w).
Proof.
  intros Hn Hwf Hids. split_and!; try done. simpl. intros id. rewrite Hids, created_ids.
  rewrite elem_of_union, elem_of_singleton. tauto.
Qed.

(** The run where the three calls go through. *)
Lemma create_vpn_key_up uid w :
  w_net w CallCreateKey = true -> w_net w (CallRenameKey (next_key_id w)) = true ->
  w_net w (CallGetKey (next_key_id w)) = true ->
  create_vpn_key_with_name uid w =
  (set_server (renamed uid w) w,
   Some (Some (mkKey (next_key_id w) (key_name_for uid (w_now w)) (outline_url (next_key_id w))))).
Proof.
  intros E1 E2 E3. rewrite create_vpn_key_eq, E1, E2, E3.
  unfold srv_get. by rewrite renamed_lookup, lookup_insert_eq.
Qed.

Lemma create_vpn_key_effect uid w :
  creation_effect w (fst (create_vpn_key_with_name uid w)) /\
  snd (create_vpn_key_with_name uid w) <> None.
Proof.
  assert (Hc : creation_effect w (set_server (created w) w)).
  { apply creation_effect_server; [simpl; lia|apply srv_create_wf|done]. }
  assert (Hr : creation_effect w (set_server (renamed uid w) w)).
  { apply creation_effect_server; [rewrite renamed_next; simpl; lia| |apply renamed_ids].
    intros Hwf. by apply srv_rename_wf, srv_create_wf. }
  rewrite create_vpn_key_eq.
  destruct (w_net w CallCreateKey); [|split; [apply creation_effect_refl|done]].
  destruct (w_net w (CallRenameKey _)); [|done].
  destruct (w_net w (CallGetKey _)); [|done]. by destruct (srv_get _ _).
Qed.

(** C23: one run of the wrapper never raises: it returns [Some key] or
    [None], changes nothing but the server, where it can only add the key
    [next_key_id w], and keeps the server well formed. When the three
    calls go through it returns the new key under its new name. *)
Theorem create_vpn_key_spec uid w :
  let (w', r) := create_vpn_key_with_name uid w in
  creation_effect w w' /\ r <> None /\
  (w_net w CallCreateKey = true ->
   w_net w (CallRenameKey (next_key_id w)) = true ->
   w_net w (CallGetKey (next_key_id w)) = true ->
   r = Some (Some (mkKey (next_key_id w) (key_name_for uid (w_now w))
                         (outline_url (next_key_id w))))).
Proof.
  pose proof (create_vpn_key_effect uid w) as [He Hn]. pose proof (create_vpn_key_up uid w) as Hup.
  destruct (create_vpn_key_with_name uid w) as [w' r]. split_and!; [done|done|].
  intros E1 E2 E3. by injection (Hup E1 E2 E3).
Qed.

(** A key the ledger references was issued before, so the id the next
    creation gets is not in the ledger. *)
Lemma next_key_not_in_ledger w :
  world_wf w -> next_key_id w ∉ ledger_key_ids (w_ledger w).
Proof.
  intros (_ & _ & Hiss) Hin. rewrite Forall_forall in Hiss.
  destruct (Hiss _ Hin) as (n & Hn & Heq). unfold next_key_id in Heq.
  apply py_str_N_inj in Heq. lia.
Qed.

Lemma created_wf w : srv_wf (w_server w) -> srv_wf (created w).
Proof. apply srv_create_wf. Qed.

Lemma renamed_wf uid w : srv_wf (w_server w) -> srv_wf (renamed uid w).
Proof. intros. by apply srv_rename_wf, created_wf. Qed.

Lemma next_key_created w : next_key_id w ∈ srv_ids (created w).
Proof. rewrite created_ids. set_solver. Qed.

(** C30: when the key is created but its rename or its read-back fails,
    the wrapper returns [None] and leaves the new key on the server with
    no ledger row; the next reconciliation cycle deletes it from the
    server, provided its listing and that deletion go through. *)
Theorem failed_creation_reconciled uid w :
  world_wf w -> w_net w CallCreateKey = true ->
  (w_net w (CallRenameKey (next_key_id w)) = false \/
   w_net w (CallGetKey (next_key_id w)) = false) ->
  let (w1, r) := create_vpn_key_with_name uid w in
  r = Some None /\
  next_key_id w ∈ srv_ids (w_server w1) /\
  next_key_id w ∉ ledger_key_ids (w_ledger w1) /\
  (w_net w CallGetKeys = true -> w_net w (CallDeleteKey (next_key_id w)) = true ->
   next_key_id w ∉ srv_ids (w_server (fst (Reconcile.sync_keys_cycle w1)))).
Proof.
  intros Hwf Hc Hfail. pose proof (next_key_not_in_ledger w Hwf) as Hnot.
  destruct Hwf as (_ & Hs & _).
  assert (Hgen : forall S, srv_wf S -> next_key_id w ∈ srv_ids S ->
    let w1 := set_server S w in
    next_key_id w ∈ srv_ids (w_server w1) /\ next_key_id w ∉ ledger_key_ids (w_ledger w1) /\
    (w_net w CallGetKeys = true -> w_net w (CallDeleteKey (next_key_id w)) = true ->
     next_key_id w ∉ srv_ids (w_server (fst (Reconcile.sync_keys_cycle w1))))).
  { intros S HS Hin. split_and!; [done|done|]. intros. by apply Reconcile.sync_orphan_gone. }
  rewrite create_vpn_key_eq, Hc.
  destruct (w_net w (CallRenameKey _)) eqn:E2, (w_net w (CallGetKey _)) eqn:E3;
    try (destruct Hfail as [Hf|Hf]; congruence); (split; [done|]); apply Hgen;
    auto using created_wf, renamed_wf, next_key_created;
    rewrite renamed_ids; apply next_key_created.
Qed.

End WithIsoformat.


(** ** Witnesses

    The server of the spec's example holds keys ["7"] and ["9"] and will
    give the next key the id ["10"]; the ledger has the row of key ["7"]. *)

Definition iso_fixed (_ : Z) : string := "2026-11-09T12:00:00+00:00".

Definition vpn_world (net : Call -> bool) : World :=
  Reconcile.sync_world [Reconcile.row_7] Reconcile.srv_79 net.

Definition rename_down : Call -> bool :=
  fun c => match c with CallRenameKey _ => false | _ => true end.

Lemma create_vpn_key_spec_witness :
  snd (create_vpn_key_with_name iso_fixed 42 (vpn_world Reconcile.all_up)) =
  Some (Some (mkKey "10" "User_42_2026-11-09T12:00:00+00:00" (outline_url "10"))).
Proof.
  pose proof (create_vpn_key_spec iso_fixed 42 (vpn_world Reconcile.all_up)) as H.
  destruct (create_vpn_key_with_name _ _ _) as [w' r]. destruct H as (_ & _ & H).
  simpl. by rewrite (H eq_refl eq_refl eq_refl).
Defined.

Lemma failed_creation_reconciled_witness :
  world_wf (vpn_world rename_down) /\
  (let (w1, r) := create_vpn_key_with_name iso_fixed 42 (vpn_world rename_down) in
   r = Some None /\ "10" ∈ srv_ids (w_server w1) /\ "10" ∉ ledger_key_ids (w_ledger w1) /\
   (true = true -> true = true ->
    "10" ∉ srv_ids (w_server (fst (Reconcile.sync_keys_cycle w1))))).
Proof.
  split; [apply (bool_decide_unpack _); vm_compute; reflexivity|].
  apply (failed_creation_reconciled iso_fixed 42 (vpn_world rename_down)).
  - apply (bool_decide_unpack _). vm_compute. reflexivity.
  - reflexivity.
  - left. reflexivity.
Defined.

End VpnManager.
