(* ===== verification/PyDecimal.v ===== *)
(** * Python's [decimal.Decimal] on the amounts of the payment webhook

    [yoomoney_notification] (src/telegram_bot.py) reads the paid amount
    with [decimal.Decimal(withdraw_amount_str)], rounds it with
    [quantize(decimal.Decimal('1.00'))] under the default context
    (precision 28, [ROUND_HALF_EVEN]) and compares it with the prices
    200.00, 500.00 and 1000.00 within 0.01.

    The library is not under src/; its behaviour is modelled from the
    reference implementation [_pydecimal]:
    - [py_decimal s] is [Decimal(s)] on a string: surrounding whitespace is
      stripped, every underscore removed, then the numeric-string grammar
      (sign, digits with an optional point, an optional exponent, or
      [Inf]/[Infinity]/[NaN]/[sNaN] in any case) is matched; [None] is
      [InvalidOperation]. Digits are the ASCII ones.
    - [quantize2 x] is [x.quantize(Decimal('1.00'))]: the result has
      exponent -2, its coefficient is rounded half-even; [None] is
      [InvalidOperation] (infinities, signalling NaNs, and results of more
      than 28 digits); a quiet NaN is returned unchanged.
    Finite values are kept exact: a coefficient in [N] and an exponent in
    [Z], so 0.01 is [DFin false 1 (-2)]. *)

From S2P Require Import Prelude Text.
From Stdlib Require Import Ascii String.

Module PyDecimal.

Local Open Scope char_scope.

Inductive Dec :=
  | DFin (neg : bool) (coef : N) (exp : Z)
  | DInf (neg : bool)
  | DNaN (neg : bool) (signaling : bool).

#[export] Instance Dec_eq_dec : EqDecision Dec.
Proof. solve_decision. Defined.

(** The default context: [prec=28]. *)
Definition prec : Z := 28.

(** ** [Decimal(s)] *)

Definition lower_char (c : ascii) : ascii :=
  let n := nat_of_ascii c in
  if ((65 <=? n) && (n <=? 90))%nat then ascii_of_nat (n + 32) else c.

Fixpoint lower (s : string) : string :=
  match s with
  | EmptyString => EmptyString
  | String c s' => String (lower_char c) (lower s')
  end.

Definition parse_sign (s : string) : bool * string :=
  match s with
  | String "-" t => (true, t)
  | String "+" t => (false, t)
  | _ => (false, s)
  end.

(** The longest prefix of digits, and the rest. *)
Fixpoint take_digits (s : string) : string * string :=
  match s with
  | String c t =>
      if is_digit c then let (a, b) := take_digits t in (String c a, b) else (EmptyString, s)
  | EmptyString => (EmptyString, EmptyString)
  end.

Definition is_e (c : ascii) : bool := bool_decide (c = "e" \/ c = "E").

(** [[-+]?\d+] up to the end of the string. *)
Definition parse_exp (s : string) : option Z :=
  let (neg, t) := parse_sign s in
  match take_digits t with
  | (String _ _ as ds, EmptyString) =>
      z ← py_int_of_digits ds; Some (if neg then (- z)%Z else z)
  | _ => None
  end.

(** The finite branch of the grammar: integer digits, an optional point
    followed by fraction digits, at least one digit in all, then an
    optional exponent ([e] or [E], a sign, digits). *)
Definition parse_finite (neg : bool) (s : string) : option Dec :=
  let (ip, r1) := take_digits s in
  let (fp, r2) := match r1 with
                  | String "." t => take_digits t
                  | _ => (EmptyString, r1)
                  end in
  match (ip ++ fp)%string with
  | EmptyString => None
  | ds =>
      e ← match r2 with
          | EmptyString => Some 0%Z
          | String c t => if is_e c then parse_exp t else None
          end;
      c ← py_int_of_digits ds;
      Some (DFin neg (Z.to_N c) (e - Z.of_nat (length fp)))
  end.

(** The special values, in any case: [Inf], [Infinity], and [NaN] or
    [sNaN] followed by optional diagnostic digits. *)
Definition parse_special (neg : bool) (s : string) : option Dec :=
  let l := lower s in
  if bool_decide (l = "inf"%string \/ l = "infinity"%string) then Some (DInf neg)
  else match l with
       | String "n" (String "a" (String "n" t)) =>
           if all_chars is_digit t then Some (DNaN neg false) else None
       | String "s" (String "n" (String "a" (String "n" t))) =>
           if all_chars is_digit t then Some (DNaN neg true) else None
       | _ => None
       end.

(** [Decimal(s)]: [_parser(value.strip().replace("_", ""))]. *)
Definition py_decimal (s : string) : option Dec :=
  let (neg, r) := parse_sign (drop_char "_" (py_strip s)) in
  match parse_finite neg r with
  | Some d => Some d
  | None => parse_special neg r
  end.

(** ** [quantize(Decimal('1.00'))] *)

(** [len(str(c))]: the number of decimal digits, with fuel the bit size
    of [c], which is at least that number. *)
Fixpoint n_digits_fuel (fuel : nat) (c : N) : Z :=
  match fuel with
  | O => 1
  | S f => if (c <? 10)%N then 1 else 1 + n_digits_fuel f (c / 10)
  end.

Definition n_digits (c : N) : Z := n_digits_fuel (N.to_nat (N.size c)) c.

(** [c / 10^k] rounded half-even ([_round_half_even]). *)
Definition round_half_even (c : N) (k : N) : N :=
  let d := (10 ^ k)%N in
  let q := (c / d)%N in
  let r := (c mod d)%N in
  if (2 * r <? d)%N then q
  else if (d <? 2 * r)%N then q + 1
  else if N.even q then q else q + 1.

(** [_rescale(-2, ROUND_HALF_EVEN)] of a non-zero coefficient. *)
Definition rescale2 (c : N) (e : Z) : N :=
  if (-2 <=? e)%Z then (c * 10 ^ Z.to_N (e + 2))%N
  else round_half_even c (Z.to_N (-2 - e)).

Definition quantize2 (x : Dec) : option Dec :=
  match x with
  | DNaN _ true => None
  | DNaN neg false => Some (DNaN neg false)
  | DInf _ => None
  | DFin neg c e =>
      if (c =? 0)%N then Some (DFin neg 0 (-2))
      else if (prec <? e + n_digits c - 1 + 2 + 1)%Z then None
      else let c' := rescale2 c e in
           if (prec <? n_digits c')%Z then None else Some (DFin neg c' (-2))
  end.

(** Lines 391-396 of [yoomoney_notification]:
    [paid_amount = decimal.Decimal(withdraw_amount_str)] then
    [paid_amount.quantize(decimal.Decimal('1.00'))]; [None] is the
    [decimal.InvalidOperation] the [except] clause catches. *)
Definition read_paid_amount (s : string) : option Dec := py_decimal s ≫= quantize2.

(** The signed value of a finite [Decimal] with exponent -2, in
    hundredths. *)
Definition hundredths (neg : bool) (c : N) : Z := if neg then (- Z.of_N c)%Z else Z.of_N c.

(** The text of a price with two decimals, as the gateway sends it in
    [withdraw_amount], e.g. ["500.00"]. *)
Definition digit_char (k : N) : ascii := ascii_of_nat (48 + N.to_nat k).

Definition amount_text (n d : N) : string :=
  (py_str_N n ++ String "." (String (digit_char (d / 10)) (String (digit_char (d mod 10)) EmptyString)))%string.

(** ** Digits *)

Lemma div10_lt (x m : Z) : (0 <= x)%Z -> (x / 10 < m)%Z <-> (x < 10 * m)%Z.
Proof.
  intros Hx. pose proof (Z.div_mod x 10) as Hd. pose proof (Z.mod_pos_bound x 10) as Hm.
  split; intros H; [|apply Z.div_lt_upper_bound]; lia.
Qed.

Lemma n_digits_fuel_pos f c : (1 <= n_digits_fuel f c)%Z.
Proof. revert c. induction f; intros c; simpl; [lia|]. case_if; [lia|]. specialize (IHf (c / 10)%N). lia. Qed.

Lemma n_digits_fuel_spec f c k :
  (Z.of_N c < 10 ^ Z.of_nat (S f))%Z -> (1 <= k)%Z ->
  (n_digits_fuel f c <= k)%Z <-> (Z.of_N c < 10 ^ k)%Z.
Proof.
  revert c k. induction f as [|f IH]; intros c k Hc Hk; simpl.
  - split; [|lia]. intros _. eapply Z.lt_le_trans; [apply Hc|]. apply Z.pow_le_mono_r; lia.
  - case_if.
    + split; [|lia]. intros _. eapply Z.lt_le_trans; [|apply (Z.pow_le_mono_r 10 1 k); lia]. lia.
    + assert (H10 : (10 <= Z.of_N c)%Z) by lia.
      destruct (decide (k = 1%Z)) as [->|Hk2].
      * pose proof (n_digits_fuel_pos f (c / 10)%N). simpl. lia.
      *
        assert (Hlt : (Z.of_N c / 10 < 10 ^ Z.of_nat (S f))%Z).
        { apply div10_lt; [lia|]. rewrite <- Z.pow_succ_r by lia. rewrite <- Nat2Z.inj_succ. done. }
        specialize (IH (c / 10)%N (k - 1)%Z). rewrite N2Z.inj_div in IH.
        replace (10 ^ k)%Z with (10 * 10 ^ (k - 1))%Z by (rewrite <- Z.pow_succ_r by lia; f_equal; lia).
        rewrite <- (div10_lt (Z.of_N c)) by lia. rewrite <- IH by (simpl; lia). lia.
Qed.

(** [len(str(c)) <= k] exactly when [c < 10^k]. *)
Lemma n_digits_spec c k : (1 <= k)%Z -> (n_digits c <= k)%Z <-> (Z.of_N c < 10 ^ k)%Z.
Proof.
  intros Hk. apply n_digits_fuel_spec; [|done].
  pose proof (N.size_gt c) as Hs. rewrite Nat2Z.inj_succ, N_nat_Z.
  apply N2Z.inj_lt in Hs. rewrite N2Z.inj_pow in Hs.
  eapply Z.lt_le_trans; [apply Hs|].
  apply (Z.le_trans _ (10 ^ Z.of_N (N.size c))); [apply Z.pow_le_mono_l; lia|].
  apply Z.pow_le_mono_r; lia.
Qed.

Lemma n_digits_lower c : c <> 0%N -> (10 ^ (n_digits c - 1) <= Z.of_N c)%Z.
Proof.
  intros Hc. destruct (decide (n_digits c = 1%Z)) as [->|Hn]; [simpl; lia|].
  pose proof (n_digits_fuel_pos (N.to_nat (N.size c)) c). fold (n_digits c) in *.
  destruct (Z.le_gt_cases (10 ^ (n_digits c - 1)) (Z.of_N c)) as [|Hlt]; [done|].
  apply n_digits_spec in Hlt; lia.
Qed.

(** ** Rounding *)

(** Half-even rounding is within half a unit, and a tie goes to the even
    neighbour. *)
Lemma round_half_even_spec c k :
  let d := (10 ^ k)%N in let q := round_half_even c k in
  (2 * Z.abs (Z.of_N q * Z.of_N d - Z.of_N c) <= Z.of_N d)%Z /\
  ((2 * Z.abs (Z.of_N q * Z.of_N d - Z.of_N c) = Z.of_N d)%Z -> N.even q = true).
Proof.
  intros d q. subst q. unfold round_half_even. fold d.
  assert (Hd : d <> 0%N) by (subst d; apply N.pow_nonzero; lia).
  pose proof (N.div_mod c d Hd) as Hc. pose proof (N.mod_lt c d Hd) as Hr.
  set (q0 := (c / d)%N) in *. set (r := (c mod d)%N) in *.
  assert (Hz : Z.of_N c = (Z.of_N d * Z.of_N q0 + Z.of_N r)%Z) by lia.
  rewrite Hz. repeat case_if; try rewrite N2Z.inj_add;
    (split; [|intros Heq]); try done; clearbody d q0 r; clear Hc; try lia.
  by rewrite N.even_add, E1.
Qed.

Lemma round_half_even_ge c k : ((c / 10 ^ k)%N <= round_half_even c k)%N.
Proof. unfold round_half_even. repeat case_if; lia. Qed.

Lemma rescale2_zero e : rescale2 0 e = 0%N.
Proof.
  unfold rescale2. destruct (-2 <=? e)%Z; [done|]. unfold round_half_even.
  assert (Hp : (10 ^ Z.to_N (-2 - e))%N <> 0%N) by (apply N.pow_nonzero; lia).
  rewrite N.div_0_l, N.mod_0_l, (proj2 (N.ltb_lt _ _)) by lia. done.
Qed.

Lemma pow10_le (a b : Z) : (0 <= a <= b)%Z -> (10 ^ a <= 10 ^ b)%Z.
Proof. intros. apply Z.pow_le_mono_r; lia. Qed.

(** The first precision check of [quantize] only fails when the rescaled
    coefficient has more than 28 digits anyway. *)
Lemma rescale2_big c e :
  c <> 0%N -> (prec < e + n_digits c - 1 + 2 + 1)%Z -> (10 ^ prec <= Z.of_N (rescale2 c e))%Z.
Proof.
  intros Hc Hp. pose proof (n_digits_lower c Hc) as Hl.
  pose proof (n_digits_fuel_pos (N.to_nat (N.size c)) c). fold (n_digits c) in *.
  unfold prec in *. unfold rescale2. case_if.
  - rewrite N2Z.inj_mul, N2Z.inj_pow, Z2N.id by lia. simpl (Z.of_N 10).
    eapply Z.le_trans; [|apply Z.mul_le_mono_nonneg_r; [lia|apply Hl]].
    rewrite <- Z.pow_add_r by lia. apply pow10_le. lia.
  - eapply Z.le_trans; [|apply N2Z.inj_le, round_half_even_ge].
    rewrite N2Z.inj_div, N2Z.inj_pow, Z2N.id by lia. simpl (Z.of_N 10).
    apply Z.div_le_lower_bound; [lia|]. rewrite <- Z.pow_add_r by lia.
    eapply Z.le_trans; [|apply Hl]. apply pow10_le. lia.
Qed.

(** [quantize] of a finite value: the rescaled coefficient if it has at
    most 28 digits, [InvalidOperation] otherwise. *)
Lemma quantize2_fin neg c e :
  quantize2 (DFin neg c e) =
  if (Z.of_N (rescale2 c e) <? 10 ^ prec)%Z then Some (DFin neg (rescale2 c e) (-2)) else None.
Proof.
  simpl. case_if.
  - subst. by rewrite rescale2_zero.
  - case_if.
    + rewrite (proj2 (Z.ltb_ge _ _)); [done|]. by apply rescale2_big.
    + pose proof (n_digits_spec (rescale2 c e) prec) as Hs. unfold prec in *.
      destruct (28 <? n_digits _)%Z eqn:E1; bool_to_prop;
        destruct (Z.of_N _ <? _)%Z eqn:E2; bool_to_prop; try done; lia.
Qed.

(** ** Parsing lemmas *)

Lemma take_digits_all s : all_chars is_digit s = true -> take_digits s = (s, EmptyString).
Proof.
  induction s as [|c s IH]; simpl; [done|]. intros [-> Hs]%andb_true_iff. by rewrite IH.
Qed.

Lemma take_digits_app s c t :
  all_chars is_digit s = true -> is_digit c = false ->
  take_digits (s ++ String c t) = (s, String c t).
Proof.
  intros Hs Hc. induction s as [|c' s IH]; simpl; [by rewrite Hc|].
  simpl in Hs. apply andb_true_iff in Hs as [-> Hs]. by rewrite IH.
Qed.

Lemma parse_sign_digit c s : is_digit c = true -> parse_sign (String c s) = (false, String c s).
Proof. destruct c as [[] [] [] [] [] [] [] []]; by vm_compute. Qed.

Lemma digit_char_spec k :
  (k < 10)%N -> is_digit (digit_char k) = true /\ N.of_nat (nat_of_ascii (digit_char k) - 48) = k.
Proof.
  intros Hk. unfold digit_char, is_digit. rewrite nat_ascii_embedding by lia.
  split; [apply andb_true_iff; split; apply Nat.leb_le|]; lia.
Qed.

Lemma all_chars_no_char (p : ascii -> bool) a s :
  p a = false -> all_chars p s = true -> has_char a s = false.
Proof.
  intros Ha. induction s as [|c s IH]; simpl; [done|]. intros [Hc Hs]%andb_true_iff.
  rewrite IH by done. rewrite bool_decide_false; [done|]. intros ->. congruence.
Qed.

Definition amount_char (c : ascii) : bool := is_digit c || bool_decide (c = ".").

Lemma py_str_N_digits n : all_chars is_digit (py_str_N n) = true.
Proof.
  pose proof (py_str_N_isdigit n) as H. unfold py_isdigit in H. by destruct (py_str_N n).
Qed.

Lemma amount_text_chars n d :
  (d < 100)%N -> all_chars amount_char (amount_text n d) = true.
Proof.
  intros Hd. unfold amount_text. rewrite all_chars_app. apply andb_true_iff. split.
  - eapply all_chars_impl, py_str_N_digits. intros c Hc. unfold amount_char. by rewrite Hc.
  - destruct (digit_char_spec (d / 10)) as [H1 _]; [apply N.Div0.div_lt_upper_bound; lia|].
    destruct (digit_char_spec (d mod 10)) as [H2 _]; [apply N.mod_lt; lia|].
    cbn [all_chars]. unfold amount_char. by rewrite H1, H2, !orb_true_l.
Qed.

Lemma amount_text_no_space n d :
  (d < 100)%N -> all_chars (fun c => negb (is_space c)) (amount_text n d) = true.
Proof.
  intros Hd. eapply all_chars_impl, amount_text_chars, Hd. intros c. unfold amount_char.
  intros [H|H]%orb_true_iff; [by apply digit_no_space|by apply bool_decide_eq_true in H as ->].
Qed.

Lemma parse_sign_digits s t :
  all_chars is_digit s = true -> s <> EmptyString -> parse_sign (s ++ t) = (false, (s ++ t)%string).
Proof. destruct s as [|c s]; [done|]. intros [Hc _]%andb_true_iff _. by apply parse_sign_digit. Qed.

Lemma amount_text_parse n d :
  (d < 100)%N -> py_decimal (amount_text n d) = Some (DFin false (n * 100 + d) (-2)).
Proof.
  intros Hd. pose proof (amount_text_chars n d Hd) as Hc.
  destruct (digit_char_spec (d / 10)) as [Ha Hav]; [apply N.Div0.div_lt_upper_bound; lia|].
  destruct (digit_char_spec (d mod 10)) as [Hb Hbv]; [apply N.mod_lt; lia|].
  unfold py_decimal.
  rewrite py_strip_id by (by apply amount_text_no_space).
  rewrite drop_char_id by (eapply (all_chars_no_char amount_char), Hc; reflexivity).
  pose proof (py_str_N_digits n) as Hn. pose proof (py_str_N_nonempty n) as Hne.
  unfold amount_text. rewrite parse_sign_digits by done.
  unfold parse_finite. rewrite take_digits_app by done.
  cbn iota beta.
  rewrite take_digits_all by (cbn [all_chars]; by rewrite Ha, Hb).
  set (xy := String (digit_char (d / 10)) (String (digit_char (d mod 10)) "")).
  assert (Hne2 : (py_str_N n ++ xy)%string <> EmptyString) by (by destruct (py_str_N n)).
  assert (Hds : py_int_of_digits (py_str_N n ++ xy) = Some (Z.of_N (n * 100 + d))).
  { rewrite py_int_of_digits_acc.
    - rewrite digits_acc_app, digits_acc_str. subst xy. cbn [digits_acc]. rewrite Hav, Hbv.
      pose proof (N.div_mod d 10). f_equal. lia.
    - destruct (py_str_N n ++ xy)%string eqn:E; [done|]. unfold py_isdigit. rewrite <- E.
      rewrite all_chars_app, Hn. subst xy. cbn [all_chars]. by rewrite Ha, Hb. }
  destruct (py_str_N n ++ xy)%string as [|a s0] eqn:E; [done|].
  rewrite <- E in *. simpl. rewrite Hds. simpl. do 3 f_equal; lia.
Qed.

Lemma rescale2_exp2 c : rescale2 c (-2) = c.
Proof. unfold rescale2. simpl. lia. Qed.

Lemma amount_text_quantize n d :
  (d < 100)%N -> (Z.of_N (n * 100 + d) < 10 ^ prec)%Z ->
  read_paid_amount (amount_text n d) = Some (DFin false (n * 100 + d) (-2)).
Proof.
  intros Hd Hp. unfold read_paid_amount. rewrite amount_text_parse by done. change (Some ?x ≫= ?f) with (f x).
  rewrite quantize2_fin, rescale2_exp2, (proj2 (Z.ltb_lt _ _)) by done. done.
Qed.

(** ** Properties *)

(** [quantize(Decimal('1.00'))] of a finite value either raises or
    returns the same sign with exponent -2 and a coefficient of at most
    28 digits: the exact value when no digit is dropped, otherwise the
    nearest multiple of 0.01, a tie going to the even coefficient. *)
Theorem read_paid_amount_spec s neg c e y :
  py_decimal s = Some (DFin neg c e) -> read_paid_amount s = Some y ->
  exists c', y = DFin neg c' (-2) /\ (Z.of_N c' < 10 ^ prec)%Z /\
    if (-2 <=? e)%Z then Z.of_N c' = (Z.of_N c * 10 ^ (e + 2))%Z
    else let d := (10 ^ (-2 - e))%Z in
         (2 * Z.abs (Z.of_N c' * d - Z.of_N c) <= d)%Z /\
         ((2 * Z.abs (Z.of_N c' * d - Z.of_N c) = d)%Z -> N.even c' = true).
Proof.
  intros Hs. unfold read_paid_amount. rewrite Hs. change (Some ?x ≫= ?f) with (f x).
  rewrite quantize2_fin. case_if; [|done]. intros [= <-].
  exists (rescale2 c e). split_and!; [done|done|]. unfold rescale2. case_if.
  - rewrite N2Z.inj_mul, N2Z.inj_pow, Z2N.id by lia. done.
  - pose proof (round_half_even_spec c (Z.to_N (-2 - e))) as Hr. simpl in Hr.
    rewrite N2Z.inj_pow, Z2N.id in Hr by lia. exact Hr.
Qed.

(** ** Witnesses *)

(** [Decimal('200.005').quantize(Decimal('1.00'))] is [200.00]: the tie
    goes to the even coefficient. *)
Lemma read_paid_amount_spec_witness :
  exists c', DFin false 20000 (-2) = DFin false c' (-2) /\ (Z.of_N c' < 10 ^ prec)%Z /\
    let d := (10 ^ 1)%Z in
    (2 * Z.abs (Z.of_N c' * d - 200005) <= d)%Z /\
    ((2 * Z.abs (Z.of_N c' * d - 200005) = d)%Z -> N.even c' = true).
Proof.
  exact (read_paid_amount_spec "200.005" false 200005 (-3) _ (eq_refl _) (eq_refl _)).
Defined.

End PyDecimal.
