(* ===== verification/Payment.v ===== *)
(** * The payment webhook: [yoomoney_notification] of [src/telegram_bot.py]

    The gateway posts a form for each settled payment. The handler
    (lines 339-488) checks the SHA-1 signature over nine fields, absorbs
    an [operation_id] it has already recorded, rejects an empty label,
    reads [withdraw_amount] as a [Decimal] (see [PyDecimal]), rounds it
    half-even to hundredths ([quantize]) and matches it against the plan
    table within 0.01 ([notification_rounds_amount]; [round_cents] is
    that rounding on thousandths). A label starting with
    ["renew_"] extends subscription [sub_id] of user [user_id]; any other
    label buys a new key for the user id before the first underscore.

    The handler is a computation of [M string]: the text of the HTTP
    response, or an exception, which aiohttp turns into an HTTP 500 (the
    gateway then retries). The digest function [hashlib.sha1(...).hexdigest]
    and [YOOMONEY_SECRET] are parameters of the section, as is the text of
    [datetime.isoformat] used by the key creation. The form is a list of
    fields; [data.get(k, '')] takes the first field named [k]. *)

From S2P Require Import Prelude Text Ledger Provider World Reconcile VpnManager PyDecimal.
From Stdlib Require Import Ascii String.

Module Payment.
Import PyDecimal.
Local Open Scope Z_scope.
Local Open Scope string_scope.

Definition Form := list (string * string).

(** [data.get(k, '')] *)
Definition form_get (k : string) (f : Form) : string :=
  match find (fun kv => bool_decide (kv.1 = k)) f with
  | Some kv => kv.2
  | None => ""
  end.

(** [hmac.compare_digest] on two [str]: a [TypeError] when either holds a
    non-ASCII character, otherwise equality. *)
Definition is_ascii (c : ascii) : bool := (nat_of_ascii c <? 128)%nat.

Definition compare_digest (a b : string) : M bool :=
  if all_chars is_ascii a && all_chars is_ascii b then py_ret (bool_decide (a = b))
  else py_raise.

(** [int(s)] inside the handler: a [ValueError] leaves it. *)
Definition py_int_m (s : string) : M Z :=
  match py_int s with Some z => py_ret z | None => py_raise end.

(** [amount_mapping], in hundredths, in its insertion order. *)
Definition amount_mapping : list (Z * Z) := [(20000, 30); (50000, 90); (100000, 180)].

(** What [ROUND_HALF_EVEN] to two places does to an amount given in
    thousandths: the nearest hundredth, a tie going to the even one. *)
Definition round_cents (v : Z) : Z :=
  let q := (v / 10)%Z in let m := (v mod 10)%Z in
  if (m <? 5)%Z then q else if (5 <? m)%Z then (q + 1)%Z else if Z.even q then q else (q + 1)%Z.

(** [for amt in amount_mapping: if abs(paid_amount - amt) <= Decimal('0.01')].
    [paid] is the result of [quantize], so a finite one has exponent -2.
    Comparing a NaN raises [InvalidOperation]. The subtraction is exact:
    rounding to 28 digits only touches differences far above 0.01. *)
Fixpoint find_match (paid : Dec) (l : list (Z * Z)) : M (option (Z * Z)) :=
  match l with
  | [] => py_ret None
  | (amt, period) :: rest =>
      match paid with
      | DFin neg c _ =>
          if (Z.abs (hundredths neg c - amt) <=? 1)%Z then py_ret (Some (amt, period))
          else find_match paid rest
      | _ => py_raise
      end
  end.

(** The labels the front-end attaches to a payment link:
    [f"renew_{user_id}_{sub_id}_{ts}"] (line 221) and
    [f"{user_id}_{ts}"] (line 183). *)
Definition renew_label (user_id sub_id ts : Z) : string :=
  "renew_" ++ py_str_Z user_id ++ "_" ++ py_str_Z sub_id ++ "_" ++ py_str_Z ts.

Definition new_label (user_id ts : Z) : string := py_str_Z user_id ++ "_" ++ py_str_Z ts.

(** ** Lemmas on labels and amounts *)

Lemma underscore_app x : ("_" ++ x) = String "_" x.
Proof. reflexivity. Qed.

Lemma split_renew_label uid sid ts :
  py_split "_" (renew_label uid sid ts) = ["renew"; py_str_Z uid; py_str_Z sid; py_str_Z ts].
Proof.
  unfold renew_label. change ("renew_" ++ ?x) with ("renew" ++ String "_" x).
  rewrite !underscore_app.
  rewrite !py_split_app by (apply py_str_Z_no_underscore || reflexivity).
  by rewrite py_split_no_sep by apply py_str_Z_no_underscore.
Qed.

Lemma split_renew_label_extra uid sid ts extra :
  py_split "_" (renew_label uid sid ts ++ "_" ++ extra) =
  (["renew"; py_str_Z uid; py_str_Z sid; py_str_Z ts] ++ py_split "_" extra)%list.
Proof.
  unfold renew_label. rewrite !string_app_assoc.
  change ("renew_" ++ ?x) with ("renew" ++ String "_" x). rewrite !underscore_app.
  by rewrite !py_split_app by (apply py_str_Z_no_underscore || reflexivity).
Qed.

Lemma split_new_label uid ts : py_split "_" (new_label uid ts) = [py_str_Z uid; py_str_Z ts].
Proof.
  unfold new_label. rewrite underscore_app.
  rewrite py_split_app by apply py_str_Z_no_underscore.
  by rewrite py_split_no_sep by apply py_str_Z_no_underscore.
Qed.

Lemma renew_label_prefix uid sid ts : py_startswith (renew_label uid sid ts) "renew_" = true.
Proof. apply py_startswith_app. Qed.

Lemma py_str_Z_head z : exists c s, py_str_Z z = String c s /\ (c = "-"%char \/ is_digit c = true).
Proof.
  unfold py_str_Z. case_if; [eauto|].
  destruct (py_str_N_cons (Z.to_N z)) as (c & s & -> & Hc). eauto.
Qed.

Lemma new_label_no_prefix uid ts a p :
  is_digit a = false -> a <> "-"%char -> py_startswith (new_label uid ts) (String a p) = false.
Proof.
  intros Ha Hm. unfold new_label, py_startswith. destruct (py_str_Z_head uid) as (c & s & -> & Hc).
  change (String c s ++ ?x) with (String c (s ++ x)). simpl.
  destruct (ascii_dec a c) as [->|]; [|done]. destruct Hc as [->|Hc]; congruence.
Qed.

Lemma new_label_prefix uid ts : py_startswith (new_label uid ts) "renew_" = false.
Proof. by apply new_label_no_prefix. Qed.

Lemma new_label_nonempty uid ts : new_label uid ts <> "".
Proof. unfold new_label. destruct (py_str_Z_head uid) as (c & s & -> & _). done. Qed.

Lemma renew_label_nonempty uid sid ts : renew_label uid sid ts <> "".
Proof. done. Qed.

(** The plan a finite paid amount selects: the first within 0.01. *)
Definition plan_for (paid : Z) (l : list (Z * Z)) : option (Z * Z) :=
  find (fun '(amt, _) => bool_decide (Z.abs (paid - amt) <= 1)%Z) l.

Lemma find_match_fin neg c e l w :
  find_match (DFin neg c e) l w = (w, Some (plan_for (hundredths neg c) l)).
Proof.
  induction l as [|[amt period] l IH]; [done|]. simpl.
  destruct (Z.abs _ <=? 1)%Z eqn:E; bool_to_prop; [by rewrite bool_decide_true|].
  rewrite bool_decide_false by lia. done.
Qed.

Lemma find_match_nan neg sig l w : l <> [] -> find_match (DNaN neg sig) l w = (w, None).
Proof. by destruct l as [|[]]. Qed.

Lemma Z_even_of_N n : Z.even (Z.of_N n) = N.even n.
Proof. destruct n as [|[]]; reflexivity. Qed.

(** [quantize(Decimal('1.00'))] of an amount with three decimals. *)
Lemma rescale2_cents c : Z.of_N (rescale2 c (-3)) = round_cents (Z.of_N c).
Proof.
  unfold rescale2, round_half_even, round_cents. change (10 ^ Z.to_N (-2 - -3)%Z)%N with 10%N.
  replace (Z.of_N c / 10)%Z with (Z.of_N (c / 10)) by (rewrite N2Z.inj_div; reflexivity).
  replace (Z.of_N c mod 10)%Z with (Z.of_N (c mod 10)) by (rewrite N2Z.inj_mod; reflexivity).
  rewrite Z_even_of_N. change (-2 <=? -3)%Z with false. cbv iota.
  destruct (2 * (c mod 10) <? 10)%N eqn:E1, (10 <? 2 * (c mod 10))%N eqn:E2,
    (Z.of_N (c mod 10) <? 5)%Z eqn:E3, (5 <? Z.of_N (c mod 10))%Z eqn:E4, (N.even (c / 10));
    rewrite ?N.ltb_lt, ?N.ltb_ge, ?Z.ltb_lt, ?Z.ltb_ge in *; lia.
Qed.

Lemma rescale2_cents_bound c : (Z.of_N c < 10 ^ prec)%Z -> (Z.of_N (rescale2 c (-3)) < 10 ^ prec)%Z.
Proof.
  rewrite rescale2_cents. unfold round_cents, prec. intros Hc.
  pose proof (Z.div_le_upper_bound (Z.of_N c) 10 (10 ^ 27)%Z ltac:(lia) ltac:(lia)).
  repeat case_if; lia.
Qed.

Lemma plan_for_mapping paid amt period :
  (amt, period) ∈ amount_mapping -> (Z.abs (paid - amt) <= 1)%Z ->
  plan_for paid amount_mapping = Some (amt, period).
Proof.
  unfold amount_mapping, plan_for. rewrite !elem_of_cons, elem_of_nil.
  intros Hin Hp. simpl. repeat case_bool_decide; naive_solver lia.
Qed.

Section WithEnv.
Context (sha1_hex : string -> string) (secret : string) (isoformat : Z -> string).

(** [params = '&'.join(params_list)] *)
Definition signature_params (f : Form) : string :=
  concat "&" [form_get "notification_type" f; form_get "operation_id" f; form_get "amount" f;
              form_get "currency" f; form_get "datetime" f; form_get "sender" f;
              form_get "codepro" f; secret; form_get "label" f].

(** [data.get('withdraw_amount', '').replace(',', '.').strip()] *)
Definition withdraw_amount_str (f : Form) : string :=
  py_strip (py_replace_char "," "." (form_get "withdraw_amount" f)).

(** The [if not matching_amount] branch: a best-effort message when the
    label names a user after ["renew_"] or ["new_subscribe_"]. *)
Definition notify_wrong_amount (label : string) : M unit :=
  if py_startswith label "renew_" || py_startswith label "new_subscribe_" then
    let parts := py_split "_" label in
    if (2 <=? List.length parts)%nat then
      match parts !! 1%nat with
      | Some user_id_str =>
          if py_isdigit user_id_str then
            let* user_id := py_int_m user_id_str in send user_id MsgWrongAmount
          else py_ret tt
      | None => py_raise
      end
    else py_ret tt
  else py_ret tt.

(** The renewal branch (lines 432-453). *)
Definition renewal_branch (label op : string) (amt period : Z) : M string :=
  let parts := py_split "_" label in
  if (List.length parts <? 4)%nat then py_ret "Invalid label format for renew"
  else match parts with
       | [_; user_id_str; sub_id_str; _] =>
           if negb (py_isdigit user_id_str) || negb (py_isdigit sub_id_str) then
             py_ret "Invalid user or sub ID in label"
           else
             let* user_id := py_int_m user_id_str in
             let* sub_id := py_int_m sub_id_str in
             db_update (extend_subscription user_id sub_id period) >>
             db_insert (save_purchase_history
                          (mkPurchase user_id amt period RenewSubscription label op)) >>
             send user_id (MsgRenewed period) >>
             py_ret "OK"
       | _ => py_raise  (** [ValueError]: too many values to unpack *)
       end.

(** The new-subscription branch (lines 455-488). *)
Definition new_subscription_branch (label op : string) (amt period : Z) : M string :=
  let parts := py_split "_" label in
  if (List.length parts <? 2)%nat then py_ret "Invalid label format for new subscription"
  else match parts with
       | user_id_str :: _ =>
           if negb (py_isdigit user_id_str) then py_ret "Invalid user ID in label"
           else
             let* user_id := py_int_m user_id_str in
             let* vpn_key_data := VpnManager.create_vpn_key_with_name isoformat user_id in
             match vpn_key_data with
             | Some key =>
                 let* now := utcnow in
                 db_insert (save_subscription user_id (key_id key) (access_url key)
                              (days_us period) now) >>
                 db_insert (save_purchase_history
                              (mkPurchase user_id amt period NewSubscription label op)) >>
                 send user_id MsgPaidKeyIntro >>
                 send user_id (MsgAccessUrl (access_url key)) >>
                 py_ret "OK"
             | None =>
                 send user_id MsgKeyError >>
                 py_ret "Error creating VPN key"
             end
       | [] => py_raise
       end.

(** Lines 401-488: the plan lookup and the routing on the label, once
    the amount has been read. *)
Definition process_payment (f : Form) (paid_amount : Dec) : M string :=
  let operation_id := form_get "operation_id" f in
  let label := form_get "label" f in
  let* matching := find_match paid_amount amount_mapping in
  match matching with
  | None => notify_wrong_amount label >> py_ret "Invalid amount"
  | Some (amt, period) =>
      if py_startswith label "renew_" then renewal_branch label operation_id amt period
      else new_subscription_branch label operation_id amt period
  end.

(** The signature gate of lines 356-373: the digest is ASCII and equal
    to the one the form carries. *)
Definition signature_valid (f : Form) : bool :=
  all_chars is_ascii (sha1_hex (signature_params f)) &&
  all_chars is_ascii (form_get "sha1_hash" f) &&
  bool_decide (sha1_hex (signature_params f) = form_get "sha1_hash" f).

Definition yoomoney_notification (f : Form) : M string :=
  let operation_id := form_get "operation_id" f in
  let label := form_get "label" f in
  let* ok := compare_digest (sha1_hex (signature_params f)) (form_get "sha1_hash" f) in
  if negb ok then py_ret "Invalid signature" else
  let* seen := db_read (purchase_exists operation_id) in
  if seen then py_ret "OK" else
  if bool_decide (label = "") then py_ret "Invalid label" else
  match read_paid_amount (withdraw_amount_str f) with
  | None => py_ret "Invalid withdraw_amount"
  | Some paid_amount => process_payment f paid_amount
  end.

(** ** Lemmas *)

(** The ledger after a run either is unchanged or records the
    operation: the handler never changes the ledger without recording
    the payment that caused it. *)
Definition ledger_settled (op : string) (w w1 : World) : Prop :=
  w_ledger w1 = w_ledger w \/ purchase_exists op (w_ledger w1) = true.

Lemma compare_digest_valid f w :
  signature_valid f = true ->
  compare_digest (sha1_hex (signature_params f)) (form_get "sha1_hash" f) w = (w, Some true).
Proof.
  unfold signature_valid, compare_digest. intros Hv. bool_to_prop.
  rewrite H, H1. simpl. by rewrite H0.
Qed.

Lemma notification_valid f w :
  signature_valid f = true ->
  yoomoney_notification f w =
  if purchase_exists (form_get "operation_id" f) (w_ledger w) then (w, Some "OK")
  else if bool_decide (form_get "label" f = "") then (w, Some "Invalid label")
  else match read_paid_amount (withdraw_amount_str f) with
       | None => (w, Some "Invalid withdraw_amount")
       | Some paid => process_payment f paid w
       end.
Proof.
  intros Hv. unfold yoomoney_notification, py_bind at 1. rewrite compare_digest_valid by done.
  cbn [negb]. unfold py_bind, db_read. destruct (purchase_exists _ _); [done|].
  case_bool_decide; [done|]. by destruct (read_paid_amount _).
Qed.

Lemma py_int_m_str z w : (0 <= z)%Z -> py_int_m (py_str_Z z) w = (w, Some z).
Proof. intros Hz. unfold py_int_m. by rewrite py_int_str_Z. Qed.

(** The ledger after a renewal: the extension, then the purchase record. *)
Definition renewed_ledger (uid sid : Z) (p : PurchaseRecord) (L : Ledger) : Ledger :=
  let L1 := extend_subscription uid sid (pr_period p) L in
  mkLedger (subs L1) (next_sub_id L1) (test_usage L1) (purchases L1 ++ [p]).

Lemma renewal_branch_eq uid sid ts op amt period w :
  (0 <= uid)%Z -> (0 <= sid)%Z -> purchase_exists op (w_ledger w) = false ->
  let label := renew_label uid sid ts in
  let w1 := set_ledger (renewed_ledger uid sid
              (mkPurchase uid amt period RenewSubscription label op) (w_ledger w)) w in
  renewal_branch label op amt period w =
  if w_net w (CallSend uid (MsgRenewed period)) then (add_msg uid (MsgRenewed period) w1, Some "OK")
  else (w1, None).
Proof.
  intros Hu Hs Hop label w1. unfold renewal_branch. subst label.
  rewrite split_renew_label. cbn [List.length Nat.ltb Nat.leb].
  rewrite !py_str_Z_isdigit by done. cbn [negb orb].
  rewrite (py_bind_Some _ _ _ _ _ (py_int_m_str uid w Hu)).
  rewrite (py_bind_Some _ _ _ _ _ (py_int_m_str sid w Hs)).
  rewrite db_update_bind.
  unfold py_bind at 1, db_insert, save_purchase_history. cbn [pr_op w_ledger set_ledger].
  change (purchase_exists op (extend_subscription uid sid period (w_ledger w)))
    with (purchase_exists op (w_ledger w)). rewrite Hop.
  unfold py_bind, send. simpl. by destruct (w_net w _).
Qed.

(** The ledger after a new purchase: the new row, then the record. *)
Definition new_sub_ledger (uid : Z) (key url : string) (exp : Z) (p : PurchaseRecord)
    (L : Ledger) : Ledger :=
  mkLedger (subs L ++ [mkSub (next_sub_id L) uid key url exp false false false])
           (next_sub_id L + 1) (test_usage L) (purchases L ++ [p]).

Lemma process_new_eq uid ts op amt period w :
  (0 <= uid)%Z -> purchase_exists op (w_ledger w) = false ->
  VpnManager.next_key_id w ∉ ledger_key_ids (w_ledger w) ->
  w_net w CallCreateKey = true -> w_net w (CallRenameKey (VpnManager.next_key_id w)) = true ->
  w_net w (CallGetKey (VpnManager.next_key_id w)) = true ->
  let label := new_label uid ts in
  let url := outline_url (VpnManager.next_key_id w) in
  let w1 := set_ledger (new_sub_ledger uid (VpnManager.next_key_id w) url (w_now w + days_us period)
              (mkPurchase uid amt period NewSubscription label op) (w_ledger w))
              (set_server (VpnManager.renamed isoformat uid w) w) in
  new_subscription_branch label op amt period w =
  if w_net w (CallSend uid MsgPaidKeyIntro) then
    if w_net w (CallSend uid (MsgAccessUrl url)) then
      (add_msg uid (MsgAccessUrl url) (add_msg uid MsgPaidKeyIntro w1), Some "OK")
    else (add_msg uid MsgPaidKeyIntro w1, None)
  else (w1, None).
Proof.
  intros Hu Hop Hkey E1 E2 E3 label url w1. unfold new_subscription_branch. subst label.
  rewrite split_new_label. cbn [List.length Nat.ltb Nat.leb].
  rewrite py_str_Z_isdigit by done. cbn [negb].
  rewrite (py_bind_Some _ _ _ _ _ (py_int_m_str uid w Hu)).
  rewrite (py_bind_Some _ _ _ _ _ (VpnManager.create_vpn_key_up isoformat uid w E1 E2 E3)).
  unfold py_bind at 1, utcnow. cbn [w_now set_server].
  unfold py_bind at 1, db_insert, save_subscription. cbn [w_ledger set_server key_id access_url].
  rewrite bool_decide_false by done.
  unfold py_bind at 1, save_purchase_history. cbn [pr_op w_ledger set_ledger purchases].
  unfold purchase_exists in *. cbn [purchases]. rewrite Hop.
  subst url w1. unfold py_bind, send, py_ret. simpl.
  destruct (w_net w (CallSend uid MsgPaidKeyIntro)); simpl; [|done].
  by destruct (w_net w (CallSend uid (MsgAccessUrl _))).
Qed.

(** *** Runs that keep the ledger *)

Definition keeps_ledger {A} (c : M A) : Prop := forall w, w_ledger (fst (c w)) = w_ledger w.

Lemma keeps_ret {A} (a : A) : keeps_ledger (py_ret a).
Proof. done. Qed.

Lemma keeps_raise {A} : keeps_ledger (A:=A) py_raise.
Proof. done. Qed.

Lemma keeps_bind {A B} (c : M A) (k : A -> M B) :
  keeps_ledger c -> (forall a, keeps_ledger (k a)) -> keeps_ledger (py_bind c k).
Proof.
  intros Hc Hk w. unfold py_bind. specialize (Hc w).
  destruct (c w) as [w' [a|]]; simpl in *; [by rewrite Hk|done].
Qed.

Lemma keeps_send uid m : keeps_ledger (send uid m).
Proof. intros w. unfold send. by destruct (w_net w _). Qed.

Lemma keeps_py_int_m s : keeps_ledger (py_int_m s).
Proof. unfold py_int_m. by destruct (py_int s). Qed.

Lemma keeps_utcnow : keeps_ledger utcnow.
Proof. done. Qed.

Lemma keeps_create uid : keeps_ledger (VpnManager.create_vpn_key_with_name isoformat uid).
Proof. intros w. apply (VpnManager.create_vpn_key_effect isoformat uid w). Qed.

#[local] Hint Resolve keeps_ret keeps_raise keeps_bind keeps_send keeps_py_int_m keeps_utcnow
  keeps_create : hrvpn.

Lemma keeps_notify_wrong_amount label : keeps_ledger (notify_wrong_amount label).
Proof. unfold notify_wrong_amount. repeat case_match; auto with hrvpn. Qed.

#[local] Hint Resolve keeps_notify_wrong_amount : hrvpn.

Lemma settled_keep {A} op (c : M A) w0 w :
  w_ledger w = w_ledger w0 -> keeps_ledger c -> ledger_settled op w0 (fst (c w)).
Proof. intros Hw Hc. left. by rewrite Hc. Qed.

Lemma settled_bind {A B} op (c : M A) (k : A -> M B) w0 w :
  w_ledger w = w_ledger w0 -> keeps_ledger c ->
  (forall a w', w_ledger w' = w_ledger w0 -> ledger_settled op w0 (fst (k a w'))) ->
  ledger_settled op w0 (fst (py_bind c k w)).
Proof.
  intros Hw Hc Hk. unfold py_bind. specialize (Hc w).
  destruct (c w) as [w' [a|]] eqn:E; simpl in *; [apply Hk; congruence|left; congruence].
Qed.

(** Once the record is inserted, the rest of the run keeps the ledger. *)
Lemma recorded_after_insert {A} op p (k : unit -> M A) w :
  pr_op p = op -> purchase_exists op (w_ledger w) = false -> (forall a, keeps_ledger (k a)) ->
  purchase_exists op (w_ledger (fst (py_bind (db_insert (save_purchase_history p)) k w))) = true.
Proof.
  intros <- Hf Hk. unfold py_bind, db_insert, save_purchase_history.
  rewrite Hf. rewrite (Hk tt). cbn. unfold purchase_exists. cbn.
  apply bool_decide_eq_true. rewrite fmap_app. apply elem_of_app. right. set_solver.
Qed.

Lemma renewal_branch_settled label op amt period w :
  purchase_exists op (w_ledger w) = false ->
  ledger_settled op w (fst (renewal_branch label op amt period w)).
Proof.
  intros Hf. unfold renewal_branch.
  repeat (case_match; try (apply settled_keep; [done|auto with hrvpn]; fail)).
  apply settled_bind; [done|auto with hrvpn|]. intros uid w1 Hw1.
  apply settled_bind; [done|auto with hrvpn|]. intros sid w2 Hw2.
  rewrite db_update_bind. right. apply recorded_after_insert; [done| |auto with hrvpn].
  by rewrite Hw2.
Qed.

Lemma process_new_settled label op amt period w :
  purchase_exists op (w_ledger w) = false ->
  ledger_settled op w (fst (new_subscription_branch label op amt period w)).
Proof.
  intros Hf. unfold new_subscription_branch.
  repeat (case_match; try (apply settled_keep; [done|auto with hrvpn]; fail)).
  apply settled_bind; [done|auto with hrvpn|]. intros uid w1 Hw1.
  apply settled_bind; [done|auto with hrvpn|]. intros [key|] w2 Hw2;
    [|apply settled_keep; [done|auto with hrvpn]].
  apply settled_bind; [done|auto with hrvpn|]. intros now w3 Hw3.
  unfold py_bind at 1, db_insert. destruct (save_subscription _ _ _ _ _ _) as [L|] eqn:Hs;
    [|by left]. right. apply recorded_after_insert; [done| |auto with hrvpn].
  unfold save_subscription in Hs. case_bool_decide; simplify_eq. cbn.
  unfold purchase_exists in *. cbn. by rewrite Hw3.
Qed.

Lemma process_payment_settled f paid w :
  purchase_exists (form_get "operation_id" f) (w_ledger w) = false ->
  ledger_settled (form_get "operation_id" f) w (fst (process_payment f paid w)).
Proof.
  intros Hf. unfold process_payment. apply settled_bind; [done| |].
  - intros w'. unfold find_match. induction amount_mapping as [|[] ?]; [done|].
    destruct paid; [|done|done]. simpl. by case_if.
  - intros [[amt period]|] w' Hw'; [|apply settled_keep; [done|auto with hrvpn]].
    unfold ledger_settled. rewrite <- Hw'.
    case_if; [apply renewal_branch_settled|apply process_new_settled]; by rewrite Hw'.
Qed.

Lemma notification_settled f w :
  ledger_settled (form_get "operation_id" f) w (fst (yoomoney_notification f w)).
Proof.
  unfold yoomoney_notification, py_bind at 1, compare_digest.
  destruct (all_chars _ _ && all_chars _ _); [|by left]. cbn iota beta.
  case_bool_decide; cbv beta iota delta [py_ret negb]; [|by left]. unfold py_bind, db_read. cbn iota beta.
  destruct (purchase_exists (form_get "operation_id" f) (w_ledger w)) eqn:Hs; [by left|].
  case_bool_decide; [by left|]. destruct (read_paid_amount _); [|by left].
  by apply process_payment_settled.
Qed.

Lemma amount_mapping_bound amt period :
  (amt, period) ∈ amount_mapping -> (0 < amt <= 100000)%Z.
Proof. unfold amount_mapping. rewrite !elem_of_cons, elem_of_nil. naive_solver lia. Qed.

(** A verified, fresh notification for a plan price reaches the branch
    its label selects. *)
Lemma notification_plan f w n period :
  signature_valid f = true ->
  purchase_exists (form_get "operation_id" f) (w_ledger w) = false ->
  form_get "label" f <> "" ->
  withdraw_amount_str f = amount_text n 0 ->
  (Z.of_N n * 100, period) ∈ amount_mapping ->
  yoomoney_notification f w =
  (if py_startswith (form_get "label" f) "renew_"
   then renewal_branch (form_get "label" f) (form_get "operation_id" f) (Z.of_N n * 100) period
   else new_subscription_branch (form_get "label" f) (form_get "operation_id" f)
          (Z.of_N n * 100) period) w.
Proof.
  intros Hv Hf Hl Hwa Hplan. pose proof (amount_mapping_bound _ _ Hplan) as Hb.
  rewrite notification_valid, Hf, bool_decide_false, Hwa by done.
  rewrite amount_text_quantize by (unfold prec; lia).
  unfold process_payment, py_bind at 1. rewrite find_match_fin.
  rewrite (plan_for_mapping _ _ _ Hplan) by (unfold hundredths; lia). done.
Qed.

(** A verified, fresh renewal notification for a plan price: the
    ledger becomes [renewed_ledger], then the confirmation is sent. *)
Lemma notification_renewal_eq f w uid sid ts n period :
  signature_valid f = true ->
  purchase_exists (form_get "operation_id" f) (w_ledger w) = false ->
  form_get "label" f = renew_label uid sid ts -> (0 <= uid)%Z -> (0 <= sid)%Z ->
  withdraw_amount_str f = amount_text n 0 -> (Z.of_N n * 100, period) ∈ amount_mapping ->
  let w1 := set_ledger (renewed_ledger uid sid
              (mkPurchase uid (Z.of_N n * 100) period RenewSubscription (renew_label uid sid ts)
                 (form_get "operation_id" f)) (w_ledger w)) w in
  yoomoney_notification f w =
  if w_net w (CallSend uid (MsgRenewed period)) then (add_msg uid (MsgRenewed period) w1, Some "OK")
  else (w1, None).
Proof.
  intros Hv Hf Hl Hu Hs Hwa Hplan w1.
  rewrite (notification_plan f w n period) by (rewrite ?Hl; done).
  by rewrite Hl, renew_label_prefix, renewal_branch_eq by done.
Qed.

Lemma renewed_ledger_lookup uid sid p L s :
  lookup_sub sid L = Some s -> sub_user s = uid ->
  lookup_sub sid (renewed_ledger uid sid p L) =
  Some (mkSub sid uid (sub_key s) (sub_url s) (expires_at s + days_us (pr_period p))
              (notified_5_days s) (notified_1_day s) (notified_expired s)).
Proof.
  intros Hsub Hown. unfold lookup_sub, renewed_ledger. cbn [subs].
  fold (lookup_sub sid (extend_subscription uid sid (pr_period p) L)).
  by apply extend_subscription_additive.
Qed.

(** ** Properties *)

(** C1: idempotency: a notification whose [operation_id] is already in
    [purchase_history] is acknowledged with ["OK"] and changes nothing. *)
Theorem notification_seen_noop f w :
  signature_valid f = true ->
  purchase_exists (form_get "operation_id" f) (w_ledger w) = true ->
  yoomoney_notification f w = (w, Some "OK").
Proof. intros Hv Hs. by rewrite notification_valid, Hs. Qed.

(** C2: a run of the handler never changes the ledger without recording
    its [operation_id]; so after any run that changed the ledger, the
    gateway's redelivery of the same notification is answered ["OK"]
    and changes nothing. *)
Theorem notification_redelivery_absorbed f w :
  signature_valid f = true ->
  let w1 := fst (yoomoney_notification f w) in
  w_ledger w1 = w_ledger w \/ yoomoney_notification f w1 = (w1, Some "OK").
Proof.
  intros Hv w1. destruct (notification_settled f w) as [H|H]; [by left|].
  right. subst w1. by rewrite notification_valid, H.
Qed.

(** C20: a notification whose digest does not match is rejected with
    ["Invalid signature"] (or a [TypeError] when the digest it carries
    is not ASCII), and the world is left as it was. *)
Theorem notification_bad_signature f w :
  sha1_hex (signature_params f) <> form_get "sha1_hash" f ->
  yoomoney_notification f w = (w, Some "Invalid signature") \/
  yoomoney_notification f w = (w, None).
Proof.
  intros Hne. unfold yoomoney_notification, py_bind at 1, compare_digest.
  destruct (all_chars _ _ && all_chars _ _); [|by right].
  left. rewrite bool_decide_false by done. done.
Qed.

(** C5: renewal through the webhook is additive: a verified, fresh
    notification for a plan price with the label
    ["renew_{user_id}_{sub_id}_{ts}"] moves the expiry of the user's
    subscription forward by the plan's days from its current value,
    keeps its flags, and records the operation, whether or not the
    confirmation message goes through; the answer is ["OK"] exactly
    when it does. *)
Theorem renewal_via_webhook f w uid sid ts n period s :
  signature_valid f = true ->
  purchase_exists (form_get "operation_id" f) (w_ledger w) = false ->
  form_get "label" f = renew_label uid sid ts -> (0 <= uid)%Z -> (0 <= sid)%Z ->
  withdraw_amount_str f = amount_text n 0 -> (Z.of_N n * 100, period) ∈ amount_mapping ->
  lookup_sub sid (w_ledger w) = Some s -> sub_user s = uid ->
  let (w1, r) := yoomoney_notification f w in
  lookup_sub sid (w_ledger w1) =
    Some (mkSub sid uid (sub_key s) (sub_url s) (expires_at s + days_us period)
                (notified_5_days s) (notified_1_day s) (notified_expired s)) /\
  purchase_exists (form_get "operation_id" f) (w_ledger w1) = true /\
  (r = Some "OK" <-> w_net w (CallSend uid (MsgRenewed period)) = true).
Proof.
  intros Hv Hf Hl Hu Hs Hwa Hplan Hsub Hown.
  rewrite (notification_renewal_eq f w uid sid ts n period) by done.
  pose proof (renewed_ledger_lookup uid sid
    (mkPurchase uid (Z.of_N n * 100) period RenewSubscription (renew_label uid sid ts)
       (form_get "operation_id" f)) (w_ledger w) s Hsub Hown) as Hlk.
  destruct (w_net w _); cbn [fst snd w_ledger add_msg set_ledger]; split_and!;
    try done; try (apply purchase_exists_app; done); split; congruence.
Qed.

(** C10: a new purchase through the webhook (the spec's scenario: amount
    500.00, label ["42_1700000000"]): in a well-formed world whose key
    calls go through, a verified, fresh notification for a plan price
    creates exactly one subscription row for the user, with the new key
    and [expires_at = now + plan days], and exactly one purchase record
    keyed by its [operation_id]; the answer is ["OK"] exactly when both
    messages go through. *)
Theorem new_purchase_via_webhook f w uid ts n period :
  world_wf w ->
  signature_valid f = true ->
  purchase_exists (form_get "operation_id" f) (w_ledger w) = false ->
  form_get "label" f = new_label uid ts -> (0 <= uid)%Z ->
  withdraw_amount_str f = amount_text n 0 -> (Z.of_N n * 100, period) ∈ amount_mapping ->
  w_net w CallCreateKey = true -> w_net w (CallRenameKey (VpnManager.next_key_id w)) = true ->
  w_net w (CallGetKey (VpnManager.next_key_id w)) = true ->
  let (w1, r) := yoomoney_notification f w in
  let key := VpnManager.next_key_id w in
  subs (w_ledger w1) = (subs (w_ledger w) ++
    [mkSub (next_sub_id (w_ledger w)) uid key (outline_url key) (w_now w + days_us period)
           false false false])%list /\
  purchases (w_ledger w1) = (purchases (w_ledger w) ++
    [mkPurchase uid (Z.of_N n * 100) period NewSubscription (new_label uid ts)
                (form_get "operation_id" f)])%list /\
  (r = Some "OK" <-> w_net w (CallSend uid MsgPaidKeyIntro) = true /\
                     w_net w (CallSend uid (MsgAccessUrl (outline_url key))) = true).
Proof.
  intros Hwf Hv Hf Hl Hu Hwa Hplan E1 E2 E3.
  pose proof (VpnManager.next_key_not_in_ledger w Hwf) as Hkey.
  rewrite (notification_plan f w n period) by (rewrite ?Hl; auto using new_label_nonempty).
  rewrite Hl, new_label_prefix, process_new_eq by done.
  destruct (w_net w (CallSend uid MsgPaidKeyIntro)) eqn:E4,
    (w_net w (CallSend uid (MsgAccessUrl (outline_url (VpnManager.next_key_id w))))) eqn:E5;
    cbn [fst snd w_ledger add_msg set_ledger set_server new_sub_ledger subs purchases];
    split_and!; try done; rewrite ?E5; naive_solver.
Qed.

(** C33: a renewal paid for a subscription the user no longer has (for
    instance one the sweeper has just torn down) changes no row, yet the
    payment is recorded and the user is told the subscription was
    renewed: the money is absorbed without an extension. *)
Theorem renewal_of_missing_subscription f w uid sid ts n period :
  signature_valid f = true ->
  purchase_exists (form_get "operation_id" f) (w_ledger w) = false ->
  form_get "label" f = renew_label uid sid ts -> (0 <= uid)%Z -> (0 <= sid)%Z ->
  withdraw_amount_str f = amount_text n 0 -> (Z.of_N n * 100, period) ∈ amount_mapping ->
  (forall s, s ∈ subs (w_ledger w) -> ~ (sub_id s = sid /\ sub_user s = uid)) ->
  w_net w (CallSend uid (MsgRenewed period)) = true ->
  let (w1, r) := yoomoney_notification f w in
  subs (w_ledger w1) = subs (w_ledger w) /\
  purchase_exists (form_get "operation_id" f) (w_ledger w1) = true /\
  w_outbox w1 = (w_outbox w ++ [(uid, MsgRenewed period)])%list /\ r = Some "OK".
Proof.
  intros Hv Hf Hl Hu Hs Hwa Hplan Hnone Hsend.
  rewrite (notification_renewal_eq f w uid sid ts n period), Hsend by done.
  cbn [w_ledger add_msg set_ledger w_outbox renewed_ledger subs].
  split_and!; [by apply extend_subscription_none|by apply purchase_exists_app|done|done].
Qed.

(** C34: a renewal label with more than four parts, e.g.
    ["renew_42_7_1700000000_x"], passes the [len(parts) < 4] guard and
    makes the four-way unpacking raise [ValueError]: the request fails
    with an HTTP 500 and nothing is changed or recorded, so every
    redelivery fails the same way. *)
Theorem renew_label_extra_part_raises f w uid sid ts extra n period :
  signature_valid f = true ->
  purchase_exists (form_get "operation_id" f) (w_ledger w) = false ->
  form_get "label" f = (renew_label uid sid ts ++ "_" ++ extra) ->
  withdraw_amount_str f = amount_text n 0 -> (Z.of_N n * 100, period) ∈ amount_mapping ->
  yoomoney_notification f w = (w, None).
Proof.
  intros Hv Hf Hl Hwa Hplan.
  rewrite (notification_plan f w n period) by (rewrite ?Hl; done).
  rewrite Hl. unfold renew_label at 1. rewrite string_app_assoc, py_startswith_app.
  unfold renewal_branch. rewrite split_renew_label_extra.
  pose proof (py_split_nonempty "_" extra) as Hne.
  destruct (py_split "_" extra) as [|p ps]; [done|]. reflexivity.
Qed.

(** a [withdraw_amount] that reads as a quiet NaN (["NaN"], ["nan"],
    ["-NaN7"]) passes [quantize] unchanged, and the first comparison
    with a plan price raises [InvalidOperation] outside the [try]: the
    request fails with an HTTP 500 and changes nothing, instead of the
    ["Invalid withdraw_amount"] answer. *)
Theorem nan_withdraw_amount_raises f w neg :
  signature_valid f = true ->
  purchase_exists (form_get "operation_id" f) (w_ledger w) = false ->
  form_get "label" f <> "" ->
  py_decimal (withdraw_amount_str f) = Some (DNaN neg false) ->
  yoomoney_notification f w = (w, None).
Proof.
  intros Hv Hf Hl Hd. rewrite notification_valid, Hf, bool_decide_false by done.
  unfold read_paid_amount. rewrite Hd. change (Some ?x ≫= ?g) with (g x). cbn [quantize2].
  unfold process_payment, py_bind at 1. by rewrite find_match_nan.
Qed.

Lemma notify_wrong_amount_new uid ts : notify_wrong_amount (new_label uid ts) = py_ret tt.
Proof.
  unfold notify_wrong_amount. rewrite new_label_prefix.
  by rewrite (new_label_no_prefix uid ts "n"%char).
Qed.

Lemma notify_wrong_amount_renew uid sid ts w :
  (0 <= uid)%Z -> notify_wrong_amount (renew_label uid sid ts) w = send uid MsgWrongAmount w.
Proof.
  intros Hu. unfold notify_wrong_amount. rewrite renew_label_prefix, split_renew_label.
  cbn [orb List.length Nat.leb lookup list_lookup]. rewrite py_str_Z_isdigit by done.
  by rewrite (py_bind_Some _ _ _ _ _ (py_int_m_str uid w Hu)).
Qed.

(** C36: an amount that matches no plan is answered ["Invalid amount"];
    the user is told only when the label starts with ["renew_"]. For
    the labels of new purchases, ["{user_id}_{ts}"], the code looks for
    a ["new_subscribe_"] prefix that no label has, so the payer is never
    told that the amount was wrong. *)
Theorem wrong_amount_message f w uid sid ts neg c :
  signature_valid f = true ->
  purchase_exists (form_get "operation_id" f) (w_ledger w) = false ->
  read_paid_amount (withdraw_amount_str f) = Some (DFin neg c (-2)) ->
  plan_for (hundredths neg c) amount_mapping = None -> (0 <= uid)%Z ->
  (form_get "label" f = new_label uid ts ->
   yoomoney_notification f w = (w, Some "Invalid amount")) /\
  (form_get "label" f = renew_label uid sid ts -> w_net w (CallSend uid MsgWrongAmount) = true ->
   yoomoney_notification f w = (add_msg uid MsgWrongAmount w, Some "Invalid amount")).
Proof.
  intros Hv Hf Hd Hp Hu. split; [intros Hl|intros Hl Hs];
    rewrite notification_valid, Hf, bool_decide_false, Hd
      by (rewrite ?Hl; auto using new_label_nonempty, renew_label_nonempty);
    unfold process_payment, py_bind at 1; rewrite find_match_fin, Hp, Hl; simpl.
  - by rewrite notify_wrong_amount_new.
  - unfold py_bind. rewrite notify_wrong_amount_renew by done. unfold send. by rewrite Hs.
Qed.

(** C26: the amount is rounded before the plan lookup. A verified,
    fresh notification whose [withdraw_amount] reads as [c] thousandths
    is matched against the plans after [quantize(Decimal('1.00'))]
    rounds it half-even to hundredths: it reaches the branch of a plan
    whose price is within 0.01 of the rounded amount, and is refused as
    ["Invalid amount"] when no price is. So 199.986 buys the 200.00
    plan (it rounds to 199.99), while 199.985 rounds to 199.98 and is
    refused; without the rounding, or rounding half up, both answers
    change. *)
Theorem notification_rounds_amount f w c amt period :
  signature_valid f = true ->
  purchase_exists (form_get "operation_id" f) (w_ledger w) = false ->
  form_get "label" f <> "" ->
  py_decimal (withdraw_amount_str f) = Some (DFin false c (-3)) -> (Z.of_N c < 10 ^ prec)%Z ->
  ((amt, period) ∈ amount_mapping -> (Z.abs (round_cents (Z.of_N c) - amt) <= 1)%Z ->
   yoomoney_notification f w =
   (if py_startswith (form_get "label" f) "renew_"
    then renewal_branch (form_get "label" f) (form_get "operation_id" f) amt period
    else new_subscription_branch (form_get "label" f) (form_get "operation_id" f) amt period) w) /\
  ((forall a p, (a, p) ∈ amount_mapping -> (1 < Z.abs (round_cents (Z.of_N c) - a))%Z) ->
   yoomoney_notification f w = (notify_wrong_amount (form_get "label" f) >> py_ret "Invalid amount") w).
Proof.
  intros Hv Hf Hl Hd Hc.
  rewrite notification_valid, Hf, bool_decide_false by done.
  unfold read_paid_amount. rewrite Hd. change (Some ?x ≫= ?g) with (g x).
  rewrite quantize2_fin, (proj2 (Z.ltb_lt _ _)) by (by apply rescale2_cents_bound).
  unfold process_payment. rewrite (py_bind_Some _ _ _ _ _ (find_match_fin _ _ _ _ _)).
  change (hundredths false ?x) with (Z.of_N x). rewrite rescale2_cents. split.
  - intros Hin Hp. by rewrite (plan_for_mapping _ _ _ Hin Hp).
  - intros Hno. enough (Hn : plan_for (round_cents (Z.of_N c)) amount_mapping = None) by (rewrite Hn; done).
    pose proof (Hno 20000 30 ltac:(set_solver)). pose proof (Hno 50000 90 ltac:(set_solver)).
    pose proof (Hno 100000 180 ltac:(set_solver)).
    unfold plan_for, amount_mapping. cbn [find]. by rewrite !bool_decide_false by lia.
Qed.

(** the plan lookup selects a plan exactly when the paid amount is
    within 0.01 of its price; the prices are 3.00 apart, so at most one
    plan matches. *)
Theorem find_match_spec neg c e w :
  exists r, find_match (DFin neg c e) amount_mapping w = (w, Some r) /\
  forall amt period,
    r = Some (amt, period) <->
    (amt, period) ∈ amount_mapping /\ (Z.abs (hundredths neg c - amt) <= 1)%Z.
Proof.
  rewrite find_match_fin. eexists. split; [done|]. intros amt period. split.
  - unfold plan_for, amount_mapping. simpl. rewrite !elem_of_cons, elem_of_nil.
    repeat case_bool_decide; intros; simplify_eq; naive_solver.
  - intros [Hin Hp]. by apply plan_for_mapping.
Qed.

Lemma signature_valid_withdraw f x :
  signature_valid (("withdraw_amount", x) :: f) = signature_valid f.
Proof. reflexivity. Qed.

(** C27: [withdraw_amount], the amount the plan is chosen by, is not
    among the signed fields: replacing it in a correctly signed
    notification keeps the signature valid, and the forged notification
    is routed to the plan of the forged amount. *)
Theorem withdraw_amount_not_signed f w n period :
  signature_valid f = true ->
  purchase_exists (form_get "operation_id" f) (w_ledger w) = false ->
  form_get "label" f <> "" -> (Z.of_N n * 100, period) ∈ amount_mapping ->
  let f' := ("withdraw_amount", amount_text n 0) :: f in
  signature_valid f' = true /\
  yoomoney_notification f' w =
  (if py_startswith (form_get "label" f) "renew_"
   then renewal_branch (form_get "label" f) (form_get "operation_id" f) (Z.of_N n * 100) period
   else new_subscription_branch (form_get "label" f) (form_get "operation_id" f)
          (Z.of_N n * 100) period) w.
Proof.
  intros Hv Hf Hl Hplan f'. assert (Hv' : signature_valid f' = true).
  { subst f'. by rewrite signature_valid_withdraw. }
  split; [done|]. apply (notification_plan f' w n period); try done.
  unfold withdraw_amount_str. change (form_get "withdraw_amount" f') with (amount_text n 0).
  rewrite py_replace_char_id by (eapply all_chars_no_char, amount_text_chars; [done|lia]).
  apply py_strip_id, amount_text_no_space. lia.
Qed.

End WithEnv.

(** ** Witnesses

    A signed notification built from the fields of the gateway's
    documentation; the digest is a stand-in ([wit_hash] is the identity),
    and the world is the one of [VpnManager]: user 42 owns subscription 1
    with key ["7"], the server will give the next key the id ["10"]. *)

Definition wit_hash (s : string) : string := s.
Definition wit_secret : string := "s3cret".

Definition wit_form (label wa : string) : Form :=
  [("notification_type", "p2p-incoming"); ("operation_id", "op-1"); ("amount", "490.00");
   ("currency", "643"); ("datetime", "2026-11-09T12:00:00Z"); ("sender", "41001");
   ("codepro", "false"); ("label", label); ("withdraw_amount", wa);
   ("sha1_hash", concat "&" ["p2p-incoming"; "op-1"; "490.00"; "643"; "2026-11-09T12:00:00Z";
                             "41001"; "false"; wit_secret; label])].

Definition wit_world : World := VpnManager.vpn_world Reconcile.all_up.

Definition wit_paid_world : World :=
  mkWorld (mkLedger [Reconcile.row_7] 3 []
             [mkPurchase 42 20000 30 RenewSubscription (renew_label 42 1 1700000000) "op-1"])
          Reconcile.srv_79 [] 0 Reconcile.all_up.

Definition wit_notify (f : Form) (w : World) : World * option string :=
  yoomoney_notification wit_hash wit_secret VpnManager.iso_fixed f w.

Lemma notification_seen_noop_witness :
  wit_notify (wit_form (renew_label 42 1 1700000000) "200.00") wit_paid_world =
  (wit_paid_world, Some "OK").
Proof. apply notification_seen_noop; vm_compute; reflexivity. Defined.

Lemma notification_redelivery_absorbed_witness :
  let w1 := fst (wit_notify (wit_form (renew_label 42 1 1700000000) "200.00") wit_world) in
  w_ledger w1 = w_ledger wit_world \/
  wit_notify (wit_form (renew_label 42 1 1700000000) "200.00") w1 = (w1, Some "OK").
Proof. apply notification_redelivery_absorbed. vm_compute. reflexivity. Defined.

Lemma notification_bad_signature_witness :
  wit_notify (("sha1_hash", "forged") :: wit_form (renew_label 42 1 1700000000) "200.00")
    wit_world = (wit_world, Some "Invalid signature") \/
  wit_notify (("sha1_hash", "forged") :: wit_form (renew_label 42 1 1700000000) "200.00")
    wit_world = (wit_world, None).
Proof. apply notification_bad_signature. vm_compute. discriminate. Defined.

Ltac wit_hyp := first [ lia | vm_compute; reflexivity | apply (bool_decide_unpack _); vm_compute; reflexivity
                      | vm_compute; discriminate ].

Lemma renewal_via_webhook_witness :
  let (w1, r) := wit_notify (wit_form (renew_label 42 1 1700000000) "200.00") wit_world in
  lookup_sub 1 (w_ledger w1) =
    Some (mkSub 1 42 "7" "ss://outline/7" (0 + days_us 30) false false false) /\
  purchase_exists "op-1" (w_ledger w1) = true /\
  (r = Some "OK" <-> w_net wit_world (CallSend 42 (MsgRenewed 30)) = true).
Proof.
  refine (renewal_via_webhook wit_hash wit_secret VpnManager.iso_fixed
    (wit_form (renew_label 42 1 1700000000) "200.00") wit_world 42 1 1700000000 200 30
    Reconcile.row_7 _ _ _ _ _ _ _ _ _); wit_hyp.
Defined.

Lemma new_purchase_via_webhook_witness :
  let (w1, r) := wit_notify (wit_form (new_label 42 1700000000) "500.00") wit_world in
  subs (w_ledger w1) = [Reconcile.row_7;
    mkSub 3 42 "10" (outline_url "10") (0 + days_us 90) false false false] /\
  purchases (w_ledger w1) =
    [mkPurchase 42 50000 90 NewSubscription (new_label 42 1700000000) "op-1"] /\
  (r = Some "OK" <-> w_net wit_world (CallSend 42 MsgPaidKeyIntro) = true /\
                     w_net wit_world (CallSend 42 (MsgAccessUrl (outline_url "10"))) = true).
Proof.
  refine (new_purchase_via_webhook wit_hash wit_secret VpnManager.iso_fixed
    (wit_form (new_label 42 1700000000) "500.00") wit_world 42 1700000000 500 90
    _ _ _ _ _ _ _ _ _ _); wit_hyp.
Defined.

Lemma renewal_of_missing_subscription_witness :
  let (w1, r) := wit_notify (wit_form (renew_label 42 5 1700000000) "200.00") wit_world in
  subs (w_ledger w1) = [Reconcile.row_7] /\ purchase_exists "op-1" (w_ledger w1) = true /\
  w_outbox w1 = [(42, MsgRenewed 30)] /\ r = Some "OK".
Proof.
  refine (renewal_of_missing_subscription wit_hash wit_secret VpnManager.iso_fixed
    (wit_form (renew_label 42 5 1700000000) "200.00") wit_world 42 5 1700000000 200 30
    _ _ _ _ _ _ _ _ _); try wit_hyp.
  intros s Hs. apply list_elem_of_singleton in Hs as ->. vm_compute. naive_solver.
Defined.

Lemma renew_label_extra_part_raises_witness :
  wit_notify (wit_form (renew_label 42 1 1700000000 ++ "_" ++ "x") "200.00") wit_world =
  (wit_world, None).
Proof.
  refine (renew_label_extra_part_raises wit_hash wit_secret VpnManager.iso_fixed
    (wit_form (renew_label 42 1 1700000000 ++ "_" ++ "x") "200.00") wit_world 42 1 1700000000
    "x" 200 30 _ _ _ _ _); wit_hyp.
Defined.

Lemma nan_withdraw_amount_raises_witness :
  wit_notify (wit_form (renew_label 42 1 1700000000) "NaN") wit_world = (wit_world, None).
Proof.
  refine (nan_withdraw_amount_raises wit_hash wit_secret VpnManager.iso_fixed
    (wit_form (renew_label 42 1 1700000000) "NaN") wit_world false _ _ _ _); wit_hyp.
Defined.

Lemma wrong_amount_message_witness :
  (form_get "label" (wit_form (new_label 42 1700000000) "199.50") = new_label 42 1700000000 ->
   wit_notify (wit_form (new_label 42 1700000000) "199.50") wit_world =
   (wit_world, Some "Invalid amount")) /\
  (form_get "label" (wit_form (new_label 42 1700000000) "199.50") = renew_label 42 1 1700000000 ->
   w_net wit_world (CallSend 42 MsgWrongAmount) = true ->
   wit_notify (wit_form (new_label 42 1700000000) "199.50") wit_world =
   (add_msg 42 MsgWrongAmount wit_world, Some "Invalid amount")).
Proof.
  refine (wrong_amount_message wit_hash wit_secret VpnManager.iso_fixed
    (wit_form (new_label 42 1700000000) "199.50") wit_world 42 1 1700000000 false 19950
    _ _ _ _ _); wit_hyp.
Defined.

(** 199.986 rounds to 199.99 and buys the 30-day plan; 199.985 rounds
    to 199.98 and is refused. *)
Lemma notification_rounds_amount_witness :
  wit_notify (wit_form (new_label 42 0) "199.986") wit_world =
    new_subscription_branch VpnManager.iso_fixed (new_label 42 0) "op-1" 20000 30 wit_world /\
  wit_notify (wit_form (new_label 42 0) "199.985") wit_world =
    (notify_wrong_amount (new_label 42 0) >> py_ret "Invalid amount") wit_world.
Proof.
  split.
  - refine (proj1 (notification_rounds_amount wit_hash wit_secret VpnManager.iso_fixed
      (wit_form (new_label 42 0) "199.986") wit_world 199986 20000 30 _ _ _ _ _) _ _); wit_hyp.
  - refine (proj2 (notification_rounds_amount wit_hash wit_secret VpnManager.iso_fixed
      (wit_form (new_label 42 0) "199.985") wit_world 199985 20000 30 _ _ _ _ _) _); try wit_hyp.
    intros a p Hin. unfold amount_mapping in Hin. rewrite !elem_of_cons, elem_of_nil in Hin.
    vm_compute. naive_solver.
Defined.

Lemma withdraw_amount_not_signed_witness :
  let f' := ("withdraw_amount", amount_text 1000 0) ::
            wit_form (renew_label 42 1 1700000000) "2.00" in
  signature_valid wit_hash wit_secret f' = true /\
  wit_notify f' wit_world =
  (if py_startswith (renew_label 42 1 1700000000) "renew_"
   then renewal_branch (renew_label 42 1 1700000000) "op-1" (Z.of_N 1000 * 100) 180
   else new_subscription_branch VpnManager.iso_fixed (renew_label 42 1 1700000000) "op-1"
          (Z.of_N 1000 * 100) 180) wit_world.
Proof.
  refine (withdraw_amount_not_signed wit_hash wit_secret VpnManager.iso_fixed
    (wit_form (renew_label 42 1 1700000000) "2.00") wit_world 1000 180 _ _ _ _); wit_hyp.
Defined.

End Payment.
