(* ===== verification/Frontend.v ===== *)
(** * The chat front-end: the aiogram handlers of [src/telegram_bot.py]

    Each handler answers a [/start] command or a button press (a callback
    query carrying a short [callback_data] string). Answers go to the
    user's chat, so [message.answer(...)] is [send user_id]. The
    dispatcher tries the handlers in their order of registration and runs
    the first whose filter matches ([dispatch]); an exception in a handler
    is logged by aiogram and ends that handler.

    The front-end builds the payment labels that the webhook ([Payment])
    parses back, and it grants the one-hour trial. Keyboards are modelled
    by the callback data of their buttons; the button texts, and the
    Markdown of the instruction text, are not modelled. [add_user] writes
    a [users] table that nothing else reads and that the spec does not
    describe; it is not modelled. *)

From S2P Require Import Prelude Text Ledger Provider World Reconcile VpnManager PyDecimal Payment.
From Stdlib Require Import Ascii String.

Module Frontend.
Import Payment.
Local Open Scope Z_scope.
Local Open Scope string_scope.

(** [db.get_subscriptions(user_id)]: the user's rows. *)
Definition get_subscriptions (uid : Z) (L : Ledger) : list Subscription :=
  filter (fun s => sub_user s = uid) (subs L).

(** [amount_mapping.get(period)] of the two purchase handlers, in roubles. *)
Definition period_amount (period : Z) : option Z :=
  if decide (period = 30) then Some 200
  else if decide (period = 90) then Some 500
  else if decide (period = 180) then Some 1000
  else None.

(** [int(datetime.now().timestamp())]: seconds, truncated towards zero. *)
Definition timestamp_now : M Z := let* now := utcnow in py_ret (Z.quot now 1000000).

(** [keyboard_buttons.insert(1, ...)] *)
Definition list_insert {A} (i : nat) (x : A) (l : list A) : list A := take i l ++ x :: drop i l.

(** The trial lasts [timedelta(days=1/24)], one hour. *)
Definition trial_duration : Z := 3600 * 1000000.

Section WithIsoformat.
Context (isoformat : Z -> string).

(** [start] (lines 40-64), without [add_user]. *)
Definition start (uid : Z) : M unit :=
  let* used := db_read (has_used_test uid) in
  let buttons := ["my_keys"; "buy_new_key"; "instruction"] in
  let buttons := if negb used then list_insert 1 "test_vpn" buttons else buttons in
  send uid (MsgMenu buttons).

(** [handle_instruction] (lines 67-79). *)
Definition handle_instruction (uid : Z) : M unit := send uid MsgInstructionText.

(** The time-left message of [handle_my_keys] (lines 92-104), from the
    microseconds left: [total_seconds_left // 86400] and so on. *)
Definition time_left_msg (left : Z) : Msg :=
  if (86400 * 1000000 <? left)%Z then MsgDaysLeft (left / (86400 * 1000000))
  else if (3600 * 1000000 <? left)%Z then MsgHoursLeft (left / (3600 * 1000000))
  else if (0 <? left)%Z then MsgMinutesLeft (left / (60 * 1000000))
  else MsgSubExpired.

Fixpoint list_keys (uid : Z) (l : list Subscription) : M unit :=
  match l with
  | [] => py_ret tt
  | s :: rest =>
      send uid (MsgKeyText (sub_url s)) >>
      let* now := utcnow in
      send uid (time_left_msg (expires_at s - now)) >>
      list_keys uid rest
  end.

(** [handle_my_keys] (lines 82-122). *)
Definition handle_my_keys (uid : Z) : M unit :=
  let* l := db_read (get_subscriptions uid) in
  match l with
  | [] => send uid MsgNoActiveSubs
  | _ => send uid MsgYourKeys >> list_keys uid l >> send uid MsgRenewOrBuy
  end.

(** [handle_buy_new_key] (lines 125-137). *)
Definition handle_buy_new_key (uid : Z) : M unit := send uid MsgChoosePeriodNew.

(** [choose_renewal_period] (lines 303-314). *)
Definition renew_buttons (sid : Z) : list string :=
  ["renew_" ++ py_str_Z sid ++ "_30"; "renew_" ++ py_str_Z sid ++ "_90";
   "renew_" ++ py_str_Z sid ++ "_180"].

Definition choose_renewal_period (uid sid : Z) : M unit :=
  send uid (MsgChooseRenewPeriod (renew_buttons sid)).

(** [handle_renew_subscription] (lines 140-161). *)
Definition handle_renew_subscription (uid : Z) : M unit :=
  let* l := db_read (get_subscriptions uid) in
  match l with
  | [] => send uid MsgNothingToRenew
  | [s] => choose_renewal_period uid (sub_id s)
  | _ => send uid (MsgChooseSub ((fun s => "choose_sub_" ++ py_str_Z (sub_id s)) <$> l))
  end.

(** [callback_query.data.split("_")[2]]: an [IndexError] when missing. *)
Definition third_part (data : string) : M string :=
  match py_split "_" data !! 2%nat with Some p => py_ret p | None => py_raise end.

(** [handle_choose_subscription] (lines 164-167). *)
Definition handle_choose_subscription (uid : Z) (data : string) : M unit :=
  let* p := third_part data in
  let* sid := py_int_m p in
  choose_renewal_period uid sid.

(** [process_new_subscription] (lines 170-200). *)
Definition process_new_subscription (uid : Z) (data : string) : M unit :=
  let* p := third_part data in
  let* period := py_int_m p in
  match period_amount period with
  | None => send uid MsgBadPeriod
  | Some amount =>
      let* ts := timestamp_now in
      send uid (MsgPayLink period amount (new_label uid ts))
  end.

(** [process_renew_subscription] (lines 203-238). *)
Definition process_renew_subscription (uid : Z) (data : string) : M unit :=
  let parts := py_split "_" data in
  if negb (List.length parts =? 3)%nat then send uid MsgBadRenewData
  else match parts with
       | [_; s; p] =>
           let* sid := py_int_m s in
           let* period := py_int_m p in
           match period_amount period with
           | None => send uid MsgBadPeriod
           | Some amount =>
               let* ts := timestamp_now in
               send uid (MsgPayLink period amount (renew_label uid sid ts))
           end
       | _ => py_raise
       end.

(** [handle_pay_subscription] (lines 241-251). *)
Definition handle_pay_subscription (uid : Z) : M unit :=
  send uid (MsgMenu ["buy_new_key"; "renew_subscription"]).

(** The key deletion of the [except] block of [handle_test_vpn]. *)
Definition delete_quietly (id : string) : M unit :=
  py_try (delete_key id >> py_ret tt) (py_ret tt).

(** [handle_test_vpn] (lines 254-300). *)
Definition handle_test_vpn (uid : Z) : M unit :=
  let* used := db_read (has_used_test uid) in
  if used then send uid MsgTestUsed
  else
    let* vpn_key_data := VpnManager.create_vpn_key_with_name isoformat uid in
    match vpn_key_data with
    | Some key =>
        py_try
          (let* now := utcnow in
           db_insert (save_subscription uid (key_id key) (access_url key) trial_duration now) >>
           let* used_at := utcnow in
           db_update (add_test_usage uid used_at) >>
           send uid MsgTestKeyIntro >>
           send uid (MsgKeyText (access_url key)) >>
           send uid MsgTestValidity)
          (delete_quietly (key_id key) >> send uid MsgTestError)
    | None => send uid MsgTestKeyFail
    end.

(** The dispatcher: the [F.data] filters in their order of registration. *)
Definition dispatch (uid : Z) (data : string) : M unit :=
  if bool_decide (data = "instruction") then handle_instruction uid
  else if bool_decide (data = "my_keys") then handle_my_keys uid
  else if bool_decide (data = "buy_new_key") then handle_buy_new_key uid
  else if bool_decide (data = "renew_subscription") then handle_renew_subscription uid
  else if py_startswith data "choose_sub_" then handle_choose_subscription uid data
  else if py_startswith data "new_subscribe_" then process_new_subscription uid data
  else if py_startswith data "renew_" then process_renew_subscription uid data
  else if bool_decide (data = "pay_subscription") then handle_pay_subscription uid
  else if bool_decide (data = "test_vpn") then handle_test_vpn uid
  else py_ret tt.

End WithIsoformat.

(** ** Lemmas *)

Lemma has_used_test_add uid now L : has_used_test uid (add_test_usage uid now L) = true.
Proof.
  unfold has_used_test, add_test_usage. apply bool_decide_eq_true. cbn [test_usage].
  rewrite fmap_app. apply elem_of_app. right. by apply list_elem_of_singleton.
Qed.

(** The trial after the key is created: the row, the trial usage, then
    the three messages, under one [try]. *)
Definition trial_ledger (uid : Z) (key url : string) (now : Z) (L : Ledger) : Ledger :=
  add_test_usage uid now
    (mkLedger (subs L ++ [mkSub (next_sub_id L) uid key url (now + trial_duration) false false false])
              (next_sub_id L + 1) (test_usage L) (purchases L)).

Lemma save_subscription_fresh uid key url d now L :
  key ∉ ledger_key_ids L ->
  save_subscription uid key url d now L =
  Some (mkLedger (subs L ++ [mkSub (next_sub_id L) uid key url (now + d) false false false])
                 (next_sub_id L + 1) (test_usage L) (purchases L)).
Proof. intros Hk. unfold save_subscription. by rewrite bool_decide_false. Qed.

Section TrialLemmas.
Context (isoformat : Z -> string) (uid : Z) (w : World).
Hypothesis Hunused : has_used_test uid (w_ledger w) = false.
Hypothesis Hwf : world_wf w.
Hypothesis E1 : w_net w CallCreateKey = true.
Hypothesis E2 : w_net w (CallRenameKey (VpnManager.next_key_id w)) = true.
Hypothesis E3 : w_net w (CallGetKey (VpnManager.next_key_id w)) = true.

Let key := VpnManager.next_key_id w.
Let url := outline_url key.
Let w2 := set_ledger (trial_ledger uid key url (w_now w) (w_ledger w))
            (set_server (VpnManager.renamed isoformat uid w) w).

(** Once the key exists, the run is the [try] block from [w2]'s
    predecessor; its three sends decide the outcome. *)
Lemma test_vpn_created :
  handle_test_vpn isoformat uid w =
  py_try (send uid MsgTestKeyIntro >> send uid (MsgKeyText url) >> send uid MsgTestValidity)
         (delete_quietly key >> send uid MsgTestError) w2.
Proof.
  pose proof (VpnManager.next_key_not_in_ledger w Hwf) as Hkey.
  unfold handle_test_vpn, py_bind at 1, db_read. rewrite Hunused. cbn iota beta.
  rewrite (py_bind_Some _ _ _ _ _ (VpnManager.create_vpn_key_up isoformat uid w E1 E2 E3)).
  unfold py_try. unfold py_bind at 1, utcnow. cbn [w_now set_server].
  unfold py_bind at 1, db_insert. cbn [w_ledger set_server key_id access_url].
  rewrite save_subscription_fresh by done.
  unfold py_bind at 1, utcnow. cbn [w_now set_ledger set_server].
  rewrite db_update_bind. reflexivity.
Qed.

End TrialLemmas.


(** The ledger after a trial request is unchanged, or the user's trial
    is used up. *)
Definition trial_settled (uid : Z) (w w1 : World) : Prop :=
  w_ledger w1 = w_ledger w \/ has_used_test uid (w_ledger w1) = true.

Lemma trial_settled_keep {A} uid w w' (c : M A) :
  trial_settled uid w w' -> keeps_ledger c -> trial_settled uid w (fst (c w')).
Proof. intros Hs Hc. unfold trial_settled. by rewrite Hc. Qed.

Lemma keeps_delete_quietly id : keeps_ledger (delete_quietly id).
Proof.
  intros w. unfold delete_quietly, py_try, py_bind, delete_key, provider_call.
  by destruct (w_net w _).
Qed.

Lemma delete_quietly_up id w :
  w_net w (CallDeleteKey id) = true ->
  delete_quietly id w = (set_server (snd (srv_delete id (w_server w))) w, Some tt).
Proof. intros E. unfold delete_quietly, py_try, py_bind, delete_key, provider_call. by rewrite E. Qed.

Lemma keeps_trial_error id uid : keeps_ledger (delete_quietly id >> send uid MsgTestError).
Proof. apply keeps_bind; [apply keeps_delete_quietly|intros; apply keeps_send]. Qed.

Lemma trial_sends_keep uid url :
  keeps_ledger (send uid MsgTestKeyIntro >> send uid (MsgKeyText url) >> send uid MsgTestValidity).
Proof. repeat (apply keeps_bind; [apply keeps_send|intros]). apply keeps_send. Qed.

Lemma trial_settled_run isoformat uid w :
  trial_settled uid w (fst (handle_test_vpn isoformat uid w)).
Proof.
  unfold handle_test_vpn, py_bind at 1, db_read. cbn iota beta.
  destruct (has_used_test uid (w_ledger w)).
  { apply trial_settled_keep; [by left|apply keeps_send]. }
  unfold py_bind at 1. pose proof (keeps_create isoformat uid w) as Hk.
  destruct (VpnManager.create_vpn_key_with_name isoformat uid w) as [w1 [[key|]|]];
    simpl in Hk; [|apply trial_settled_keep; [by left|apply keeps_send]|by left].
  unfold py_try, py_bind at 1, utcnow. cbn iota beta.
  unfold py_bind at 1, db_insert.
  destruct (save_subscription _ _ _ _ _ _) as [L|].
  2:{ apply trial_settled_keep; [by left|apply keeps_trial_error]. }
  unfold py_bind at 1, utcnow. cbn iota beta. rewrite db_update_bind.
  assert (Hs : trial_settled uid w (set_ledger (add_test_usage uid (w_now w1) L)
                 (set_ledger L w1))) by (right; apply has_used_test_add).
  pose proof (trial_sends_keep uid (access_url key) (set_ledger (add_test_usage uid (w_now w1) L)
                 (set_ledger L w1))) as Hb.
  change (w_ledger (set_ledger L w1)) with L. change (w_now (set_ledger L w1)) with (w_now w1).
  destruct ((send uid MsgTestKeyIntro >> send uid (MsgKeyText (access_url key)) >>
             send uid MsgTestValidity) (set_ledger (add_test_usage uid (w_now w1) L)
                 (set_ledger L w1))) as [w3 [[]|]] eqn:E; simpl in Hb.
  - unfold trial_settled. simpl. by rewrite Hb.
  - apply trial_settled_keep; [|apply keeps_trial_error]. unfold trial_settled. by rewrite Hb.
Qed.


(** *** Callback data of the bot's own buttons *)

Lemma string_app_cons c s t : (String c s ++ t)%string = String c (s ++ t).
Proof. reflexivity. Qed.

Lemma split_renew_data sid p :
  py_split "_" ("renew_" ++ py_str_Z sid ++ "_" ++ py_str_Z p) = ["renew"; py_str_Z sid; py_str_Z p].
Proof.
  change ("renew_" ++ ?x) with ("renew" ++ String "_" x). rewrite !underscore_app.
  rewrite !py_split_app by (apply py_str_Z_no_underscore || reflexivity).
  by rewrite py_split_no_sep by apply py_str_Z_no_underscore.
Qed.

Lemma third_part_choose x w :
  has_char "_" x = false -> third_part ("choose_sub_" ++ x) w = (w, Some x).
Proof.
  intros Hx. unfold third_part.
  change ("choose_sub_" ++ x) with ("choose" ++ String "_" ("sub" ++ String "_" x)).
  rewrite !py_split_app by (done || reflexivity). by rewrite py_split_no_sep.
Qed.

Lemma third_part_new x w :
  has_char "_" x = false -> third_part ("new_subscribe_" ++ x) w = (w, Some x).
Proof.
  intros Hx. unfold third_part.
  change ("new_subscribe_" ++ x) with ("new" ++ String "_" ("subscribe" ++ String "_" x)).
  rewrite !py_split_app by (done || reflexivity). by rewrite py_split_no_sep.
Qed.

(** The renewal data ["renew_{sub_id}_{period}"] is not the data
    ["renew_subscription"] of the renew buttons. *)
Lemma renew_data_ne sid x : ("renew_" ++ py_str_Z sid ++ x) <> "renew_subscription".
Proof.
  destruct (py_str_Z_head sid) as (c & s & -> & Hc). rewrite string_app_cons.
  intros Heq. injection Heq as Hc' _. subst c.
  destruct Hc as [Hc|Hc]; [discriminate Hc|discriminate Hc].
Qed.

Lemma timestamp_now_eq w : timestamp_now w = (w, Some (Z.quot (w_now w) 1000000)).
Proof. reflexivity. Qed.

(** ** The renewal contract

    What a renewal promises, stated on an abstract view of the ledger
    that keeps of each subscription id only its owner and its expiry:
    renewing [sid] for [d] days on behalf of [uid] moves the expiry of
    [sid] by [d] days when [uid] owns it, and changes nothing else. *)

Definition sub_view (L : Ledger) (k : Z) : option (Z * Z) :=
  (fun s => (sub_user s, expires_at s)) <$> lookup_sub k L.

Definition renew_abs (uid sid d : Z) (m : Z -> option (Z * Z)) (k : Z) : option (Z * Z) :=
  if decide (k = sid) then
    match m k with
    | Some (u, e) => Some (u, if decide (u = uid) then e + days_us d else e)
    | None => None
    end
  else m k.

Lemma sub_view_extend uid sid d L k :
  sub_view (extend_subscription uid sid d L) k = renew_abs uid sid d (sub_view L) k.
Proof.
  unfold sub_view, lookup_sub, extend_subscription, with_subs; cbn [subs].
  rewrite find_fmap_keep; [|intros s; by destruct (bool_decide (_ /\ _))].
  unfold renew_abs, sub_view, lookup_sub.
  destruct (find (fun s => bool_decide (sub_id s = k)) (subs L)) as [s|] eqn:E;
    cbn [fmap option_fmap option_map]; [|by case_decide].
  apply find_some in E as [_ Hk]. apply bool_decide_eq_true in Hk.
  case_bool_decide; repeat case_decide; naive_solver.
Qed.

Lemma sub_view_renewed uid sid p L k :
  sub_view (renewed_ledger uid sid p L) k = renew_abs uid sid (pr_period p) (sub_view L) k.
Proof. apply (sub_view_extend uid sid (pr_period p) L k). Qed.

Lemma send_ledger uid m w : w_ledger (fst (send uid m w)) = w_ledger w.
Proof. unfold send. by destruct (w_net w _). Qed.

Lemma period_amount_nonneg p a : period_amount p = Some a -> (0 <= p)%Z /\ (0 <= a)%Z.
Proof. unfold period_amount. repeat case_decide; intros; simplify_eq; lia. Qed.

Lemma dispatch_renew_route isoformat uid sid x w :
  dispatch isoformat uid ("renew_" ++ py_str_Z sid ++ x) w =
  process_renew_subscription uid ("renew_" ++ py_str_Z sid ++ x) w.
Proof.
  unfold dispatch. rewrite !bool_decide_false by (apply renew_data_ne || (intros Hd; discriminate Hd)).
  change (py_startswith ("renew_" ++ _) "choose_sub_") with false.
  change (py_startswith ("renew_" ++ _) "new_subscribe_") with false.
  by rewrite py_startswith_app.
Qed.

Lemma process_renew_link uid sid p w :
  (0 <= sid)%Z -> (0 <= p)%Z ->
  process_renew_subscription uid ("renew_" ++ py_str_Z sid ++ "_" ++ py_str_Z p) w =
  match period_amount p with
  | Some a => send uid (MsgPayLink p a (renew_label uid sid (Z.quot (w_now w) 1000000))) w
  | None => send uid MsgBadPeriod w
  end.
Proof.
  intros Hs Hp0. unfold process_renew_subscription. rewrite split_renew_data.
  cbn [List.length Nat.eqb negb].
  rewrite (py_bind_Some _ _ _ _ _ (py_int_m_str sid w Hs)).
  rewrite (py_bind_Some _ _ _ _ _ (py_int_m_str p w Hp0)).
  destruct (period_amount p); [|done].
  by rewrite (py_bind_Some _ _ _ _ _ (timestamp_now_eq w)).
Qed.

Lemma dispatch_renew_link isoformat uid sid p a w :
  (0 <= sid)%Z -> period_amount p = Some a ->
  dispatch isoformat uid ("renew_" ++ py_str_Z sid ++ "_" ++ py_str_Z p) w =
    send uid (MsgPayLink p a (renew_label uid sid (Z.quot (w_now w) 1000000))) w.
Proof.
  intros Hs Hp. destruct (period_amount_nonneg p a Hp) as [Hp0 _].
  rewrite dispatch_renew_route, process_renew_link by done. by rewrite Hp.
Qed.

(** A message that is the last one added by [send uid m] is [m], and
    the send went through. *)
Lemma send_outbox uid m m' w :
  w_outbox (fst (send uid m w)) = (w_outbox w ++ [(uid, m')])%list ->
  m = m' /\ fst (send uid m w) = add_msg uid m w.
Proof.
  unfold send. destruct (w_net w _); cbn [fst w_outbox add_msg]; intros H.
  - apply app_inv_head in H. by simplify_eq.
  - apply (f_equal List.length) in H. rewrite length_app in H. cbn in H. lia.
Qed.

(** ** Properties *)

(** C9: the spec's trial scenario: a trial request from a user who
    already has a [test_usage] row is rejected; no key is created and no
    ledger row is written, the only effect is the rejection message. *)
Theorem trial_rejected_when_used isoformat uid w :
  has_used_test uid (w_ledger w) = true ->
  handle_test_vpn isoformat uid w = send uid MsgTestUsed w.
Proof. intros Hu. unfold handle_test_vpn, py_bind at 1, db_read. by rewrite Hu. Qed.

(** the trial is granted at most once: a trial request either leaves
    the ledger as it was or uses up the user's trial, so every later
    request of the same user is rejected. *)
Theorem trial_once isoformat uid w :
  let w1 := fst (handle_test_vpn isoformat uid w) in
  w_ledger w1 = w_ledger w \/ handle_test_vpn isoformat uid w1 = send uid MsgTestUsed w1.
Proof.
  intros w1. destruct (trial_settled_run isoformat uid w) as [H|H]; [by left|right].
  unfold handle_test_vpn, py_bind at 1, db_read. subst w1. by rewrite H.
Qed.

(** C29: when the first message of a granted trial fails, the [except]
    block deletes the key from the server although the subscription row
    and the trial usage were already committed: the ledger is left with
    a row whose key no longer exists, and the user's trial is used up. *)
Theorem trial_message_failure_orphans_row isoformat uid w :
  has_used_test uid (w_ledger w) = false -> world_wf w ->
  w_net w CallCreateKey = true -> w_net w (CallRenameKey (VpnManager.next_key_id w)) = true ->
  w_net w (CallGetKey (VpnManager.next_key_id w)) = true ->
  w_net w (CallSend uid MsgTestKeyIntro) = false ->
  w_net w (CallDeleteKey (VpnManager.next_key_id w)) = true ->
  let w1 := fst (handle_test_vpn isoformat uid w) in
  VpnManager.next_key_id w ∈ ledger_key_ids (w_ledger w1) /\
  VpnManager.next_key_id w ∉ srv_ids (w_server w1) /\
  has_used_test uid (w_ledger w1) = true.
Proof.
  intros Hu Hwf E1 E2 E3 E4 E5 w1. subst w1.
  rewrite (test_vpn_created isoformat uid w Hu Hwf E1 E2 E3).
  erewrite py_try_None; [|apply send_fail; exact E4].
  erewrite py_bind_Some; [|apply delete_quietly_up; exact E5].
  assert (Hin : VpnManager.next_key_id w ∈ ledger_key_ids (trial_ledger uid
    (VpnManager.next_key_id w) (outline_url (VpnManager.next_key_id w)) (w_now w) (w_ledger w))).
  { unfold ledger_key_ids, trial_ledger. cbn. rewrite fmap_app. apply elem_of_app. right.
    by apply list_elem_of_singleton. }
  unfold send. destruct (w_net _ (CallSend uid MsgTestError)); cbn [fst w_ledger w_server set_server set_ledger add_msg];
    rewrite ?srv_delete_ids; split_and!; try done; try apply has_used_test_add; set_solver.
Qed.


Lemma period_amount_mapping p a : period_amount p = Some a -> (a * 100, p) ∈ amount_mapping.
Proof.
  unfold period_amount, amount_mapping. rewrite !elem_of_cons.
  repeat case_decide; intros; simplify_eq; [left|right; left|right; right; left]; done.
Qed.

(** the price table of the front-end ([{30: 200, 90: 500, 180: 1000}]
    in roubles) and the plan table of the webhook (in hundredths) are
    the same table: a period has a price in one exactly when the webhook
    maps that price back to the period. *)
Theorem price_tables_agree p a :
  period_amount p = Some a <-> (a * 100, p) ∈ amount_mapping.
Proof.
  split; [apply period_amount_mapping|].
  unfold period_amount, amount_mapping. rewrite !elem_of_cons, elem_of_nil.
  intros [Hin|[Hin|[Hin|[]]]]; injection Hin; intros Hp Ha; subst p; simpl; f_equal; lia.
Qed.

(** C37: the time-left message of "my keys" is within its bounds, and
    off by one: for more than one day it says [n] days with [n] the
    whole days left; for one hour to one day it says "less than [n]
    hours" and for up to one hour "less than [n] minutes", although at
    least [n] hours (minutes) are left. *)
Theorem time_left_msg_bounds left :
  match time_left_msg left with
  | MsgDaysLeft n => 1 <= n /\ n * (86400 * 1000000) <= left < (n + 1) * (86400 * 1000000)
  | MsgHoursLeft n => 1 <= n <= 24 /\ n * (3600 * 1000000) <= left
  | MsgMinutesLeft n => 0 <= n <= 60 /\ n * (60 * 1000000) <= left
  | MsgSubExpired => left <= 0
  | _ => False
  end.
Proof.
  unfold time_left_msg.
  repeat case_if; [| | |lia];
  match goal with |- context [left / ?d] =>
    pose proof (Z.div_mod left d ltac:(lia)); pose proof (Z.mod_pos_bound left d ltac:(lia));
    set (q := left / d) in *; set (r := left mod d) in *
  end; lia.
Qed.


(** C24: every button the bot shows reaches the handler meant for it,
    and that handler reads back the id or the period the button
    carries: ["renew_subscription"] (the renew button of the sweeper's
    notices) goes to [handle_renew_subscription] although it also starts
    with ["renew_"]; ["choose_sub_{id}"] offers the periods for
    subscription [id]; ["new_subscribe_{p}"] and ["renew_{id}_{p}"]
    answer with a payment link for the price of [p] and the label the
    webhook expects. *)
Theorem own_buttons_round_trip isoformat uid sid p a w :
  (0 <= sid)%Z -> period_amount p = Some a ->
  let ts := Z.quot (w_now w) 1000000 in
  dispatch isoformat uid "renew_subscription" w = handle_renew_subscription uid w /\
  dispatch isoformat uid ("choose_sub_" ++ py_str_Z sid) w = choose_renewal_period uid sid w /\
  dispatch isoformat uid ("new_subscribe_" ++ py_str_Z p) w =
    send uid (MsgPayLink p a (new_label uid ts)) w /\
  dispatch isoformat uid ("renew_" ++ py_str_Z sid ++ "_" ++ py_str_Z p) w =
    send uid (MsgPayLink p a (renew_label uid sid ts)) w.
Proof.
  intros Hs Hp ts.
  destruct (period_amount_nonneg p a Hp) as [Hp0 _].
  split_and!; [reflexivity| | |].
  - unfold dispatch. rewrite !bool_decide_false by (intros Hd; discriminate Hd).
    rewrite py_startswith_app. unfold handle_choose_subscription.
    rewrite (py_bind_Some _ _ _ _ _ (third_part_choose _ w (py_str_Z_no_underscore sid))).
    by rewrite (py_bind_Some _ _ _ _ _ (py_int_m_str sid w Hs)).
  - unfold dispatch. rewrite !bool_decide_false by (intros Hd; discriminate Hd).
    change (py_startswith ("new_subscribe_" ++ py_str_Z p) "choose_sub_") with false.
    rewrite py_startswith_app. unfold process_new_subscription.
    rewrite (py_bind_Some _ _ _ _ _ (third_part_new _ w (py_str_Z_no_underscore p))).
    rewrite (py_bind_Some _ _ _ _ _ (py_int_m_str p w Hp0)), Hp.
    by rewrite (py_bind_Some _ _ _ _ _ (timestamp_now_eq w)).
  - by apply dispatch_renew_link.
Qed.

(** C3: the renewal flow refines the renewal contract [renew_abs]:
    when the user presses ["renew_{sid}_{p}"], the bot answers with a
    payment link; when YooMoney then delivers a verified, fresh
    notification for that link's label and price, the subscriptions of
    the ledger, seen as [id -> (owner, expiry)], are exactly those of
    the abstract renewal of [sid] by [p] days for the user: the owner's
    row moves by [p] days, a row of another user or a missing row stays
    as it was, and every other row is untouched. This holds whether or
    not the link or the confirmation message gets through. *)
Theorem renewal_flow_refines sha1_hex secret isoformat uid sid p a label f w :
  (0 <= uid)%Z -> (0 <= sid)%Z -> (0 <= p)%Z ->
  let w1 := fst (dispatch isoformat uid ("renew_" ++ py_str_Z sid ++ "_" ++ py_str_Z p) w) in
  w_outbox w1 = (w_outbox w ++ [(uid, MsgPayLink p a label)])%list ->
  form_get "label" f = label ->
  withdraw_amount_str f = PyDecimal.amount_text (Z.to_N a) 0 ->
  signature_valid sha1_hex secret f = true ->
  purchase_exists (form_get "operation_id" f) (w_ledger w) = false ->
  forall k, sub_view (w_ledger (fst (yoomoney_notification sha1_hex secret isoformat f w1))) k =
            renew_abs uid sid p (sub_view (w_ledger w)) k.
Proof.
  intros Hu Hs Hp0 w1 Hout Hl Hwa Hv Hf k. unfold w1 in *; clear w1.
  rewrite dispatch_renew_route, process_renew_link in * by done.
  destruct (period_amount p) as [a0|] eqn:Hp;
    apply send_outbox in Hout as [Hm ->]; simplify_eq.
  destruct (period_amount_nonneg p a Hp) as [_ Ha].
  rewrite (notification_renewal_eq sha1_hex secret isoformat f _ uid sid
             (Z.quot (w_now w) 1000000) (Z.to_N a) p); try done;
    [|rewrite Z2N.id by lia; by apply period_amount_mapping].
  destruct (w_net _ _); cbn [fst w_ledger add_msg set_ledger]; by rewrite sub_view_renewed.
Qed.

(** ** Witnesses

    The world of [Payment]'s witnesses (user 42 owns subscription 1 with
    key ["7"]; the server gives the next key the id ["10"]; the clock is
    at 0), once with the trial already used, once with the introduction
    message of the trial undeliverable. *)

Definition used_world : World :=
  set_ledger (add_test_usage 42 0 (w_ledger wit_world)) wit_world.

Definition intro_down : Call -> bool :=
  fun c => match c with CallSend _ MsgTestKeyIntro => false | _ => true end.

Lemma trial_rejected_when_used_witness :
  handle_test_vpn VpnManager.iso_fixed 42 used_world = send 42 MsgTestUsed used_world.
Proof. refine (trial_rejected_when_used VpnManager.iso_fixed 42 used_world _); wit_hyp. Defined.

Lemma trial_message_failure_orphans_row_witness :
  let w1 := fst (handle_test_vpn VpnManager.iso_fixed 42 (VpnManager.vpn_world intro_down)) in
  "10" ∈ ledger_key_ids (w_ledger w1) /\ "10" ∉ srv_ids (w_server w1) /\
  has_used_test 42 (w_ledger w1) = true.
Proof.
  refine (trial_message_failure_orphans_row VpnManager.iso_fixed 42
            (VpnManager.vpn_world intro_down) _ _ _ _ _ _ _); wit_hyp.
Defined.

Lemma own_buttons_round_trip_witness :
  dispatch VpnManager.iso_fixed 42 "renew_subscription" wit_world =
    handle_renew_subscription 42 wit_world /\
  dispatch VpnManager.iso_fixed 42 "choose_sub_1" wit_world = choose_renewal_period 42 1 wit_world /\
  dispatch VpnManager.iso_fixed 42 "new_subscribe_90" wit_world =
    send 42 (MsgPayLink 90 500 (new_label 42 0)) wit_world /\
  dispatch VpnManager.iso_fixed 42 "renew_1_90" wit_world =
    send 42 (MsgPayLink 90 500 (renew_label 42 1 0)) wit_world.
Proof. refine (own_buttons_round_trip VpnManager.iso_fixed 42 1 90 500 wit_world _ _); wit_hyp. Defined.

Lemma renewal_flow_refines_witness :
  let w1 := fst (dispatch VpnManager.iso_fixed 42 "renew_1_30" wit_world) in
  w_outbox w1 = (w_outbox wit_world ++ [(42, MsgPayLink 30 200 (renew_label 42 1 0))])%list /\
  sub_view (w_ledger (fst (wit_notify (wit_form (renew_label 42 1 0) "200.00") w1))) 1 =
    renew_abs 42 1 30 (sub_view (w_ledger wit_world)) 1.
Proof.
  split; [vm_compute; reflexivity|].
  refine (renewal_flow_refines wit_hash wit_secret VpnManager.iso_fixed 42 1 30 200
            (renew_label 42 1 0) (wit_form (renew_label 42 1 0) "200.00") wit_world
            _ _ _ _ _ _ _ _ 1); wit_hyp.
Defined.
End Frontend.
