(* ===== verification/PaymentLink.v ===== *)
(** * The payment link: [generate_payment_link] of [src/telegram_bot.py]

    The purchase handlers of the front-end answer with a button whose
    URL is [generate_payment_link(amount, label, description)] (lines
    317-336): the YooMoney quickpay form with the query string
    [urlencode(params)] of a dict of thirteen fields. The gateway reads
    the query back, and the [label] it later posts to the webhook is the
    one it read.

    [urlencode] and the reader [parse_qsl] are those of Python's
    [urllib.parse] (not part of the repository, modelled from its
    reference implementation):
    - [quote_plus] keeps ASCII letters, digits and [_.-~], writes a space
      as [+] and every other byte as [%XX] (upper-case hex);
    - [parse_qsl] splits on [&], splits each field on its first [=],
      drops fields without [=] and fields whose value is empty (the
      default [keep_blank_values=False]), and decodes [+] and [%XX].
    Strings are byte strings: a Python [str] is its UTF-8 encoding, which
    [quote_plus] encodes byte by byte and [unquote] decodes back.

    The round trip [parse_qsl (urlencode ps) = ps] holds for every list
    of fields with non-empty values ([link_query_generate]). The gateway
    reads a field as [dict(parse_qsl(q))[key]] ([qs_get]); it gets the
    [sum], [label], [receiver] and [notificationURL] the bot put in the
    link, whatever the description ([payment_link_round_trip]). A field with an empty
    value, for instance [YOOMONEY_WALLET] set to the empty string, is
    dropped by the reader. *)

From S2P Require Import Prelude Text Ledger Provider World Reconcile VpnManager PyDecimal Payment.
From Stdlib Require Import Ascii String.

Module PaymentLink.
Local Open Scope string_scope.

(** ** Percent-encoding *)

(** [_ALWAYS_SAFE] of [urllib.parse]. *)
Definition always_safe (c : ascii) : bool :=
  let n := nat_of_ascii c in
  ((48 <=? n) && (n <=? 57))%nat || ((65 <=? n) && (n <=? 90))%nat ||
  ((97 <=? n) && (n <=? 122))%nat ||
  (n =? 95)%nat || (n =? 46)%nat || (n =? 45)%nat || (n =? 126)%nat.

(** An upper-case hex digit. *)
Definition hex_digit (d : nat) : ascii :=
  if (d <? 10)%nat then ascii_of_nat (48 + d) else ascii_of_nat (55 + d).

Definition hex_val (c : ascii) : option nat :=
  let n := nat_of_ascii c in
  if (48 <=? n)%nat && (n <=? 57)%nat then Some (n - 48)%nat
  else if (65 <=? n)%nat && (n <=? 70)%nat then Some (n - 55)%nat
  else if (97 <=? n)%nat && (n <=? 102)%nat then Some (n - 87)%nat
  else None.

Definition quote_char (c : ascii) : string :=
  if always_safe c then String c EmptyString
  else if (nat_of_ascii c =? 32)%nat then "+"
  else String "%" (String (hex_digit (nat_of_ascii c / 16))
                          (String (hex_digit (nat_of_ascii c mod 16)) EmptyString)).

(** [quote_plus(s, safe='')] *)
Fixpoint quote_plus (s : string) : string :=
  match s with
  | EmptyString => EmptyString
  | String c s' => quote_char c ++ quote_plus s'
  end.

(** [unquote_plus(s)]: [+] is a space, [%XX] a byte, any other [%] is
    kept. *)
Fixpoint unquote_plus (s : string) : string :=
  match s with
  | EmptyString => EmptyString
  | String c rest =>
      if Ascii.eqb c "+" then String " " (unquote_plus rest)
      else if Ascii.eqb c "%" then
        match rest with
        | String h (String l tail) =>
            match hex_val h, hex_val l with
            | Some a, Some b => String (ascii_of_nat (16 * a + b)) (unquote_plus tail)
            | _, _ => String c (unquote_plus rest)
            end
        | _ => String c (unquote_plus rest)
        end
      else String c (unquote_plus rest)
  end.

(** ** Query strings *)

(** [urlencode(params)] for a dict of strings, in insertion order. *)
Definition urlencode (params : list (string * string)) : string :=
  concat "&" ((fun kv => quote_plus (fst kv) ++ "=" ++ quote_plus (snd kv)) <$> params).

(** [s.split('=', 1)] when [s] contains ['='] *)
Fixpoint split_first (c : ascii) (s : string) : option (string * string) :=
  match s with
  | EmptyString => None
  | String d s' =>
      if Ascii.eqb d c then Some (EmptyString, s')
      else option_map (fun p => (String d (fst p), snd p)) (split_first c s')
  end.

(** [parse_qsl(qs)] with its defaults. *)
Definition parse_qsl (qs : string) : list (string * string) :=
  List.flat_map (fun field =>
    match split_first "=" field with
    | Some (n, v) => if String.eqb v "" then [] else [(unquote_plus n, unquote_plus v)]
    | None => []
    end) (py_split "&" qs).

(** ** The link *)

(** [str(v)] of a value of [params]: [os.getenv] gives [None] for an
    unset variable, and [str(None)] is ["None"]. *)
Definition py_str_opt (v : option string) : string :=
  match v with Some s => s | None => "None" end.

Definition link_params (wallet notification_url : option string) (amount : Z)
    (label description : string) : list (string * string) :=
  [("receiver", py_str_opt wallet); ("quickpay-form", "shop"); ("targets", description);
   ("paymentType", "AC"); ("sum", py_str_Z amount); ("label", label);
   ("formcomment", description); ("short-dest", description); ("comment", description);
   ("need-fio", "false"); ("need-email", "false"); ("need-phone", "false");
   ("need-address", "false"); ("notificationURL", py_str_opt notification_url)].

Definition link_prefix : string := "https://yoomoney.ru/quickpay/confirm.xml?".

(** [generate_payment_link] (lines 317-336). *)
Definition generate_payment_link (wallet notification_url : option string) (amount : Z)
    (label description : string) : string :=
  link_prefix ++ urlencode (link_params wallet notification_url amount label description).

(** The gateway's reading of a link of the quickpay form. *)
Definition link_query (link : string) : option (list (string * string)) :=
  if String.prefix link_prefix link
  then Some (parse_qsl (substring (String.length link_prefix)
                                  (String.length link - String.length link_prefix) link))
  else None.

(** The gateway's field access, [dict(parse_qsl(q))[key]]: [dict] keeps
    the last value given for a key. *)
Fixpoint qs_get (q : list (string * string)) (key : string) : option string :=
  match q with
  | [] => None
  | (k, v) :: rest =>
      match qs_get rest key with
      | Some v' => Some v'
      | None => if String.eqb k key then Some v else None
      end
  end.

(** ** Lemmas *)

Lemma string_app_cons' c a b : (String c a ++ b)%string = String c (a ++ b).
Proof. done. Qed.

Lemma has_char_app c a b : has_char c (a ++ b) = has_char c a || has_char c b.
Proof. induction a as [|d a IH]; [done|]. rewrite string_app_cons'. cbn. by rewrite IH, orb_assoc. Qed.

(** Each byte decodes back: checked on the 256 bytes. *)
Lemma unquote_quote_char c t : unquote_plus (quote_char c ++ t) = String c (unquote_plus t).
Proof. destruct c as [[] [] [] [] [] [] [] []]; reflexivity. Qed.

Lemma quote_char_no_amp c : has_char "&" (quote_char c) = false.
Proof. destruct c as [[] [] [] [] [] [] [] []]; reflexivity. Qed.

Lemma quote_char_no_eq c : has_char "=" (quote_char c) = false.
Proof. destruct c as [[] [] [] [] [] [] [] []]; reflexivity. Qed.

Lemma quote_char_nonempty c : exists d t, quote_char c = String d t.
Proof. unfold quote_char. repeat case_if; eauto. Qed.

Lemma unquote_quote s : unquote_plus (quote_plus s) = s.
Proof. induction s as [|c s IH]; [done|]. cbn [quote_plus]. by rewrite unquote_quote_char, IH. Qed.

Lemma quote_plus_no_char sep s :
  (forall c, has_char sep (quote_char c) = false) -> has_char sep (quote_plus s) = false.
Proof.
  intros Hc. induction s as [|c s IH]; [done|]. cbn [quote_plus]. by rewrite has_char_app, Hc, IH.
Qed.

Lemma quote_plus_nonempty s : s <> "" -> quote_plus s <> "".
Proof.
  destruct s as [|c s]; [done|]. intros _. cbn [quote_plus].
  destruct (quote_char_nonempty c) as (d & t & ->). done.
Qed.

Lemma split_first_app c a b :
  has_char c a = false -> split_first c (a ++ String c b) = Some (a, b).
Proof.
  induction a as [|d a IH].
  - intros _. change (EmptyString ++ String c b) with (String c b). cbn. by rewrite Ascii.eqb_refl.
  - cbn [has_char]. intros [Hd Ha]%orb_false_iff. rewrite string_app_cons'. cbn [split_first].
    rewrite IH by done. cbn.
    destruct (Ascii.eqb_spec d c); [subst; by rewrite bool_decide_true in Hd|done].
Qed.

Lemma py_split_concat l :
  l <> [] -> Forall (fun x => has_char "&" x = false) l -> py_split "&" (concat "&" l) = l.
Proof.
  induction l as [|x [|y l] IH]; intros Hne Hl; [done| |].
  - inversion Hl. cbn. by apply py_split_no_sep.
  - inversion_clear Hl as [|? ? Hx Hl']. change (concat "&" (x :: y :: l)) with (x ++ String "&" (concat "&" (y :: l))).
    rewrite py_split_app by done. by rewrite IH.
Qed.

Lemma substring_app p q :
  substring (String.length p) (String.length q) (p ++ q) = q.
Proof.
  induction p as [|c p IH].
  - change (EmptyString ++ q) with q. cbn [String.length].
    induction q as [|d q IHq]; [done|]. cbn. by rewrite IHq.
  - rewrite string_app_cons'. exact IH.
Qed.

Lemma prefix_app p q : String.prefix p (p ++ q) = true.
Proof. apply (py_startswith_app p q). Qed.

Lemma string_length_app a b : String.length (a ++ b) = (String.length a + String.length b)%nat.
Proof.
  induction a as [|c a IH]; [done|]. rewrite string_app_cons'. cbn. by rewrite IH.
Qed.

(** One field of the query string reads back as the pair it encodes. *)
Lemma parse_field (kv : string * string) :
  snd kv <> "" ->
  (match split_first "=" (quote_plus (fst kv) ++ "=" ++ quote_plus (snd kv)) with
   | Some (n, v) => if String.eqb v "" then [] else [(unquote_plus n, unquote_plus v)]
   | None => []
   end) = [kv].
Proof.
  destruct kv as [k v]; cbn [fst snd]. intros Hv.
  change ("=" ++ quote_plus v) with (String "=" (quote_plus v)).
  rewrite split_first_app by (apply quote_plus_no_char, quote_char_no_eq).
  destruct (String.eqb_spec (quote_plus v) "") as [He|_]; [by apply quote_plus_nonempty in Hv|].
  by rewrite !unquote_quote.
Qed.

(** [parse_qsl] reads back what [urlencode] wrote, for fields with
    non-empty values. *)
Lemma urlencode_round_trip ps :
  Forall (fun kv => snd kv <> "") ps -> parse_qsl (urlencode ps) = ps.
Proof.
  intros Hps. destruct ps as [|kv0 ps0]; [done|]. unfold parse_qsl, urlencode.
  rewrite py_split_concat; [| done |].
  - clear -Hps. induction Hps as [|kv ps Hkv Hps IH]; [done|].
    cbn [fmap list_fmap List.flat_map]. by rewrite parse_field, IH.
  - apply Forall_fmap, Forall_forall. intros kv _. cbn.
    rewrite has_char_app. change ("=" ++ quote_plus (snd kv)) with (String "=" (quote_plus (snd kv))).
    cbn [has_char]. rewrite !quote_plus_no_char by apply quote_char_no_amp. done.
Qed.

(** ** Properties *)

(** The query of [generate_payment_link] parses back to exactly its
    fields, for values that are not empty strings. *)
Lemma link_query_generate wallet notification_url amount label description :
  label <> "" -> description <> "" ->
  py_str_opt wallet <> "" -> py_str_opt notification_url <> "" ->
  link_query (generate_payment_link wallet notification_url amount label description) =
  Some (link_params wallet notification_url amount label description).
Proof.
  intros Hl Hd Hw Hn. unfold link_query, generate_payment_link. rewrite prefix_app. f_equal.
  rewrite string_length_app, Nat.add_comm, Nat.add_sub, substring_app.
  apply urlencode_round_trip.
  destruct (Payment.py_str_Z_head amount) as (c & t & Ht & _).
  repeat constructor; cbn; rewrite ?Ht; done.
Qed.

(** ** Properties *)

(** C25: the gateway reads from the payment link the bot builds the
    fields the bot means: for any amount, a non-empty label and
    description, and wallet and notification URL settings that are not
    empty strings, the gateway's [sum] is [str(amount)], its [label] is
    the label, its [receiver] and [notificationURL] are the settings,
    the form is [shop] paid by card ([AC]), and [targets] is the
    description, whatever bytes the description holds. *)
Theorem payment_link_round_trip wallet notification_url amount label description :
  label <> "" -> description <> "" ->
  py_str_opt wallet <> "" -> py_str_opt notification_url <> "" ->
  exists q, link_query (generate_payment_link wallet notification_url amount label description) = Some q /\
    qs_get q "sum" = Some (py_str_Z amount) /\ qs_get q "label" = Some label /\
    qs_get q "receiver" = Some (py_str_opt wallet) /\
    qs_get q "notificationURL" = Some (py_str_opt notification_url) /\
    qs_get q "quickpay-form" = Some "shop" /\ qs_get q "paymentType" = Some "AC" /\
    qs_get q "targets" = Some description.
Proof.
  intros Hl Hd Hw Hn. eexists. split; [by apply link_query_generate|]. done.
Qed.

Lemma payment_link_round_trip_witness :
  exists q, link_query (generate_payment_link (Some "4100118") (Some "https://vpn.example/yoomoney_notification")
                500 (Payment.renew_label 42 1 1700000000) "Продление подписки на 90 дней") = Some q /\
    qs_get q "sum" = Some "500" /\ qs_get q "label" = Some "renew_42_1_1700000000" /\
    qs_get q "receiver" = Some "4100118" /\
    qs_get q "notificationURL" = Some "https://vpn.example/yoomoney_notification" /\
    qs_get q "quickpay-form" = Some "shop" /\ qs_get q "paymentType" = Some "AC" /\
    qs_get q "targets" = Some "Продление подписки на 90 дней".
Proof.
  refine (payment_link_round_trip _ _ 500 (Payment.renew_label 42 1 1700000000) _ _ _ _ _);
    vm_compute; discriminate.
Defined.

End PaymentLink.
