(* ===== verification/Concurrency.v ===== *)
(** * Interleavings of the bot's tasks at their [await] points

    The bot is one asyncio process (src/main.py): the sweeper
    [check_subscriptions] and the reconciliation loop [sync_keys] are
    tasks, and each webhook request and each chat update runs as a task
    of its own. The event loop runs one task at a time and switches only
    when the running task suspends at an [await] whose result is not
    ready (store I/O, a Telegram call).

    A schedule is therefore a composition of the code's own
    computations, cut at [await] points. Where the tail of a cut
    computation is itself one of the program's definitions (the rest
    of the sweeper's snapshot, [sweep_rows]), the schedule is written
    with it. Where it is not, the tail is written here and proved equal
    to the handler's own code, so that cutting changes nothing in a
    run without interference ([new_sub_after_key]).

    Two schedules that the code permits and the spec (section 5) rules
    out are modelled:
    - the sweeper works from the snapshot it read at the start of the
      cycle, so a renewal that lands while the sweeper awaits on an
      earlier row does not save the renewed row: the row and its key are
      deleted, and the payment is recorded
      ([stale_sweep_tears_down_renewal]);
    - the reconciliation loop may run while a new purchase awaits the
      insertion of its row. It then sees the new key on the server and
      not in the ledger, and deletes it. The row is inserted afterwards
      with a dead key, the next cycle deletes the row, and the payment
      stays recorded ([sync_races_new_purchase]).

    [Scheduler] replays both schedules on the event loop of [main()]
    itself ([stale_sweep_in_event_loop], [sync_races_in_event_loop]),
    with the lemmas of this file describing what each segment does. *)

From S2P Require Import Prelude Text Ledger Provider World Sweeper Reconcile VpnManager PyDecimal Payment Frontend.
From Stdlib Require Import String.

Module Concurrency.
Import Sweeper Reconcile PyDecimal Payment.
Local Open Scope Z_scope.

(** ** Lookups that a row's processing leaves alone *)

Lemma find_filter_keep {A} (P : A -> bool) (Q : A -> Prop) `{!forall x, Decision (Q x)} l :
  (forall x, P x = true -> Q x) -> find P (filter Q l) = find P l.
Proof.
  intros HPQ. induction l as [|x l IH]; [done|]. rewrite filter_cons. simpl.
  case_decide as Hq; simpl; rewrite IH; [done|].
  destruct (P x) eqn:E; [|done]. by apply HPQ in E.
Qed.

Lemma lookup_set_flag_other f sid k L :
  k <> sid -> lookup_sub k (set_flag f sid L) = lookup_sub k L.
Proof.
  intros Hk. unfold lookup_sub, set_flag, with_subs; cbn [subs].
  rewrite find_fmap_keep by (intros s; by rewrite sub_id_if_set_flag).
  destruct (find _ (subs L)) as [s|] eqn:E; [|done]. cbn.
  apply find_some in E as [_ Hs]. apply bool_decide_eq_true in Hs. subst k.
  by rewrite bool_decide_false.
Qed.

Lemma lookup_delete_other sid uid k L :
  k <> sid -> lookup_sub k (delete_subscription sid uid L) = lookup_sub k L.
Proof.
  intros Hk. unfold lookup_sub, delete_subscription, with_subs; cbn [subs].
  apply find_filter_keep. intros s Hs%bool_decide_eq_true. naive_solver.
Qed.

(** What processing one row keeps: the clock, the network, the
    purchase records and the rows of other ids. *)
Lemma check_row_keeps s w :
  let w' := fst (check_row s w) in
  w_now w' = w_now w /\ w_net w' = w_net w /\
  purchases (w_ledger w') = purchases (w_ledger w) /\
  forall k, k <> sub_id s -> lookup_sub k (w_ledger w') = lookup_sub k (w_ledger w).
Proof.
  cbv zeta. rewrite check_row_eq.
  destruct (branch s (w_now w)); rewrite ?notify_eq; unfold py_try; rewrite ?teardown_eq;
    unfold send; repeat case_if; cbn [fst]; world_simpl; split_and!; try done;
    intros k Hk; rewrite ?lookup_set_flag_other, ?lookup_delete_other by done; done.
Qed.

Lemma sweep_rows_single s w : fst (sweep_rows [s] w) = fst (check_row s w).
Proof. unfold sweep_rows, py_bind. by destruct (check_row s w) as [? [[]|]]. Qed.

(** Processing a row of the snapshot that is expired there, when the
    key deletion goes through: the key leaves the server and no row with
    the snapshot row's id and user is left, whatever the row has become
    since the snapshot. *)
Lemma check_row_expired_gone s w :
  branch s (w_now w) = BExpired -> w_net w (CallDeleteKey (sub_key s)) = true ->
  let w' := fst (check_row s w) in
  (forall s', s' ∈ subs (w_ledger w') -> ~ (sub_id s' = sub_id s /\ sub_user s' = sub_user s)) /\
  sub_key s ∉ srv_ids (w_server w') /\
  purchases (w_ledger w') = purchases (w_ledger w).
Proof.
  intros Hb Hdel. cbv zeta. rewrite check_row_eq, Hb. unfold py_try. rewrite teardown_eq, Hdel.
  assert (Hgone : forall L s', s' ∈ subs (delete_subscription (sub_id s) (sub_user s) L) ->
            ~ (sub_id s' = sub_id s /\ sub_user s' = sub_user s)).
  { intros L s' Hs'. by apply list_elem_of_filter in Hs' as [? _]. }
  assert (Hkey : sub_key s ∉ srv_ids (snd (srv_delete (sub_key s) (w_server w)))).
  { rewrite srv_delete_ids. set_solver. }
  unfold send. repeat case_if; cbn [fst]; world_simpl; split_and!; try done;
    first [apply Hgone | intros s' (s0 & Hs0 & -> & ->)%set_flag_elem; eauto].
Qed.

(** What a reconciliation cycle whose listing goes through keeps and
    removes: the server only loses keys, and a row survives only if it
    was there and its key was on the server. *)
Lemma sync_cycle_facts w :
  srv_wf (w_server w) -> w_net w CallGetKeys = true ->
  let w' := fst (sync_keys_cycle w) in
  w_now w' = w_now w /\ w_net w' = w_net w /\
  purchases (w_ledger w') = purchases (w_ledger w) /\ srv_wf (w_server w') /\
  (forall id, id ∈ srv_ids (w_server w') -> id ∈ srv_ids (w_server w)) /\
  (forall s, s ∈ subs (w_ledger w') -> s ∈ subs (w_ledger w) /\ sub_key s ∈ srv_ids (w_server w)).
Proof.
  intros Hwf Hget. destruct (sync_keys_cycle_eq w Hwf Hget) as (S' & -> & Hn & Hl).
  cbn [fst w_now w_net w_ledger w_server set_ledger set_server].
  rewrite delete_rows_spec. cbn [with_subs subs purchases]. split_and!; try done.
  - apply (srv_wf_shrink (w_server w)); [done| |done].
    apply map_subseteq_spec. intros id k. rewrite Hl. by case_decide.
  - intros id. rewrite (srv_ids_after _ _ _ _ Hl). tauto.
  - intros s [Hn' Hs]%list_elem_of_filter. split; [done|].
    rewrite elem_of_elements, elem_of_difference, elem_of_list_to_set in Hn'.
    destruct (decide (sub_key s ∈ srv_ids (w_server w))) as [|Hno]; [done|].
    exfalso. apply Hn'. split; [|done]. unfold ledger_key_ids. by apply list_elem_of_fmap_2.
Qed.

(** ** The new-purchase branch cut at the insertion of its row

    [new_subscription_branch] awaits [create_vpn_key_with_name] (a
    coroutine that never suspends: its three Outline calls are
    synchronous), then awaits [save_subscription], whose store I/O
    suspends the task before the row is written. [new_sub_after_key] is
    the code from that point on (lines 469-488). *)
Definition new_sub_after_key (label op : string) (amt period user_id : Z)
    (vpn_key_data : option RemoteKey) : M string :=
  match vpn_key_data with
  | Some key =>
      let* now := utcnow in
      db_insert (save_subscription user_id (key_id key) (access_url key) (days_us period) now) >>
      db_insert (save_purchase_history (mkPurchase user_id amt period NewSubscription label op)) >>
      send user_id MsgPaidKeyIntro >>
      send user_id (MsgAccessUrl (access_url key)) >>
      py_ret "OK"
  | None => send user_id MsgKeyError >> py_ret "Error creating VPN key"
  end.

Section Races.
Context (sha1_hex : string -> string) (secret : string) (isoformat : Z -> string).

(** A verified, fresh renewal of subscription [sid] of user [uid]: the
    clock, the network and the server are kept, the row is extended and
    the operation recorded. *)
Lemma renewal_effect f w uid sid ts n period s :
  signature_valid sha1_hex secret f = true ->
  purchase_exists (form_get "operation_id" f) (w_ledger w) = false ->
  form_get "label" f = renew_label uid sid ts -> 0 <= uid -> 0 <= sid ->
  withdraw_amount_str f = amount_text n 0 -> (Z.of_N n * 100, period) ∈ amount_mapping ->
  lookup_sub sid (w_ledger w) = Some s -> sub_user s = uid ->
  let w' := fst (yoomoney_notification sha1_hex secret isoformat f w) in
  w_now w' = w_now w /\ w_net w' = w_net w /\ w_server w' = w_server w /\
  lookup_sub sid (w_ledger w') =
    Some (mkSub sid uid (sub_key s) (sub_url s) (expires_at s + days_us period)
                (notified_5_days s) (notified_1_day s) (notified_expired s)) /\
  purchase_exists (form_get "operation_id" f) (w_ledger w') = true.
Proof.
  intros Hv Hf Hl Hu Hs Hwa Hplan Hsub Hown. cbv zeta.
  rewrite (notification_renewal_eq sha1_hex secret isoformat f w uid sid ts n period) by done.
  pose proof (renewed_ledger_lookup uid sid
    (mkPurchase uid (Z.of_N n * 100) period RenewSubscription (renew_label uid sid ts)
       (form_get "operation_id" f)) (w_ledger w) s Hsub Hown) as Hlk.
  destruct (w_net w _); cbn [fst w_ledger w_now w_net w_server add_msg set_ledger];
    split_and!; try done; by apply purchase_exists_app.
Qed.

(** the sweeper deletes a subscription that was just renewed. Its
    cycle reads the snapshot [[r; s]], where [s] is expired. While it
    awaits on row [r] (a Telegram send or a commit), a verified payment
    for the renewal of [s] is processed: the row of [s] gets an expiry
    in the future and the payment is recorded. When the sweeper resumes
    with [s] it decides on the snapshot value, tears the subscription
    down (key and row) and never reads the renewal. Spec section 5
    requires the opposite: the sweep must not delete a row that was
    just renewed. *)
Theorem stale_sweep_tears_down_renewal w r s f ts n period :
  subs (w_ledger w) = [r; s] -> sub_id r <> sub_id s ->
  branch s (w_now w) = BExpired ->
  signature_valid sha1_hex secret f = true ->
  purchase_exists (form_get "operation_id" f) (w_ledger w) = false ->
  form_get "label" f = renew_label (sub_user s) (sub_id s) ts ->
  0 <= sub_user s -> 0 <= sub_id s ->
  withdraw_amount_str f = amount_text n 0 -> (Z.of_N n * 100, period) ∈ amount_mapping ->
  w_now w < expires_at s + days_us period ->
  w_net w (CallDeleteKey (sub_key s)) = true ->
  let w1 := fst (check_row r w) in
  let w2 := fst (yoomoney_notification sha1_hex secret isoformat f w1) in
  let w3 := fst (sweep_rows [s] w2) in
  (exists s', lookup_sub (sub_id s) (w_ledger w2) = Some s' /\ w_now w2 < expires_at s') /\
  (forall s', s' ∈ subs (w_ledger w3) -> ~ (sub_id s' = sub_id s /\ sub_user s' = sub_user s)) /\
  sub_key s ∉ srv_ids (w_server w3) /\
  purchase_exists (form_get "operation_id" f) (w_ledger w3) = true.
Proof.
  intros Hsnap Hrs Hb Hv Hf Hl Hu Hs Hwa Hplan Hact Hdel w1 w2 w3.
  destruct (check_row_keeps r w) as (Hn1 & Hnet1 & Hp1 & Hk1). fold w1 in Hn1, Hnet1, Hp1, Hk1.
  assert (Hs1 : lookup_sub (sub_id s) (w_ledger w1) = Some s).
  { rewrite Hk1 by congruence. unfold lookup_sub. rewrite Hsnap. cbn.
    rewrite bool_decide_false by congruence. cbn. by rewrite bool_decide_true. }
  assert (Hf1 : purchase_exists (form_get "operation_id" f) (w_ledger w1) = false)
    by (unfold purchase_exists in *; by rewrite Hp1).
  destruct (renewal_effect f w1 (sub_user s) (sub_id s) ts n period s)
    as (Hn2 & Hnet2 & _ & Hlk2 & Hrec2); try done. fold w2 in Hn2, Hnet2, Hlk2, Hrec2.
  destruct (check_row_expired_gone s w2) as (Hgone & Hkey & Hp3); [congruence|congruence|].
  unfold w3. rewrite sweep_rows_single. split_and!; [|done|done|].
  - eexists. split; [done|]. cbn. lia.
  - unfold purchase_exists in *. by rewrite Hp3.
Qed.
(** Cutting the branch after the key creation changes nothing. *)
Lemma new_sub_split uid ts op amt period w :
  0 <= uid ->
  new_subscription_branch isoformat (new_label uid ts) op amt period w =
  py_bind (VpnManager.create_vpn_key_with_name isoformat uid)
          (new_sub_after_key (new_label uid ts) op amt period uid) w.
Proof.
  intros Hu. unfold new_subscription_branch.
  rewrite split_new_label. cbn [List.length Nat.ltb Nat.leb].
  rewrite py_str_Z_isdigit by done. cbn [negb].
  by rewrite (py_bind_Some _ _ _ _ _ (py_int_m_str uid w Hu)).
Qed.

(** The tail inserts the row and the record whatever the server holds:
    nothing checks that the key still exists. *)
Lemma after_key_inserts label op amt period uid key w :
  key_id key ∉ ledger_key_ids (w_ledger w) -> purchase_exists op (w_ledger w) = false ->
  let w' := fst (new_sub_after_key label op amt period uid (Some key) w) in
  w_server w' = w_server w /\ w_now w' = w_now w /\ w_net w' = w_net w /\
  subs (w_ledger w') = (subs (w_ledger w) ++
    [mkSub (next_sub_id (w_ledger w)) uid (key_id key) (access_url key)
           (w_now w + days_us period) false false false])%list /\
  purchase_exists op (w_ledger w') = true.
Proof.
  intros Hkey Hop. cbv zeta. unfold new_sub_after_key, py_bind at 1, utcnow. cbn iota beta.
  unfold py_bind at 1, db_insert, save_subscription. rewrite bool_decide_false by done.
  cbn iota beta. unfold py_bind at 1, save_purchase_history. cbn [w_ledger set_ledger purchases].
  cbn [pr_op]. rewrite (fun l n t => Hop : purchase_exists op (mkLedger l n t (purchases (w_ledger w))) = false).
  unfold py_bind, send, py_ret. cbn [w_ledger set_ledger]. rewrite ?bool_decide_false by done.
  repeat case_if; cbn [fst w_ledger w_server w_now w_net set_ledger add_msg subs];
    split_and!; try done; unfold purchase_exists; apply bool_decide_eq_true; cbn;
    rewrite fmap_app; set_solver.
Qed.

(** the reconciliation loop can destroy a paid purchase. A verified,
    fresh notification for a new purchase runs as the sequential
    composition of the key creation and [new_sub_after_key]. If a
    [sync_keys] cycle runs at the [await] between them, it sees the new
    key on the server and not in the ledger, and deletes it. The branch
    then inserts the row with that dead key and records the payment. The
    next cycle finds the row's key missing from the server and deletes
    the row. The payment stays recorded, so the gateway's redelivery is
    absorbed: the user has paid and holds nothing. *)
Theorem sync_races_new_purchase f w uid ts n period :
  world_wf w ->
  signature_valid sha1_hex secret f = true ->
  purchase_exists (form_get "operation_id" f) (w_ledger w) = false ->
  form_get "label" f = new_label uid ts -> 0 <= uid ->
  withdraw_amount_str f = amount_text n 0 -> (Z.of_N n * 100, period) ∈ amount_mapping ->
  let k := VpnManager.next_key_id w in
  w_net w CallCreateKey = true -> w_net w (CallRenameKey k) = true ->
  w_net w (CallGetKey k) = true -> w_net w CallGetKeys = true -> w_net w (CallDeleteKey k) = true ->
  let tail := new_sub_after_key (new_label uid ts) (form_get "operation_id" f)
                (Z.of_N n * 100) period uid in
  let (w1, r1) := VpnManager.create_vpn_key_with_name isoformat uid w in
  let w2 := fst (sync_keys_cycle w1) in
  let w3 := match r1 with Some key => fst (tail key w2) | None => w2 end in
  let w4 := fst (sync_keys_cycle w3) in
  yoomoney_notification sha1_hex secret isoformat f w =
    py_bind (VpnManager.create_vpn_key_with_name isoformat uid) tail w /\
  (exists s, s ∈ subs (w_ledger w3) /\ sub_user s = uid /\ sub_key s = k /\
             k ∉ srv_ids (w_server w3)) /\
  (forall s, s ∈ subs (w_ledger w4) -> sub_key s <> k) /\
  purchase_exists (form_get "operation_id" f) (w_ledger w4) = true.
Proof.
  intros Hwf Hv Hf Hl Hu Hwa Hplan k E1 E2 E3 Eget Edel tail. unfold tail; clear tail.
  destruct Hwf as (Hlwf & Hswf & Hiss) eqn:Hwf'.
  pose proof (VpnManager.next_key_not_in_ledger w Hwf) as Hkey. fold k in Hkey.
  rewrite (VpnManager.create_vpn_key_up isoformat uid w E1 E2 E3). cbv zeta.
  set (w1 := set_server (VpnManager.renamed isoformat uid w) w).
  assert (Hs1 : srv_wf (w_server w1)) by (apply VpnManager.renamed_wf; done).
  assert (Hk1 : k ∈ srv_ids (w_server w1)).
  { cbn. rewrite VpnManager.renamed_ids. apply VpnManager.next_key_created. }
  pose proof (sync_orphan_gone w1 k Hs1 Eget Hk1 Hkey Edel) as Hgone.
  destruct (sync_cycle_facts w1 Hs1 Eget) as (Hn2 & Hnet2 & Hp2 & Hs2 & _ & Hsub2).
  set (w2 := fst (sync_keys_cycle w1)) in *.
  assert (Hkey2 : k ∉ ledger_key_ids (w_ledger w2)).
  { unfold ledger_key_ids. intros (s & Hks & Hs)%list_elem_of_fmap.
    apply Hsub2 in Hs as [Hs _]. apply Hkey. apply (list_elem_of_fmap_2 sub_key) in Hs. by rewrite Hks. }
  assert (Hf2 : purchase_exists (form_get "operation_id" f) (w_ledger w2) = false)
    by (unfold purchase_exists in *; by rewrite Hp2).
  destruct (after_key_inserts (new_label uid ts) (form_get "operation_id" f) (Z.of_N n * 100)
              period uid (mkKey k (VpnManager.key_name_for isoformat uid (w_now w)) (outline_url k)) w2
              Hkey2 Hf2) as (Hsv3 & _ & Hnet3 & Hsubs3 & Hrec3).
  set (w3 := fst (new_sub_after_key _ _ _ _ _ _ w2)) in *.
  assert (Hs3 : srv_wf (w_server w3)) by (rewrite Hsv3; done).
  assert (Eget3 : w_net w3 CallGetKeys = true) by (rewrite Hnet3, Hnet2; done).
  destruct (sync_cycle_facts w3 Hs3 Eget3) as (_ & _ & Hp4 & _ & _ & Hsub4).
  split_and!.
  - rewrite (notification_plan sha1_hex secret isoformat f w n period)
      by (rewrite ?Hl; auto using new_label_nonempty).
    rewrite Hl, new_label_prefix. by apply new_sub_split.
  - eexists. split; [rewrite Hsubs3; apply elem_of_app; right; by apply list_elem_of_singleton|].
    split_and!; [done|done|]. by rewrite Hsv3.
  - intros s Hs Hks. apply Hsub4 in Hs as [_ Hin]. rewrite Hsv3, Hks in Hin. by apply Hgone.
  - unfold purchase_exists in *. by rewrite Hp4.
Qed.

End Races.
(** ** Witnesses

    The sweeper's snapshot holds [row_5d] (user 43, four and a half days
    left, so the sweeper awaits its 5-day notice) and [row_exp] (user
    42, subscription 1, expired at time 0); the clock is at 10 µs. The
    notification is [Payment]'s signed form for 200.00. *)

Definition row_5d : Subscription :=
  mkSub 2 43 "5" "ss://outline/5" (432000 * 1000000 - 1) false false false.
Definition row_exp : Subscription := mkSub 1 42 "7" "ss://outline/7" 0 false false false.

Definition race_world : World :=
  mkWorld (mkLedger [row_5d; row_exp] 3 [] []) Reconcile.srv_79 [] 10 Reconcile.all_up.

Lemma stale_sweep_tears_down_renewal_witness :
  let f := wit_form (renew_label 42 1 0) "200.00" in
  let w1 := fst (check_row row_5d race_world) in
  let w2 := fst (wit_notify f w1) in
  let w3 := fst (sweep_rows [row_exp] w2) in
  (exists s', lookup_sub 1 (w_ledger w2) = Some s' /\ w_now w2 < expires_at s') /\
  (forall s', s' ∈ subs (w_ledger w3) -> ~ (sub_id s' = 1 /\ sub_user s' = 42)) /\
  "7" ∉ srv_ids (w_server w3) /\
  purchase_exists "op-1" (w_ledger w3) = true.
Proof.
  refine (stale_sweep_tears_down_renewal wit_hash wit_secret VpnManager.iso_fixed race_world
            row_5d row_exp _ 0 200 30 _ _ _ _ _ _ _ _ _ _ _ _); wit_hyp.
Defined.

Lemma sync_races_new_purchase_witness :
  let f := wit_form (new_label 42 0) "200.00" in
  let tail := new_sub_after_key (new_label 42 0) "op-1" 20000 30 42 in
  let (w1, r1) := VpnManager.create_vpn_key_with_name VpnManager.iso_fixed 42 wit_world in
  let w2 := fst (sync_keys_cycle w1) in
  let w3 := match r1 with Some key => fst (tail key w2) | None => w2 end in
  let w4 := fst (sync_keys_cycle w3) in
  wit_notify f wit_world = py_bind (VpnManager.create_vpn_key_with_name VpnManager.iso_fixed 42) tail wit_world /\
  (exists s, s ∈ subs (w_ledger w3) /\ sub_user s = 42 /\ sub_key s = "10" /\
             "10" ∉ srv_ids (w_server w3)) /\
  (forall s, s ∈ subs (w_ledger w4) -> sub_key s <> "10") /\
  purchase_exists "op-1" (w_ledger w4) = true.
Proof.
  refine (sync_races_new_purchase wit_hash wit_secret VpnManager.iso_fixed
            (wit_form (new_label 42 0) "200.00") wit_world 42 0 200 30
            _ _ _ _ _ _ _ _ _ _ _ _); wit_hyp.
Defined.

End Concurrency.
