(* ===== verification/LogsBot.v ===== *)
(** * The log-forwarding bot: [src/logs_bot.py]

    A second Telegram bot (its own token) watches the log file
    [./bot.log] of the main bot and forwards to the owner's chat
    ([CHAT_ID]) every new line that mentions a log level. It also
    answers [/start], with a greeting for the authorized user and a
    refusal for everyone else.

    - [is_authorized_user] compares [message.from_user.id], a Python
      [int], with [CHAT_ID], the [str] (or [None]) that [os.getenv]
      returns. Python values are modelled by [PyVal] and [==] by [py_eq]:
      an [int] is never equal to a [str], so nobody is authorized
      ([no_user_authorized]).
    - [monitor_logs] logs that it starts, opens the file, seeks to its
      end, then loops: [readline] returns the next complete line or [""]
      at the end, a line containing ["ERROR"], ["INFO"], ["WARNING"] or
      ["WARN"] is forwarded, a failed send is logged at level ERROR, and
      the task sleeps one second. The state [LogState] is the file (its
      lines, each with its newline), the read position (in lines), the
      texts delivered to the chat and the oracle [lg_net] of which sends
      go through. [logging.basicConfig] of this module writes to
      ['bot.log'] too, so its own records land in the file it watches:
      each failed send appends an ERROR line, which the loop reads and
      forwards again ([monitor_failure_feedback]).

    The [while True] loop is [monitor_loop n], its first [n] iterations;
    the sleep and the console handler are not modelled. The timestamp
    of a log record ([asctime]) and the text of the exception are
    section parameters. *)

From S2P Require Import Prelude Text.
From Stdlib Require Import Ascii String.

Module LogsBot.
Local Open Scope string_scope.

(** ** Python values and [==] *)

Inductive PyVal := PyInt (z : Z) | PyStr (s : string) | PyNone.

(** [a == b]: values of different types are never equal. *)
Definition py_eq (a b : PyVal) : bool :=
  match a, b with
  | PyInt x, PyInt y => Z.eqb x y
  | PyStr x, PyStr y => String.eqb x y
  | PyNone, PyNone => true
  | _, _ => false
  end.

(** [os.getenv(k)]: the variable's text, or [None] when it is unset. *)
Definition getenv (env : list (string * string)) (k : string) : PyVal :=
  match List.find (fun kv => String.eqb (fst kv) k) env with
  | Some (_, v) => PyStr v
  | None => PyNone
  end.

(** [AUTHORIZED_USER_ID = CHAT_ID]; [is_authorized_user] (lines 35-38). *)
Definition is_authorized_user (env : list (string * string)) (user_id : PyVal) : bool :=
  py_eq user_id (getenv env "CHAT_ID").

Inductive Reply := ReplyWelcome | ReplyDenied.

(** [start] (lines 41-46): [message.from_user.id] is an [int]. *)
Definition start (env : list (string * string)) (uid : Z) : Reply :=
  if is_authorized_user env (PyInt uid) then ReplyWelcome else ReplyDenied.

(** ** The monitor *)

Record LogState := mkLog {
  lg_file : list string;
  lg_pos : nat;
  lg_sent : list string;
  lg_net : string -> bool
}.

Definition newline : string := String "010"%char EmptyString.

(** A record of the format ['%(asctime)s - %(name)s - %(levelname)s - %(message)s']
    of the root logger. *)
Definition log_record (asctime level msg : string) : string :=
  asctime ++ " - root - " ++ level ++ " - " ++ msg ++ newline.

(** [s in line] *)
Fixpoint py_contains (sub s : string) : bool :=
  String.prefix sub s ||
  match s with
  | EmptyString => false
  | String _ s' => py_contains sub s'
  end.

(** The condition of line 65. *)
Definition is_alert (line : string) : bool :=
  py_contains "ERROR" line || py_contains "INFO" line ||
  py_contains "WARNING" line || py_contains "WARN" line.

Definition forward_text (line : string) : string :=
  "Новое сообщение в логе: " ++ py_strip line.

Section Monitor.
Context (asctime : string) (exc_text : string).

Notation M := (PyM LogState).

(** A record written to the log file by this process. *)
Definition append_log (line : string) : M unit :=
  py_modify (fun st => mkLog (lg_file st ++ [line])%list (lg_pos st) (lg_sent st) (lg_net st)).

Definition log_error (msg : string) : M unit := append_log (log_record asctime "ERROR" msg).

Definition tg_send (text : string) : M unit :=
  fun st => if lg_net st text
            then (mkLog (lg_file st) (lg_pos st) (lg_sent st ++ [text])%list (lg_net st), Some tt)
            else (st, None).

(** [send_telegram_message] (lines 50-55). *)
Definition send_telegram_message (text : string) : M unit :=
  py_try (tg_send text) (log_error ("Ошибка при отправке сообщения в Telegram: " ++ exc_text)).

(** [f.readline()]: the next line, or [""] at the end of the file. *)
Definition readline : M string :=
  fun st => match lg_file st !! lg_pos st with
            | Some l => (mkLog (lg_file st) (S (lg_pos st)) (lg_sent st) (lg_net st), Some l)
            | None => (st, Some "")
            end.

(** One iteration of [while True] (lines 63-67). *)
Definition monitor_iteration : M unit :=
  let* line := readline in
  if negb (String.eqb line "") && is_alert line
  then send_telegram_message (forward_text line)
  else py_ret tt.

Fixpoint monitor_loop (n : nat) : M unit :=
  match n with
  | O => py_ret tt
  | S n => monitor_iteration >> monitor_loop n
  end.

(** Lines 57-60: the start record is logged, then the file is opened and
    the position set to its end. *)
Definition monitor_open (file : list string) (net : string -> bool) : LogState :=
  let file := (file ++ [log_record asctime "INFO" "Начат мониторинг файла лога."])%list in
  mkLog file (List.length file) [] net.

End Monitor.

(** The lines not yet read. *)
Definition backlog (st : LogState) : nat := List.length (lg_file st) - lg_pos st.

(** A line the loop forwards. *)
Definition forwarded (l : string) : bool := negb (String.eqb l "") && is_alert l.

(** ** Lemmas *)

Lemma py_contains_prefix sub s : String.prefix sub s = true -> py_contains sub s = true.
Proof. intros H. destruct s; cbn [py_contains]; by rewrite H. Qed.

Lemma py_contains_app sub a b : py_contains sub (a ++ sub ++ b) = true.
Proof.
  induction a as [|c a IH].
  - apply py_contains_prefix, (py_startswith_app sub b).
  - change (String c a ++ sub ++ b) with (String c (a ++ sub ++ b)).
    cbn [py_contains]. rewrite IH. apply orb_true_r.
Qed.

Lemma error_record_forwarded asctime msg : forwarded (log_record asctime "ERROR" msg) = true.
Proof.
  unfold forwarded, log_record, is_alert.
  rewrite <- (string_app_assoc asctime " - root - "), py_contains_app.
  by destruct asctime.
Qed.

Section Steps.
Context (asctime exc_text : string).

Lemma iteration_read st l :
  lg_file st !! lg_pos st = Some l ->
  monitor_iteration asctime exc_text st =
  let st1 := mkLog (lg_file st) (S (lg_pos st)) (lg_sent st) (lg_net st) in
  if forwarded l then send_telegram_message asctime exc_text (forward_text l) st1
  else (st1, Some tt).
Proof. intros Hl. unfold monitor_iteration, py_bind, readline. rewrite Hl. unfold forwarded. by destruct (_ && _). Qed.

Lemma iteration_eof st :
  lg_file st !! lg_pos st = None -> monitor_iteration asctime exc_text st = (st, Some tt).
Proof. intros Hl. unfold monitor_iteration, py_bind, readline. by rewrite Hl. Qed.

Lemma loop_S n st :
  monitor_loop asctime exc_text (S n) st =
  monitor_loop asctime exc_text n (fst (monitor_iteration asctime exc_text st)).
Proof.
  cbn [monitor_loop]. unfold py_bind at 1, monitor_iteration, py_bind, readline.
  destruct (lg_file st !! lg_pos st); [|done]. cbn iota beta.
  destruct (_ && _); [|done]. unfold send_telegram_message, py_try, tg_send.
  by destruct (lg_net _ _).
Qed.

Lemma loop_eof n st :
  List.length (lg_file st) <= lg_pos st -> monitor_loop asctime exc_text n st = (st, Some tt).
Proof.
  intros Hle. induction n as [|n IH]; [done|].
  rewrite loop_S, iteration_eof by (by apply lookup_ge_None_2). exact IH.
Qed.

End Steps.

(** ** Properties *)

(** C17: nobody is authorized: [message.from_user.id] is an [int] and
    [CHAT_ID] a [str] or [None], and Python's [==] between values of
    different types is [False]; whatever the environment and the user,
    [/start] answers with the refusal, the owner included. *)
Theorem no_user_authorized env uid : start env uid = ReplyDenied.
Proof. unfold start, is_authorized_user, getenv. by destruct (List.find _ _) as [[]|]. Qed.

(** C18: when every send goes through, the monitor catches up with the
    file: after as many iterations as there are unread lines (or more),
    it has read to the end, has forwarded exactly the unread lines that
    mention a level, in file order, and the file is unchanged. *)
Theorem monitor_catches_up asctime exc_text st m :
  (forall t, lg_net st t = true) -> lg_pos st <= List.length (lg_file st) -> backlog st <= m ->
  monitor_loop asctime exc_text m st =
  (mkLog (lg_file st) (List.length (lg_file st))
         (lg_sent st ++ (forward_text <$> filter forwarded (drop (lg_pos st) (lg_file st))))%list
         (lg_net st), Some tt).
Proof.
  revert st. induction m as [|m IH]; intros [file pos sent net] Hnet Hle Hb;
    unfold backlog in *; cbn [lg_file lg_pos lg_sent lg_net] in *.
  - cbn. unfold py_ret. rewrite drop_ge by lia. cbn. rewrite app_nil_r. do 3 f_equal. lia.
  - destruct (file !! pos) as [l|] eqn:E.
    + pose proof (lookup_lt_Some _ _ _ E) as Hlt. rewrite (drop_S _ _ _ E).
      rewrite loop_S, (iteration_read _ _ _ l) by done. cbn [fst].
      destruct (forwarded l) eqn:F; rewrite filter_cons, F.
      * unfold send_telegram_message, py_try, tg_send. cbn [lg_net]. rewrite Hnet. cbn [fst].
        rewrite IH; cbn; [|done|lia|lia]. by rewrite <- app_assoc.
      * cbn [fst]. rewrite IH; cbn; [done|done|lia|lia].
    + apply lookup_ge_None_1 in E. rewrite loop_eof by (cbn; lia).
      rewrite drop_ge by lia. cbn. rewrite app_nil_r. do 3 f_equal. lia.
Qed.

(** C19: when the chat cannot be reached, the monitor feeds itself and
    never catches up. Each forwarded line whose send fails makes the
    [except] block log an ERROR record into the very file being
    watched, and that record is forwarded in turn. From a state whose
    unread lines all mention a level, every iteration reads one line and
    appends one, so however long the loop runs the backlog stays the
    same, nothing is delivered and the file grows by a line a second. *)
Theorem monitor_failure_feedback asctime exc_text st n :
  (forall t, lg_net st t = false) -> 0 < backlog st ->
  Forall (fun l => forwarded l = true) (drop (lg_pos st) (lg_file st)) ->
  let st' := fst (monitor_loop asctime exc_text n st) in
  backlog st' = backlog st /\ lg_sent st' = lg_sent st /\
  List.length (lg_file st') = List.length (lg_file st) + n /\
  Forall (fun l => forwarded l = true) (drop (lg_pos st') (lg_file st')).
Proof.
  revert st. induction n as [|n IH]; intros [file pos sent net] Hnet Hb Hall;
    unfold backlog in *; cbn [lg_file lg_pos lg_sent lg_net] in *.
  - cbn. split_and!; [done|done|lia|done].
  - destruct (file !! pos) as [l|] eqn:E; [|apply lookup_ge_None_1 in E; lia].
    rewrite (drop_S _ _ _ E) in Hall. apply Forall_cons in Hall as [Hl Hall].
    rewrite loop_S, (iteration_read _ _ _ l), Hl by done.
    unfold send_telegram_message, py_try, tg_send. cbn [lg_net]. rewrite Hnet.
    unfold log_error, append_log, py_modify. cbn [fst lg_file lg_pos lg_sent lg_net].
    set (rec := log_record _ _ _).
    destruct (IH (mkLog (file ++ [rec]) (S pos) sent net)) as (Hb' & Hs' & Hlen' & Hall');
      cbn [lg_file lg_pos lg_sent lg_net backlog] in *;
      [done|rewrite length_app; cbn; lia| |].
    + rewrite drop_app_le by lia. apply Forall_app. split; [done|].
      apply Forall_singleton. apply error_record_forwarded.
    + rewrite length_app in Hb', Hlen'. cbn in Hb', Hlen'. split_and!; [lia|done|lia|done].
Qed.

(** ** Witnesses

    A log with a start line, a plain line and an error record of the
    main bot; the monitor has read up to [pos]. *)

Definition wit_log (pos : nat) (net : string -> bool) : LogState :=
  mkLog ["t0 - root - INFO - started" ++ newline; "plain" ++ newline;
         "t1 - root - ERROR - boom" ++ newline] pos [] net.

Lemma monitor_catches_up_witness :
  monitor_loop "t2" "timeout" 2 (wit_log 1 (fun _ => true)) =
  (mkLog (lg_file (wit_log 1 (fun _ => true))) 3
         [forward_text ("t1 - root - ERROR - boom" ++ newline)] (fun _ => true), Some tt).
Proof.
  refine (monitor_catches_up "t2" "timeout" (wit_log 1 (fun _ => true)) 2 _ _ _);
    [intros t; reflexivity|cbn; lia|vm_compute; lia].
Defined.

Lemma monitor_failure_feedback_witness :
  let st' := fst (monitor_loop "t2" "timeout" 5 (wit_log 2 (fun _ => false))) in
  backlog st' = 1 /\ lg_sent st' = [] /\ List.length (lg_file st') = 8 /\
  Forall (fun l => forwarded l = true) (drop (lg_pos st') (lg_file st')).
Proof.
  refine (monitor_failure_feedback "t2" "timeout" (wit_log 2 (fun _ => false)) 5 _ _ _);
    [intros t; reflexivity|vm_compute; lia|vm_compute; repeat constructor].
Defined.

End LogsBot.
