(* ===== verification/System.v ===== *)
(** * The whole process: [main()] of [src/main.py]

    [main()] initialises the store, starts the sweeper and the
    reconciliation loop as tasks, serves the webhook route
    [/yoomoney_notification] and polls Telegram for chat updates. The
    process thus performs, in any order the event loop chooses:
    a sweep cycle, a reconciliation cycle, one webhook request, one
    callback or [/start] update; meanwhile time passes and the network
    changes. [sys_step] is that step relation on [World].

    The world invariant [world_wf] (well-formed ledger and server, every
    ledger key issued by the server) holds in every reachable world
    ([system_reachable_wf]). The proof is compositional: [safe P c Q]
    says that [c], run from a well-formed world satisfying [P], ends in
    a well-formed world (also when it raises), does not move the
    server's id counter back, and satisfies [Q] on its result. The rules
    below give it for each primitive effect and for [py_bind] and
    [py_try], and the tactic [safe_auto] assembles it for whole
    handlers. The only precondition a primitive effect needs is that a
    key about to be stored was issued ([issued]), a fact that no effect
    can undo since the counter only grows. The invariant therefore
    holds at every [await] point, also under the interleavings of
    [Concurrency]. *)

From S2P Require Import Prelude Text Ledger Provider World Sweeper Reconcile VpnManager PyDecimal Payment Frontend Concurrency.
From Stdlib Require Import String.

Module System.
Import Sweeper Reconcile Payment Frontend.
Local Open Scope Z_scope.

(** ** Safe computations *)

Definition safe {A} (P : World -> Prop) (c : M A) (Q : A -> World -> Prop) : Prop :=
  forall w, world_wf w -> P w ->
    world_wf (fst (c w)) /\ (srv_next (w_server w) <= srv_next (w_server (fst (c w))))%N /\
    forall a, snd (c w) = Some a -> Q a (fst (c w)).

Create HintDb safe.

Section Rules.
Context {A B : Type}.

Lemma safe_ret P (a : A) (Q : A -> World -> Prop) :
  (forall w, P w -> Q a w) -> safe P (py_ret a) Q.
Proof. intros HQ w Hw HP. split_and!; [done|done|]. intros ? [= <-]. auto. Qed.

Lemma safe_raise P (Q : A -> World -> Prop) : safe P py_raise Q.
Proof. intros w Hw HP. split_and!; [done|done|done]. Qed.

Lemma safe_bind P (c : M A) (k : A -> M B) Q R :
  safe P c Q -> (forall a, safe (Q a) (k a) R) -> safe P (py_bind c k) R.
Proof.
  intros Hc Hk w Hw HP. destruct (Hc w Hw HP) as (Hw1 & Hn1 & HQ). unfold py_bind.
  destruct (c w) as [w1 [a|]]; cbn [fst snd] in *; [|split_and!; done].
  destruct (Hk a w1 Hw1 (HQ a eq_refl)) as (Hw2 & Hn2 & HR). split_and!; [done|lia|done].
Qed.

Lemma safe_try P (c h : M A) Q : safe P c Q -> safe (fun _ => True) h Q -> safe P (py_try c h) Q.
Proof.
  intros Hc Hh w Hw HP. destruct (Hc w Hw HP) as (Hw1 & Hn1 & HQ). unfold py_try.
  destruct (c w) as [w1 [a|]]; cbn [fst snd] in *; [split_and!; done|].
  destruct (Hh w1 Hw1 I) as (Hw2 & Hn2 & HR). split_and!; [done|lia|done].
Qed.

Lemma safe_weaken P P' (c : M A) Q Q' :
  safe P c Q -> (forall w, P' w -> P w) -> (forall a w, Q a w -> Q' a w) -> safe P' c Q'.
Proof. intros Hc HP HQ w Hw HP'. destruct (Hc w Hw (HP w HP')) as (? & ? & ?). eauto. Qed.

(** A computation that only reads keeps the world, hence the
    precondition. *)
Lemma safe_read P (c : M A) : (forall w, fst (c w) = w) -> safe P c (fun _ w => P w).
Proof.
  intros Hc w Hw HP. rewrite Hc. split_and!; [done|done|done].
Qed.

End Rules.

(** A change of the world that keeps the server and keeps the ledger
    well formed with no new key. *)
Lemma safe_frame {A} P (c : M A) :
  (forall w, w_server (fst (c w)) = w_server w /\
             (ledger_wf (w_ledger w) -> ledger_wf (w_ledger (fst (c w)))) /\
             forall k, k ∈ ledger_key_ids (w_ledger (fst (c w))) -> k ∈ ledger_key_ids (w_ledger w)) ->
  safe P c (fun _ _ => True).
Proof.
  intros Hc w (Hl & Hs & Hi) _. destruct (Hc w) as (Hsrv & Hwf & Hk).
  unfold world_wf. rewrite Hsrv. split_and!; [auto|done| |lia|done].
  rewrite Forall_forall in *. auto.
Qed.

(** ** Primitive effects *)

(** Reads. *)
Lemma read_utcnow w : fst (utcnow w) = w.
Proof. done. Qed.
Lemma read_db_read {A} (f : Ledger -> A) w : fst (db_read f w) = w.
Proof. done. Qed.
Lemma read_py_int_m s w : fst (py_int_m s w) = w.
Proof. unfold py_int_m. by destruct (py_int s). Qed.
Lemma read_compare_digest a b w : fst (compare_digest a b w) = w.
Proof. unfold compare_digest. by destruct (_ && _). Qed.
Lemma read_find_match d l w : fst (find_match d l w) = w.
Proof.
  induction l as [|[amt p] l IH]; [done|]. cbn [find_match].
  destruct d; [case_match|done|done]; done.
Qed.
Lemma read_third_part s w : fst (third_part s w) = w.
Proof. unfold third_part. by case_match. Qed.
Lemma read_timestamp_now w : fst (timestamp_now w) = w.
Proof. done. Qed.
Lemma read_get_keys w : fst (get_keys w) = w.
Proof. unfold get_keys. by case_if. Qed.

#[export] Hint Resolve read_utcnow read_db_read read_py_int_m read_compare_digest
  read_find_match read_third_part read_timestamp_now read_get_keys : safe.

Lemma safe_send P uid m : safe P (send uid m) (fun _ _ => True).
Proof. apply safe_frame. intros w. unfold send. by case_if. Qed.

(** Ledger updates that keep the ledger well formed and add no key. *)
Definition ledger_op_ok (f : Ledger -> Ledger) : Prop :=
  forall L, (ledger_wf L -> ledger_wf (f L)) /\
            forall k, k ∈ ledger_key_ids (f L) -> k ∈ ledger_key_ids L.

Lemma safe_db_update P f : ledger_op_ok f -> safe P (db_update f) (fun _ _ => True).
Proof. intros Hf. apply safe_frame. intros w. cbn. split_and!; [done|apply Hf|apply Hf]. Qed.

Lemma op_ok_step f : (forall L, ledger_step L (f L)) ->
  (forall L k, k ∈ ledger_key_ids (f L) -> k ∈ ledger_key_ids L) -> ledger_op_ok f.
Proof. intros Hs Hk L. split; [intros; by eapply ledger_step_wf|apply Hk]. Qed.

Lemma op_ok_set_flag fl sid : ledger_op_ok (set_flag fl sid).
Proof. apply op_ok_step; [constructor|]. intros L k. by rewrite set_flag_key_ids. Qed.

Lemma op_ok_delete_subscription sid uid : ledger_op_ok (delete_subscription sid uid).
Proof. apply op_ok_step; [constructor|]. intros L k. apply filter_key_ids. Qed.

Lemma op_ok_delete_by_key key : ledger_op_ok (delete_by_key key).
Proof. apply op_ok_step; [constructor|]. intros L k. apply filter_key_ids. Qed.

Lemma op_ok_extend uid sid d : ledger_op_ok (extend_subscription uid sid d).
Proof.
  apply op_ok_step; [constructor|]. intros L k. unfold ledger_key_ids, extend_subscription; cbn.
  rewrite fmap_keeps_proj; [done|]. intros s. by case_bool_decide.
Qed.

Lemma op_ok_add_test_usage uid now : ledger_op_ok (add_test_usage uid now).
Proof. apply op_ok_step; [constructor|done]. Qed.

Lemma op_ok_delete_rows ks : ledger_op_ok (delete_rows ks).
Proof.
  intros L. rewrite delete_rows_spec. split; [apply wf_filter|intros k; apply filter_key_ids].
Qed.

#[export] Hint Resolve op_ok_set_flag op_ok_delete_subscription op_ok_delete_by_key op_ok_extend
  op_ok_add_test_usage op_ok_delete_rows : safe.

(** Inserts: well formed, and every stored key issued by [S]. *)
Definition ledger_ins_ok (S : Server) (f : Ledger -> option Ledger) : Prop :=
  forall L L', ledger_wf L -> Forall (issued S) (ledger_key_ids L) -> f L = Some L' ->
    ledger_wf L' /\ Forall (issued S) (ledger_key_ids L').

Lemma safe_db_insert P f :
  (forall w, P w -> ledger_ins_ok (w_server w) f) -> safe P (db_insert f) (fun _ _ => True).
Proof.
  intros Hf w (Hl & Hs & Hi) HP. unfold db_insert.
  destruct (f (w_ledger w)) as [L'|] eqn:E; cbn [fst snd]; [|split_and!; done].
  destruct (Hf w HP _ _ Hl Hi E). cbn. unfold world_wf. split_and!; done.
Qed.

Lemma ins_ok_purchase S p : ledger_ins_ok S (save_purchase_history p).
Proof.
  intros L L' Hl Hi E. split; [by eapply wf_purchase|].
  unfold save_purchase_history in E. case_match; [done|]. by injection E as <-.
Qed.

Lemma ins_ok_save S uid k url d now :
  issued S k -> ledger_ins_ok S (save_subscription uid k url d now).
Proof.
  intros Hk L L' Hl Hi E. split; [by eapply wf_save|].
  unfold save_subscription in E. case_bool_decide; [done|]. injection E as <-.
  unfold ledger_key_ids in *. cbn. rewrite fmap_app. apply Forall_app. by split; [|constructor].
Qed.

Lemma safe_delete_key P id : safe P (delete_key id) (fun _ _ => True).
Proof.
  intros w (Hl & Hs & Hi) _. unfold delete_key, provider_call. case_if; [|split_and!; done].
  cbn. unfold world_wf. split_and!; [done|by apply srv_delete_wf| |done|done].
  apply (Forall_impl _ _ _ Hi). intros k. by apply issued_same_next.
Qed.


Section Create.
Context (isoformat : Z -> string).

(** A returned key is stored under its own id on the server, hence
    issued. *)
Lemma create_result_issued uid w key :
  srv_wf (w_server w) ->
  snd (VpnManager.create_vpn_key_with_name isoformat uid w) = Some (Some key) ->
  issued (w_server (fst (VpnManager.create_vpn_key_with_name isoformat uid w))) (key_id key).
Proof.
  intros Hs. rewrite VpnManager.create_vpn_key_eq. repeat case_if; try done.
  destruct (srv_get _ _) as [k|] eqn:Eget; intros [= <-]. cbn.
  destruct (VpnManager.renamed_wf isoformat uid w Hs _ _ Eget) as [-> Hiss]. done.
Qed.

Lemma safe_create P uid :
  safe P (VpnManager.create_vpn_key_with_name isoformat uid)
    (fun r w => forall key, r = Some key -> issued (w_server w) (key_id key)).
Proof.
  intros w (Hl & Hs & Hi) _.
  destruct (VpnManager.create_vpn_key_effect isoformat uid w) as [(Hled & _ & _ & _ & Hn & Hsw & _) _].
  unfold world_wf. rewrite Hled. split_and!; [done|auto| |done|].
  - apply (Forall_impl _ _ _ Hi). intros k. by apply issued_mono.
  - intros r Hr key ->. by apply create_result_issued.
Qed.

End Create.


#[export] Hint Resolve safe_send safe_delete_key safe_create safe_raise : safe.
#[export] Hint Extern 2 (safe _ (db_update _) _) => apply safe_db_update; eauto with safe : safe.
#[export] Hint Extern 3 (safe _ _ _) => apply safe_read; intros; eauto with safe : safe.

(** A primitive effect, or a handler whose [safe] lemma is a hint. *)
Ltac safe_prim :=
  first [ solve [eauto with safe]
        | apply safe_db_insert; intros ? HP;
          first [ apply ins_ok_purchase
                | apply ins_ok_save; cbv beta in HP; by apply HP ] ].

(** One step of assembling [safe] for a handler. *)
Ltac safe_step :=
  cbv beta zeta;
  match goal with
  | |- safe _ (py_bind _ _) _ =>
      first [ eapply safe_bind; [safe_prim | intros ?]
            | apply (safe_bind _ _ _ (fun _ _ => True)); [|intros ?] ]
  | |- safe _ (py_try _ _) _ => apply safe_try
  | |- safe _ (py_ret _) _ => apply safe_ret; intros; exact I
  | |- safe _ (if ?b then _ else _) _ => destruct b
  | |- safe _ (match ?x with _ => _ end) _ => destruct x
  | |- _ => safe_prim
  end.

Ltac safe_auto := repeat safe_step.


(** ** The handlers *)

Section Handlers.
Context (sha1_hex : string -> string) (secret : string) (isoformat : Z -> string).

Lemma safe_notify_wrong_amount P label : safe P (notify_wrong_amount label) (fun _ _ => True).
Proof. unfold notify_wrong_amount. safe_auto. Qed.

Lemma safe_renewal_branch P label op amt period :
  safe P (renewal_branch label op amt period) (fun _ _ => True).
Proof. unfold renewal_branch. safe_auto. Qed.

Lemma safe_new_subscription_branch P label op amt period :
  safe P (new_subscription_branch isoformat label op amt period) (fun _ _ => True).
Proof. unfold new_subscription_branch. safe_auto. Qed.

#[local] Hint Resolve safe_notify_wrong_amount safe_renewal_branch safe_new_subscription_branch : safe.

Lemma safe_process_payment P f paid :
  safe P (process_payment isoformat f paid) (fun _ _ => True).
Proof. unfold process_payment. safe_auto. Qed.

#[local] Hint Resolve safe_process_payment : safe.

Lemma safe_notification P f :
  safe P (yoomoney_notification sha1_hex secret isoformat f) (fun _ _ => True).
Proof. unfold yoomoney_notification. safe_auto. Qed.

(** The sweeper. *)
Lemma safe_check_row P s : safe P (check_row s) (fun _ _ => True).
Proof. unfold check_row, notify, teardown. safe_auto. Qed.

#[local] Hint Resolve safe_check_row : safe.

Lemma safe_sweep_rows P rows : safe P (sweep_rows rows) (fun _ _ => True).
Proof. revert P. induction rows; intros P; cbn [sweep_rows]; safe_auto. Qed.

#[local] Hint Resolve safe_sweep_rows : safe.

Lemma safe_sweep_cycle P : safe P check_subscriptions_cycle (fun _ _ => True).
Proof. unfold check_subscriptions_cycle. safe_auto. Qed.

(** The reconciliation loop. *)
Lemma safe_delete_orphans P ks : safe P (delete_orphans ks) (fun _ _ => True).
Proof. revert P. induction ks; intros P; cbn [delete_orphans]; safe_auto. Qed.

#[local] Hint Resolve safe_delete_orphans : safe.

Lemma safe_sync_cycle P : safe P sync_keys_cycle (fun _ _ => True).
Proof. unfold sync_keys_cycle. safe_auto. Qed.

(** The chat front-end. *)
Lemma safe_list_keys P uid l : safe P (list_keys uid l) (fun _ _ => True).
Proof. revert P. induction l; intros P; cbn [list_keys]; safe_auto. Qed.

#[local] Hint Resolve safe_list_keys : safe.

Lemma safe_handle_test_vpn P uid : safe P (handle_test_vpn isoformat uid) (fun _ _ => True).
Proof. unfold handle_test_vpn, delete_quietly. safe_auto. Qed.

#[local] Hint Resolve safe_handle_test_vpn : safe.

Lemma safe_dispatch P uid data : safe P (dispatch isoformat uid data) (fun _ _ => True).
Proof.
  unfold dispatch, handle_instruction, handle_my_keys, handle_buy_new_key, handle_renew_subscription,
    handle_choose_subscription, process_new_subscription, process_renew_subscription,
    handle_pay_subscription, choose_renewal_period.
  safe_auto.
Qed.

Lemma safe_start P uid : safe P (Frontend.start uid) (fun _ _ => True).
Proof. unfold Frontend.start. safe_auto. Qed.

(** The tail of a new purchase, resumed with a key the server issued. *)
Lemma safe_after_key label op amt period uid key :
  safe (fun w => issued (w_server w) (key_id key))
       (Concurrency.new_sub_after_key label op amt period uid (Some key)) (fun _ _ => True).
Proof. unfold Concurrency.new_sub_after_key. safe_auto. Qed.

End Handlers.


(** ** The process *)

Section Process.
Context (sha1_hex : string -> string) (secret : string) (isoformat : Z -> string).

(** What the process started by [main()] does, one step at a time:
    a cycle of each background task, one webhook request, one chat
    update; the sweeper resuming on a row of its (possibly stale)
    snapshot and a new purchase resuming after its key creation, which
    are the [await] points of [Concurrency]; and the environment: time
    passes, the network changes. *)
Inductive sys_step : World -> World -> Prop :=
  | sys_sweep w : sys_step w (fst (check_subscriptions_cycle w))
  | sys_sweep_row s w : sys_step w (fst (check_row s w))
  | sys_sync w : sys_step w (fst (sync_keys_cycle w))
  | sys_webhook f w : sys_step w (fst (yoomoney_notification sha1_hex secret isoformat f w))
  | sys_key_created uid w :
      sys_step w (fst (VpnManager.create_vpn_key_with_name isoformat uid w))
  | sys_after_key label op amt period uid key w :
      issued (w_server w) (key_id key) ->
      sys_step w (fst (Concurrency.new_sub_after_key label op amt period uid (Some key) w))
  | sys_callback uid data w : sys_step w (fst (dispatch isoformat uid data w))
  | sys_command uid w : sys_step w (fst (Frontend.start uid w))
  | sys_env w now net :
      w_now w <= now -> sys_step w (mkWorld (w_ledger w) (w_server w) (w_outbox w) now net).

Lemma sys_step_wf w w' :
  sys_step w w' -> world_wf w ->
  world_wf w' /\ (srv_next (w_server w) <= srv_next (w_server w'))%N.
Proof.
  intros Hs Hw.
  destruct Hs as [w|s w|w|f w|uid w|label op amt period uid key w Hk|uid data w|uid w|w now net Hle];
    [ destruct (safe_sweep_cycle (fun _ => True) w Hw I) as (? & ? & _)
    | destruct (safe_check_row (fun _ => True) s w Hw I) as (? & ? & _)
    | destruct (safe_sync_cycle (fun _ => True) w Hw I) as (? & ? & _)
    | destruct (safe_notification sha1_hex secret isoformat (fun _ => True) f w Hw I) as (? & ? & _)
    | destruct (safe_create isoformat (fun _ => True) uid w Hw I) as (? & ? & _)
    | destruct (safe_after_key label op amt period uid key w Hw Hk) as (? & ? & _)
    | destruct (safe_dispatch isoformat (fun _ => True) uid data w Hw I) as (? & ? & _)
    | destruct (safe_start (fun _ => True) uid w Hw I) as (? & ? & _)
    | split; [exact Hw|done] ]; done.
Qed.

End Process.


(** ** Properties *)

(** the world invariant holds in every state the process reaches:
    from a well-formed world, after any sequence of sweep cycles, rows
    of a stale snapshot, reconciliation cycles, webhook requests, chat
    updates, key creations resumed later, clock and network changes, the
    ledger and the server are well formed and every ledger key was
    issued by the server; the server's id counter never goes back, so
    the id the next key creation gets is held by no ledger row. *)
Theorem system_reachable_wf sha1_hex secret isoformat w w' :
  world_wf w -> rtc (sys_step sha1_hex secret isoformat) w w' ->
  world_wf w' /\ (srv_next (w_server w) <= srv_next (w_server w'))%N /\
  VpnManager.next_key_id w' ∉ ledger_key_ids (w_ledger w').
Proof.
  intros Hw Hr. assert (H : world_wf w' /\ (srv_next (w_server w) <= srv_next (w_server w'))%N).
  { induction Hr as [|w1 w2 w3 Hs Hr IH]; [split; [done|lia]|].
    destruct (sys_step_wf _ _ _ _ _ Hs Hw) as [Hw2 Hn]. destruct (IH Hw2). split; [done|lia]. }
  destruct H as [Hw' Hn]. split_and!; [done|done|]. by apply VpnManager.next_key_not_in_ledger.
Qed.

(** ** Witness

    An empty store (what [init_db] creates on a first start) beside the
    server of [Reconcile]'s examples; a sweep cycle, then the trial
    button of user 42. *)
Definition boot_world : World := mkWorld empty_ledger Reconcile.srv_79 [] 0 Reconcile.all_up.

Lemma system_reachable_wf_witness :
  let w' := fst (dispatch VpnManager.iso_fixed 42 "test_vpn"
                   (fst (check_subscriptions_cycle boot_world))) in
  world_wf w' /\ (srv_next (w_server boot_world) <= srv_next (w_server w'))%N /\
  VpnManager.next_key_id w' ∉ ledger_key_ids (w_ledger w').
Proof.
  refine (system_reachable_wf wit_hash wit_secret VpnManager.iso_fixed boot_world _ _ _).
  - apply (bool_decide_unpack _). vm_compute. reflexivity.
  - eapply rtc_l; [apply sys_sweep|]. eapply rtc_l; [apply sys_callback|]. apply rtc_refl.
Defined.

End System.
