(* ===== verification/Scheduler.v ===== *)
(** * The event loop of [main()]: tasks that suspend at their [await]s

    [main()] (src/main.py, lines 32-43) starts [check_subscriptions] and
    [sync_keys] as asyncio tasks, serves [/yoomoney_notification] and
    polls Telegram; every request and every update is a task of its own.
    The event loop runs one task until it suspends at an [await] whose
    result is not ready (an [aiosqlite] call, which runs in a worker
    thread, or a Telegram call), then runs any other ready task. The
    Outline calls of [vpn_manager.py] are synchronous: they never
    suspend.

    A task is a resumption ([Res]): it runs from a world to a world and
    either finishes, with a result or an exception, or suspends there
    with the rest of its code as a function of the world it will be
    resumed in. [RM] is the monad of such tasks; [await c] suspends, then
    performs the I/O [c] when resumed. The background loops and the
    webhook are written in [RM] with an [await] at every [await] of the
    source, and [erase] (run without ever letting another task in) maps
    each of them back to the handler of the other files (the lemmas
    [erases_sweep_rows], [erases_notification], ...), which the
    schedules below use to run a task alone.

    [sched_step] is the event loop: it resumes any task of the pool,
    accepts a new webhook request or chat update, restarts a background
    loop after its [asyncio.sleep], and lets time pass. A program logic
    parametric in an invariant [Inv] and a preorder [Grow] carries the
    invariant across suspensions: [mspec] for segments that do not
    suspend, [rspec] for tasks, and [loop_invariant] for every state
    the loop reaches. Its instance [confirmed]/[grows] shows that under
    every schedule the bot confirms only what it has recorded
    ([confirmations_recorded]): renewal confirmations, paid keys and
    trial keys are sent after the record they announce, and records
    are never deleted.

    Two schedules of this event loop break the one-shot guarantees of
    the spec: two deliveries of one renewal notification extend the
    subscription twice ([duplicate_delivery_double_renewal]), and two
    taps on the trial button grant two trials
    ([concurrent_trial_granted_twice]). In both, a check and the insert
    it guards are separate awaits. The two races of [Concurrency] are
    schedules of the same loop: a renewal committed while the sweeper
    awaits a notice is torn down from its snapshot
    ([stale_sweep_in_event_loop]), and a sync cycle run while a new
    purchase awaits the insert of its row deletes the key it just paid
    for ([sync_races_in_event_loop]). And an exception that escapes the
    sweeper's cycle ends its loop for good
    ([sweeper_crash_is_permanent]). *)

From S2P Require Import Prelude Text Ledger Provider World Sweeper Reconcile VpnManager PyDecimal Payment Frontend Concurrency System.
From Stdlib Require Import String Ascii.

Module Scheduler.
Import Sweeper Reconcile PyDecimal Payment Frontend System.
Local Open Scope Z_scope.
Local Open Scope string_scope.

(** ** Tasks *)

Inductive Res (A : Type) : Type :=
  | RDone (w : World) (r : option A)
  | RSusp (w : World) (k : World -> Res A).
Arguments RDone {A} w r.
Arguments RSusp {A} w k.

Definition RM (A : Type) : Type := World -> Res A.

Definition rret {A} (a : A) : RM A := fun w => RDone w (Some a).

Definition rraise {A} : RM A := fun w => RDone w None.

Fixpoint res_then {A B} (r : Res A) (k : A -> RM B) : Res B :=
  match r with
  | RDone w (Some a) => k a w
  | RDone w None => RDone w None
  | RSusp w c => RSusp w (fun w' => res_then (c w') k)
  end.

Definition rbind {A B} (c : RM A) (k : A -> RM B) : RM B := fun w => res_then (c w) k.

Fixpoint res_catch {A} (r : Res A) (h : RM A) : Res A :=
  match r with
  | RDone w (Some a) => RDone w (Some a)
  | RDone w None => h w
  | RSusp w c => RSusp w (fun w' => res_catch (c w') h)
  end.

(** [try: c except: h] *)
Definition rtry {A} (c h : RM A) : RM A := fun w => res_catch (c w) h.

(** Code that runs without suspending. *)
Definition lift {A} (c : M A) : RM A := fun w => let (w', r) := c w in RDone w' r.

Definition yield : RM unit := fun w => RSusp w (rret tt).

(** [await c] for an I/O [c]: the task suspends, and [c] takes effect
    when it is resumed. *)
Definition await {A} (c : M A) : RM A := rbind yield (fun _ => lift c).

Declare Scope task_scope.
Delimit Scope task_scope with task.
Notation "'let!' x ':=' c 'in' k" := (rbind c (fun x => k))
  (at level 10, x name, c at level 100, k at level 200) : task_scope.
Local Open Scope task_scope.

(** Running a task to its end with no other task in between. *)
Fixpoint run_res {A} (r : Res A) : World * option A :=
  match r with
  | RDone w o => (w, o)
  | RSusp w k => run_res (k w)
  end.

Definition erase {A} (c : RM A) : M A := fun w => run_res (c w).

(** [c] run alone is [m]. *)
Definition erases_to {A} (c : RM A) (m : M A) : Prop := forall w, erase c w = m w.

(** ** Erasure *)

Lemma run_then {A B} (r : Res A) (k : A -> RM B) :
  run_res (res_then r k) =
  match run_res r with
  | (w, Some a) => erase (k a) w
  | (w, None) => (w, None)
  end.
Proof. induction r as [w [a|]|w c IH]; [done|done|apply IH]. Qed.

Lemma run_catch {A} (r : Res A) (h : RM A) :
  run_res (res_catch r h) =
  match run_res r with
  | (w, Some a) => (w, Some a)
  | (w, None) => erase h w
  end.
Proof. induction r as [w [a|]|w c IH]; [done|done|apply IH]. Qed.

Section Erases.
Context {A B : Type}.

Lemma erases_ret (a : A) : erases_to (rret a) (py_ret a).
Proof. done. Qed.

Lemma erases_raise : erases_to (A:=A) rraise py_raise.
Proof. done. Qed.

Lemma erases_lift (c : M A) : erases_to (lift c) c.
Proof. intros w. unfold erase, lift. by destruct (c w). Qed.

Lemma erases_bind (c : RM A) m (k : A -> RM B) k' :
  erases_to c m -> (forall a, erases_to (k a) (k' a)) -> erases_to (rbind c k) (py_bind m k').
Proof.
  intros Hc Hk w. unfold erase, rbind, py_bind. rewrite run_then. fold (erase c w). rewrite Hc.
  destruct (m w) as [w' [a|]]; [apply Hk|done].
Qed.

Lemma erases_try (c h : RM A) m m' :
  erases_to c m -> erases_to h m' -> erases_to (rtry c h) (py_try m m').
Proof.
  intros Hc Hh w. unfold erase, rtry, py_try. rewrite run_catch. fold (erase c w). rewrite Hc.
  destruct (m w) as [w' [a|]]; [done|apply Hh].
Qed.

Lemma erases_await (c : M A) : erases_to (await c) c.
Proof. intros w. apply (erases_lift c). Qed.

Lemma erases_await_bind (c : M A) (k : A -> RM B) k' :
  (forall a, erases_to (k a) (k' a)) -> erases_to (rbind (await c) k) (py_bind c k').
Proof. intros Hk. apply erases_bind; [apply erases_await|done]. Qed.

End Erases.

Create HintDb erases.
#[export] Hint Resolve erases_ret erases_raise erases_lift erases_await : erases.

(** One step of matching a task against the handler it cuts. *)
Ltac erases_step :=
  cbv beta zeta;
  match goal with
  | |- erases_to (rbind (await _) _) (py_bind _ _) => apply erases_await_bind; intros ?
  | |- erases_to (rbind _ _) (py_bind _ _) => apply erases_bind; [|intros ?]
  | |- erases_to (rtry _ _) (py_try _ _) => apply erases_try
  | |- erases_to (if ?b then _ else _) (if ?b then _ else _) => destruct b
  | |- erases_to (match ?x with _ => _ end) (match ?x with _ => _ end) => destruct x
  | |- _ => solve [eauto with erases]
  end.

Ltac erases_auto := repeat erases_step.

(** ** The background loops *)

(** The 5-day and 1-day branches (tasks.py lines 37-46 and 56-65): the
    send and the [UPDATE] are each awaited; the [UPDATE] becomes visible
    at its [commit], so one suspension stands for the pair. *)
Definition notify_task (m : Msg) (f : Flag) (s : Subscription) : RM unit :=
  rtry (let! _ := await (send (sub_user s) m) in
        await (db_update (set_flag f (sub_id s))))
       (rret tt).

(** Lines 69-86: [manager.delete_key] is synchronous; the row deletion,
    the send and the flag update are awaited. *)
Definition teardown_task (s : Subscription) : RM unit :=
  let! _ := lift (delete_key (sub_key s)) in
  let! _ := await (db_update (delete_subscription (sub_id s) (sub_user s))) in
  let! _ := await (send (sub_user s) MsgExpired) in
  await (db_update (set_flag FlagExpired (sub_id s))).

Definition check_row_task (s : Subscription) : RM unit :=
  let! now := lift utcnow in
  match branch s now with
  | BFiveDays => notify_task MsgFiveDays Flag5Days s
  | BOneDay => notify_task MsgOneDay Flag1Day s
  | BExpired => rtry (teardown_task s) (await (send (sub_user s) (MsgTeardownError (sub_key s))))
  | BNone => rret tt
  end.

Fixpoint sweep_rows_task (rows : list Subscription) : RM unit :=
  match rows with
  | [] => rret tt
  | s :: rest => let! _ := check_row_task s in sweep_rows_task rest
  end.

(** One iteration of [while True] in [check_subscriptions]: the
    [SELECT] is awaited, then the rows of the snapshot are processed. *)
Definition check_subscriptions_task : RM unit :=
  let! rows := await (db_read subs) in sweep_rows_task rows.

(** One iteration of [sync_keys] (lines 99-127): the listing and the
    orphan deletions are synchronous Outline calls; the [SELECT] and the
    committed [DELETE]s are awaited. *)
Definition sync_keys_task : RM unit :=
  let! server_keys := lift get_keys in
  let server_key_ids : gset string := list_to_set (key_id <$> server_keys) in
  let! db_key_ids := await (db_read (fun L => list_to_set (ledger_key_ids L) : gset string)) in
  let keys_only_on_server := server_key_ids ∖ db_key_ids in
  let keys_only_in_db := db_key_ids ∖ server_key_ids in
  let! _ := lift (delete_orphans (elements keys_only_on_server)) in
  await (db_update (delete_rows (elements keys_only_in_db))).


(** ** The webhook *)

Section Webhook.
Context (sha1_hex : string -> string) (secret : string) (isoformat : Z -> string).

(** The renewal branch (telegram_bot.py lines 432-453): the extension,
    the purchase record and the confirmation are each awaited. *)
Definition renewal_task (label op : string) (amt period : Z) : RM string :=
  let parts := py_split "_" label in
  if (List.length parts <? 4)%nat then rret "Invalid label format for renew"
  else match parts with
       | [_; user_id_str; sub_id_str; _] =>
           if negb (py_isdigit user_id_str) || negb (py_isdigit sub_id_str) then
             rret "Invalid user or sub ID in label"
           else
             let! user_id := lift (py_int_m user_id_str) in
             let! sub_id := lift (py_int_m sub_id_str) in
             let! _ := await (db_update (extend_subscription user_id sub_id period)) in
             let! _ := await (db_insert (save_purchase_history
                          (mkPurchase user_id amt period RenewSubscription label op))) in
             let! _ := await (send user_id (MsgRenewed period)) in
             rret "OK"
       | _ => rraise
       end.

(** The new-subscription branch (lines 455-488). The key creation does
    not suspend; [save_subscription] reads the clock, then awaits its
    [INSERT]. *)
Definition new_subscription_task (label op : string) (amt period : Z) : RM string :=
  let parts := py_split "_" label in
  if (List.length parts <? 2)%nat then rret "Invalid label format for new subscription"
  else match parts with
       | user_id_str :: _ =>
           if negb (py_isdigit user_id_str) then rret "Invalid user ID in label"
           else
             let! user_id := lift (py_int_m user_id_str) in
             let! vpn_key_data := lift (VpnManager.create_vpn_key_with_name isoformat user_id) in
             match vpn_key_data with
             | Some key =>
                 let! now := lift utcnow in
                 let! _ := await (db_insert (save_subscription user_id (key_id key) (access_url key)
                              (days_us period) now)) in
                 let! _ := await (db_insert (save_purchase_history
                              (mkPurchase user_id amt period NewSubscription label op))) in
                 let! _ := await (send user_id MsgPaidKeyIntro) in
                 let! _ := await (send user_id (MsgAccessUrl (access_url key))) in
                 rret "OK"
             | None =>
                 let! _ := await (send user_id MsgKeyError) in
                 rret "Error creating VPN key"
             end
       | [] => rraise
       end.

(** Lines 401-488. The wrong-amount notice ends in its only I/O, a
    send; the code before it is pure, so it is awaited as a whole. *)
Definition process_payment_task (f : Form) (paid_amount : Dec) : RM string :=
  let operation_id := form_get "operation_id" f in
  let label := form_get "label" f in
  let! matching := lift (find_match paid_amount amount_mapping) in
  match matching with
  | None => let! _ := await (notify_wrong_amount label) in rret "Invalid amount"
  | Some (amt, period) =>
      if py_startswith label "renew_" then renewal_task label operation_id amt period
      else new_subscription_task label operation_id amt period
  end.

(** The handler of [/yoomoney_notification] (lines 338-488): the
    idempotency [SELECT] is awaited, and nothing holds the row between
    that read and the inserts of the branch. *)
Definition yoomoney_notification_task (f : Form) : RM string :=
  let operation_id := form_get "operation_id" f in
  let label := form_get "label" f in
  let! ok := lift (compare_digest (sha1_hex (signature_params secret f)) (form_get "sha1_hash" f)) in
  if negb ok then rret "Invalid signature" else
  let! seen := await (db_read (purchase_exists operation_id)) in
  if seen then rret "OK" else
  if bool_decide (label = "") then rret "Invalid label" else
  match read_paid_amount (withdraw_amount_str f) with
  | None => rret "Invalid withdraw_amount"
  | Some paid_amount => process_payment_task f paid_amount
  end.

End Webhook.

(** ** Chat updates *)

Section ChatUpdates.
Context (isoformat : Z -> string).

(** [handle_test_vpn] (telegram_bot.py lines 254-300): the [test_usage]
    lookup is awaited; the key creation does not suspend; the row
    insert, the connection and the [INSERT] of the usage, and the three
    answers are awaited. *)
Definition handle_test_vpn_task (uid : Z) : RM unit :=
  let! used := await (db_read (has_used_test uid)) in
  if used then await (send uid MsgTestUsed)
  else
    let! vpn_key_data := lift (VpnManager.create_vpn_key_with_name isoformat uid) in
    match vpn_key_data with
    | Some key =>
        rtry
          (let! now := lift utcnow in
           let! _ := await (db_insert (save_subscription uid (key_id key) (access_url key)
                                         trial_duration now)) in
           let! used_at := await utcnow in
           let! _ := await (db_update (add_test_usage uid used_at)) in
           let! _ := await (send uid MsgTestKeyIntro) in
           let! _ := await (send uid (MsgKeyText (access_url key))) in
           await (send uid MsgTestValidity))
          (let! _ := lift (delete_quietly (key_id key)) in await (send uid MsgTestError))
    | None => await (send uid MsgTestKeyFail)
    end.

(** The code of [handle_test_vpn] after the clock is read for
    [save_subscription] (lines 270-297), run without interruption. *)
Definition trial_after_key (uid : Z) (key : RemoteKey) (now : Z) : M unit :=
  py_try
    (db_insert (save_subscription uid (key_id key) (access_url key) trial_duration now) >>
     let* used_at := utcnow in
     db_update (add_test_usage uid used_at) >>
     send uid MsgTestKeyIntro >>
     send uid (MsgKeyText (access_url key)) >>
     send uid MsgTestValidity)
    (delete_quietly (key_id key) >> send uid MsgTestError).

(** A callback query. ["test_vpn"] passes none of the filters
    registered before [handle_test_vpn]; every other handler runs as
    one segment. *)
Definition callback_task (uid : Z) (data : string) : RM unit :=
  if bool_decide (data = "test_vpn") then handle_test_vpn_task uid
  else lift (dispatch isoformat uid data).

End ChatUpdates.

(** ** Run alone, each task is its handler

    The lemmas are used by name, not as hints, so that each of them
    stands alone. *)

Lemma erases_sweep_rows rows : erases_to (sweep_rows_task rows) (sweep_rows rows).
Proof.
  induction rows; cbn [sweep_rows_task sweep_rows];
    unfold check_row_task, check_row, notify_task, notify, teardown_task, teardown; erases_auto.
Qed.

Lemma erases_callback (isoformat : Z -> string) uid data :
  erases_to (callback_task isoformat uid data) (dispatch isoformat uid data).
Proof.
  unfold callback_task. case_bool_decide as Hd; [|apply erases_lift]. subst data.
  change (dispatch isoformat uid "test_vpn") with (handle_test_vpn isoformat uid).
  unfold handle_test_vpn_task, handle_test_vpn. erases_auto.
Qed.

Lemma erases_process_payment (isoformat : Z -> string) f paid :
  erases_to (process_payment_task isoformat f paid) (process_payment isoformat f paid).
Proof.
  unfold process_payment_task, process_payment, renewal_task, renewal_branch,
    new_subscription_task, new_subscription_branch.
  erases_auto.
Qed.

Lemma erases_check_subscriptions : erases_to check_subscriptions_task check_subscriptions_cycle.
Proof. apply erases_await_bind. intros rows. apply erases_sweep_rows. Qed.

Lemma erases_sync_keys : erases_to sync_keys_task sync_keys_cycle.
Proof. unfold sync_keys_task, sync_keys_cycle. erases_auto. Qed.

Lemma erases_notification sha1_hex secret isoformat f :
  erases_to (yoomoney_notification_task sha1_hex secret isoformat f)
            (yoomoney_notification sha1_hex secret isoformat f).
Proof.
  unfold yoomoney_notification_task, yoomoney_notification. erases_auto.
  apply erases_process_payment.
Qed.


(** ** A program logic for tasks

    The logic is parametric in an invariant [Inv] of the world and a
    preorder [Grow] on worlds: [Grow w w'] says what no task undoes
    between [w] and [w'] (records only accumulate, say).
    [mspec P c Q] is the triple of a computation that runs without
    suspending: from a world with [Inv] and [P] it ends (also when it
    raises) in a world with [Inv] that [Grow]s from the first, and in
    [Q a] when it returns [a]. [rspec P c Q] is the triple of a task:
    every world it passes through, at each suspension and at its end,
    has [Inv] and grows from where the segment was resumed, and from a
    suspension it goes on in any world with [Inv] that grew meanwhile,
    whatever the other tasks did. *)

Section Logic.
Context (Inv : World -> Prop) (Grow : World -> World -> Prop) `{!PreOrder Grow}.

Definition mspec {A} (P : World -> Prop) (c : M A) (Q : A -> World -> Prop) : Prop :=
  forall w, Inv w -> P w ->
    Inv (fst (c w)) /\ Grow w (fst (c w)) /\ forall a, snd (c w) = Some a -> Q a (fst (c w)).

Fixpoint res_ok {A} (Q : A -> World -> Prop) (w0 : World) (r : Res A) : Prop :=
  match r with
  | RDone w o => Inv w /\ Grow w0 w /\ forall a, o = Some a -> Q a w
  | RSusp w k => Inv w /\ Grow w0 w /\ forall w', Inv w' -> Grow w w' -> res_ok Q w' (k w')
  end.

Definition rspec {A} (P : World -> Prop) (c : RM A) (Q : A -> World -> Prop) : Prop :=
  forall w, Inv w -> P w -> res_ok Q w (c w).

(** A condition that the other tasks cannot break. *)
Definition stable (P : World -> Prop) : Prop := forall w w', P w -> Grow w w' -> P w'.

Section MRules.
Context {A B : Type}.

Lemma mspec_ret P (a : A) (Q : A -> World -> Prop) : (forall w, P w -> Q a w) -> mspec P (py_ret a) Q.
Proof. intros HQ w Hw HP. split_and!; [done|done|]. intros ? [= <-]. auto. Qed.

Lemma mspec_raise P (Q : A -> World -> Prop) : mspec P py_raise Q.
Proof. intros w Hw HP. split_and!; [done|done|done]. Qed.

Lemma mspec_bind P (c : M A) (k : A -> M B) Q R :
  mspec P c Q -> (forall a, mspec (Q a) (k a) R) -> mspec P (py_bind c k) R.
Proof.
  intros Hc Hk w Hw HP. destruct (Hc w Hw HP) as (Hw1 & Hg1 & HQ). unfold py_bind.
  destruct (c w) as [w1 [a|]]; cbn [fst snd] in *; [|split_and!; done].
  destruct (Hk a w1 Hw1 (HQ a eq_refl)) as (Hw2 & Hg2 & HR). split_and!; [done|by etrans|done].
Qed.

Lemma mspec_try P (c h : M A) Q : mspec P c Q -> mspec (fun _ => True) h Q -> mspec P (py_try c h) Q.
Proof.
  intros Hc Hh w Hw HP. destruct (Hc w Hw HP) as (Hw1 & Hg1 & HQ). unfold py_try.
  destruct (c w) as [w1 [a|]]; cbn [fst snd] in *; [split_and!; done|].
  destruct (Hh w1 Hw1 I) as (Hw2 & Hg2 & HR). split_and!; [done|by etrans|done].
Qed.

(** A computation that only reads keeps the world, hence the
    precondition. *)
Lemma mspec_read P (c : M A) : (forall w, fst (c w) = w) -> mspec P c (fun _ w => P w).
Proof. intros Hc w Hw HP. rewrite Hc. split_and!; [done|done|done]. Qed.

End MRules.

Lemma res_ok_weaken {A} (Q : A -> World -> Prop) w0 w1 r :
  Grow w0 w1 -> res_ok Q w1 r -> res_ok Q w0 r.
Proof. destruct r; cbn; intros ? (? & ? & ?); (split; [done|split; [by etrans|done]]). Qed.

Section RRules.
Context {A B : Type}.

Lemma rspec_ret P (a : A) (Q : A -> World -> Prop) : (forall w, P w -> Q a w) -> rspec P (rret a) Q.
Proof. intros HQ w Hw HP. cbn. split_and!; [done|done|]. intros ? [= <-]. auto. Qed.

Lemma rspec_raise P (Q : A -> World -> Prop) : rspec P rraise Q.
Proof. intros w Hw HP. cbn. split_and!; [done|done|done]. Qed.

Lemma rspec_lift P (c : M A) Q : mspec P c Q -> rspec P (lift c) Q.
Proof.
  intros Hc w Hw HP. destruct (Hc w Hw HP) as (? & ? & HQ). unfold lift.
  destruct (c w) as [w' o]. cbn in *. split_and!; auto.
Qed.

Lemma res_then_ok (Q : A -> World -> Prop) (R : B -> World -> Prop) k w0 r :
  res_ok Q w0 r -> (forall a w, Inv w -> Q a w -> res_ok R w (k a w)) ->
  res_ok R w0 (res_then r k).
Proof.
  intros Hr Hk. revert w0 Hr. induction r as [w [a|]|w c IH]; cbn; intros w0 (Hw & Hg & HQ).
  - eapply res_ok_weaken; [exact Hg|]. auto.
  - split_and!; done.
  - split_and!; [done|done|]. intros w' Hw' Hg'. apply IH; auto.
Qed.

Lemma rspec_bind P (c : RM A) (k : A -> RM B) Q R :
  rspec P c Q -> (forall a, rspec (Q a) (k a) R) -> rspec P (rbind c k) R.
Proof. intros Hc Hk w Hw HP. apply (res_then_ok Q); [auto|]. intros a w' ? ?. by apply Hk. Qed.

Lemma res_catch_ok (Q : A -> World -> Prop) h w0 r :
  res_ok Q w0 r -> rspec (fun _ => True) h Q -> res_ok Q w0 (res_catch r h).
Proof.
  intros Hr Hh. revert w0 Hr. induction r as [w [a|]|w c IH]; cbn; intros w0 (Hw & Hg & HQ).
  - split_and!; auto.
  - eapply res_ok_weaken; [exact Hg|]. by apply Hh.
  - split_and!; [done|done|]. intros w' Hw' Hg'. apply IH; auto.
Qed.

Lemma rspec_try P (c h : RM A) Q : rspec P c Q -> rspec (fun _ => True) h Q -> rspec P (rtry c h) Q.
Proof. intros Hc Hh w Hw HP. apply res_catch_ok; auto. Qed.

End RRules.

Lemma rspec_yield P : stable P -> rspec P yield (fun _ => P).
Proof.
  intros Hst w Hw HP. cbn. split_and!; [done|done|]. intros w' Hw' Hg. cbn.
  split_and!; [done|done|]. intros ? _. by apply (Hst w).
Qed.

Lemma rspec_await {A} P (c : M A) Q : stable P -> mspec P c Q -> rspec P (await c) Q.
Proof. intros Hst Hc. eapply rspec_bind; [by apply rspec_yield|]. intros u. by apply rspec_lift. Qed.

Lemma stable_True : stable (fun _ => True).
Proof. done. Qed.

(** Across an [await], a precondition that another task may break is
    dropped. *)
Lemma rspec_await_any {A} P (c : M A) Q : mspec (fun _ => True) c Q -> rspec P (await c) Q.
Proof.
  intros Hc. apply (rspec_bind _ _ _ (fun _ _ => True)).
  - intros w Hw HP. apply (rspec_yield _ stable_True w Hw I).
  - intros u. by apply rspec_lift.
Qed.

End Logic.


(** ** The event loop *)

(** The two [while True] loops that [main()] starts. *)
Inductive Loop := LoopCheckSubscriptions | LoopSyncKeys.

(** A task of the event loop: the code it runs when next resumed, and,
    for a background loop, which loop it is, so that it restarts with
    the loop's body after its [asyncio.sleep]. *)
Record Thread := mkThread {
  th_run : World -> Res unit;
  th_loop : option Loop
}.

Record Sys := mkSys {
  sys_world : World;
  sys_threads : list Thread
}.

(** [asyncio.create_task(c)]; the result is dropped. *)
Definition spawn {A} (c : RM A) : World -> Res unit := rbind c (fun _ => rret tt).

(** One iteration of each loop: [check_subscriptions] (tasks.py lines
    15-93) and [sync_keys] (lines 97-129). *)
Definition loop_body (l : Loop) : World -> Res unit :=
  match l with
  | LoopCheckSubscriptions => spawn check_subscriptions_task
  | LoopSyncKeys => spawn sync_keys_task
  end.

Definition loop_thread (l : Loop) : Thread := mkThread (loop_body l) (Some l).

(** [main()] after [init_db()]: the two background loops are started
    (lines 34-35), the web server and the polling loop wait for
    requests. *)
Definition boot (w : World) : Sys :=
  mkSys w [loop_thread LoopCheckSubscriptions; loop_thread LoopSyncKeys].

(** Some task of the pool runs the [check_subscriptions] loop. *)
Definition sweeper_alive (S : Sys) : Prop :=
  exists th, th ∈ sys_threads S /\ th_loop th = Some LoopCheckSubscriptions.

(** A thread that finished: a loop restarts its body, anything else
    leaves the pool. An exception ends a loop too: asyncio does not
    restart a task that raised. *)
Definition after_finish (i : nat) (th : Thread) (o : option unit) (ts : list Thread) : list Thread :=
  match o, th_loop th with
  | Some _, Some l => <[i := loop_thread l]> ts
  | _, _ => delete i ts
  end.

Section EventLoop.
Context (sha1_hex : string -> string) (secret : string) (isoformat : Z -> string).

(** What arrives from outside: a POST to [/yoomoney_notification]
    (line 29), a callback query or a [/start] command from the polling
    loop (line 43). *)
Inductive request : (World -> Res unit) -> Prop :=
  | req_webhook f : request (spawn (yoomoney_notification_task sha1_hex secret isoformat f))
  | req_callback uid data : request (spawn (callback_task isoformat uid data))
  | req_command uid : request (spawn (lift (Frontend.start uid))).

Inductive sched_step : Sys -> Sys -> Prop :=
  | sched_request t w ts :
      request t -> sched_step (mkSys w ts) (mkSys w (ts ++ [mkThread t None]))
  | sched_suspend i th w ts w' k :
      ts !! i = Some th -> th_run th w = RSusp w' k ->
      sched_step (mkSys w ts) (mkSys w' (<[i := mkThread k (th_loop th)]> ts))
  | sched_finish i th w ts w' o :
      ts !! i = Some th -> th_run th w = RDone w' o ->
      sched_step (mkSys w ts) (mkSys w' (after_finish i th o ts))
  | sched_env w ts now net :
      w_now w <= now ->
      sched_step (mkSys w ts) (mkSys (mkWorld (w_ledger w) (w_server w) (w_outbox w) now net) ts).

End EventLoop.


(** A task run to its end with no other task in between is a sequence
    of steps of the event loop. *)
Lemma list_delete_insert_same {A} (l : list A) i x : delete i (<[i:=x]> l) = delete i l.
Proof. revert i. induction l as [|y l IH]; intros [|i]; cbn; f_equal; auto. Qed.

Lemma after_finish_insert i th th' o ts :
  (i < List.length ts)%nat -> th_loop th' = th_loop th ->
  after_finish i th' o (<[i:=th']> ts) = after_finish i th o ts.
Proof.
  intros Hi Hl. unfold after_finish. rewrite Hl.
  destruct o, (th_loop th); [by rewrite list_insert_insert_eq|apply list_delete_insert_same..].
Qed.

Lemma sched_run_alone sha1_hex secret isoformat i th w ts :
  ts !! i = Some th ->
  rtc (sched_step sha1_hex secret isoformat) (mkSys w ts)
      (mkSys (fst (run_res (th_run th w))) (after_finish i th (snd (run_res (th_run th w))) ts)).
Proof.
  remember (th_run th w) as r eqn:Hr. revert th w ts Hr.
  induction r as [w' o|w' k IH]; intros th w ts Hr Hi.
  - eapply rtc_l; [by eapply sched_finish|]. apply rtc_refl.
  - eapply rtc_l; [by eapply sched_suspend|].
    assert (Hlt : (i < List.length ts)%nat) by (by eapply lookup_lt_Some).
    rewrite <- (after_finish_insert i th (mkThread k (th_loop th))) by done.
    apply (IH w' (mkThread k (th_loop th))); [done|]. by apply list_lookup_insert_eq.
Qed.

Lemma sched_run_alone_oneshot sha1_hex secret isoformat i th w ts :
  ts !! i = Some th -> th_loop th = None ->
  rtc (sched_step sha1_hex secret isoformat) (mkSys w ts)
      (mkSys (fst (run_res (th_run th w))) (delete i ts)).
Proof.
  intros Hi Hl. pose proof (sched_run_alone sha1_hex secret isoformat i th w ts Hi) as H.
  unfold after_finish in H. rewrite Hl in H. by destruct (snd _).
Qed.

Lemma sched_run_alone_at sha1_hex secret isoformat i th w ts w' :
  ts !! i = Some th -> fst (run_res (th_run th w)) = w' ->
  rtc (sched_step sha1_hex secret isoformat) (mkSys w ts)
      (mkSys w' (after_finish i th (snd (run_res (th_run th w))) ts)).
Proof. intros Hi <-. by apply sched_run_alone. Qed.

Lemma sched_run_alone_oneshot_at sha1_hex secret isoformat i th w ts w' :
  ts !! i = Some th -> th_loop th = None -> fst (run_res (th_run th w)) = w' ->
  rtc (sched_step sha1_hex secret isoformat) (mkSys w ts) (mkSys w' (delete i ts)).
Proof. intros Hi Hl <-. by apply sched_run_alone_oneshot. Qed.

(** A sync cycle whose listing goes through, run with no other task in
    between, is a sequence of steps; the loop is restarted after it. *)
Lemma sched_sync_cycle sha1_hex secret isoformat i w ts :
  ts !! i = Some (loop_thread LoopSyncKeys) ->
  srv_wf (w_server w) -> w_net w CallGetKeys = true ->
  rtc (sched_step sha1_hex secret isoformat) (mkSys w ts) (mkSys (fst (sync_keys_cycle w)) ts).
Proof.
  intros Hi Hs Hg. destruct (sync_keys_cycle_eq w Hs Hg) as (S' & E & _).
  assert (Hr : run_res (th_run (loop_thread LoopSyncKeys) w) = (fst (sync_keys_cycle w), Some tt)).
  { cbn. unfold spawn, rbind. rewrite run_then.
    change (run_res (sync_keys_task w)) with (erase sync_keys_task w).
    by rewrite erases_sync_keys, E. }
  pose proof (sched_run_alone sha1_hex secret isoformat i _ w ts Hi) as H.
  rewrite Hr in H. cbn in H. by rewrite list_insert_id in H.
Qed.

(** ** An invariant of every schedule

    If the loop bodies and every task a request starts satisfy [rspec]
    for [Inv] and [Grow], and the environment (time, network) keeps
    [Inv] and grows, then [Inv] holds in every state the event loop
    reaches. A thread of the pool may be resumed in any world with
    [Inv] that grew from the world it was left in. *)

Section LoopInvariant.
Context (sha1_hex : string -> string) (secret : string) (isoformat : Z -> string).
Context (Inv : World -> Prop) (Grow : World -> World -> Prop) `{!PreOrder Grow}.

Definition thread_ok (w0 : World) (th : Thread) : Prop :=
  forall w, Inv w -> Grow w0 w -> res_ok Inv Grow (fun _ _ => True) w (th_run th w).

Definition sys_ok (S : Sys) : Prop :=
  Inv (sys_world S) /\ Forall (thread_ok (sys_world S)) (sys_threads S).

Context (Hloop : forall l, rspec Inv Grow (fun _ => True) (loop_body l) (fun _ _ => True)).
Context (Hreq : forall t, request sha1_hex secret isoformat t ->
                          rspec Inv Grow (fun _ => True) t (fun _ _ => True)).
Context (Henv : forall w now net, Inv w -> w_now w <= now ->
  let w' := mkWorld (w_ledger w) (w_server w) (w_outbox w) now net in Inv w' /\ Grow w w').

Lemma thread_ok_grow w0 w1 th : Grow w0 w1 -> thread_ok w0 th -> thread_ok w1 th.
Proof. intros Hg Ht w Hw Hg'. apply Ht; [done|by etrans]. Qed.

Lemma rspec_thread_ok w0 t l :
  rspec Inv Grow (fun _ => True) t (fun _ _ => True) -> thread_ok w0 (mkThread t l).
Proof. intros Ht w Hw _. by apply Ht. Qed.

Lemma after_finish_thread_ok w i th o ts :
  Forall (thread_ok w) ts -> Forall (thread_ok w) (after_finish i th o ts).
Proof.
  intros Hts. unfold after_finish. destruct o, (th_loop th) as [l|]; try by apply Forall_delete.
  apply Forall_insert; [done|apply rspec_thread_ok, Hloop].
Qed.

Lemma sched_step_ok S S' :
  sched_step sha1_hex secret isoformat S S' -> sys_ok S ->
  sys_ok S' /\ Grow (sys_world S) (sys_world S').
Proof.
  intros Hs [Hw Hts]. unfold sys_ok. destruct Hs as [t w ts Hr|i th w ts w' k Hi Hrun|i th w ts w' o Hi Hrun|w ts now net Hle];
    cbn [sys_world sys_threads] in *.
  - split_and!; [done| |done]. apply Forall_app; split; [done|].
    apply Forall_singleton, rspec_thread_ok, Hreq, Hr.
  - pose proof (Forall_lookup_1 _ _ _ _ Hts Hi w Hw (reflexivity w)) as Hp.
    rewrite Hrun in Hp. destruct Hp as (Hw' & Hg & Hk).
    split_and!; [done| |done]. apply Forall_insert; [|exact Hk].
    apply (Forall_impl _ _ _ Hts). intros; by eapply thread_ok_grow.
  - pose proof (Forall_lookup_1 _ _ _ _ Hts Hi w Hw (reflexivity w)) as Hp.
    rewrite Hrun in Hp. destruct Hp as (Hw' & Hg & _).
    split_and!; [done| |done]. apply after_finish_thread_ok.
    apply (Forall_impl _ _ _ Hts). intros; by eapply thread_ok_grow.
  - destruct (Henv w now net Hw Hle) as [Hw' Hg]. split_and!; [done| |done].
    apply (Forall_impl _ _ _ Hts). intros; by eapply thread_ok_grow.
Qed.

Lemma loop_invariant w S :
  Inv w -> rtc (sched_step sha1_hex secret isoformat) (boot w) S -> Inv (sys_world S).
Proof.
  intros Hw Hr. assert (H0 : sys_ok (boot w)).
  { split; [done|]. constructor; [|constructor; [|constructor]]; apply rspec_thread_ok, Hloop. }
  induction Hr as [S|S1 S2 S3 Hs Hr IH] in H0 |- *; [apply H0|].
  apply IH. by apply (sched_step_ok _ _ Hs H0).
Qed.

End LoopInvariant.


(** ** Confirmations are recorded

    Three messages of the bot tell the user that something was stored:
    the renewal confirmation (telegram_bot.py line 452), the paid key
    (line 482) and the trial key (line 287). [confirms uid m L] is what
    [m] asserts about the ledger [L]; [confirmed w] says that every
    message of the outbox asserts something true. The records these
    messages rest on are never deleted, so [grows] is the preorder of
    the logic: purchases and trial uses only accumulate. *)

Definition confirms (uid : Z) (m : Msg) (L : Ledger) : Prop :=
  match m with
  | MsgRenewed days => exists p, p ∈ purchases L /\ pr_user p = uid /\ pr_period p = days /\
                                 pr_kind p = RenewSubscription
  | MsgPaidKeyIntro => exists p, p ∈ purchases L /\ pr_user p = uid /\ pr_kind p = NewSubscription
  | MsgTestKeyIntro => has_used_test uid L = true
  | _ => True
  end.

Definition confirmed (w : World) : Prop :=
  forall uid m, (uid, m) ∈ w_outbox w -> confirms uid m (w_ledger w).

Definition lgrows (L L' : Ledger) : Prop :=
  (forall p, p ∈ purchases L -> p ∈ purchases L') /\
  (forall u, has_used_test u L = true -> has_used_test u L' = true).

Definition grows (w w' : World) : Prop := lgrows (w_ledger w) (w_ledger w').

#[export] Instance grows_preorder : PreOrder grows.
Proof. split; [done|]. intros w1 w2 w3 [? ?] [? ?]. split; auto. Qed.

Lemma confirms_mono uid m L L' : lgrows L L' -> confirms uid m L -> confirms uid m L'.
Proof. intros [Hp Ht]. destruct m; cbn; naive_solver. Qed.

(** A ledger operation that keeps the purchases and the trial uses. *)
Lemma lgrows_same L L' : purchases L' = purchases L -> test_usage L' = test_usage L -> lgrows L L'.
Proof. intros Hp Ht. unfold lgrows, has_used_test. by rewrite Hp, Ht. Qed.

Lemma lgrows_purchase p L L' : save_purchase_history p L = Some L' -> lgrows L L'.
Proof.
  unfold save_purchase_history. case_match; [done|]. intros [= <-].
  split; [cbn; set_solver|done].
Qed.

Lemma lgrows_save uid k url d now L L' : save_subscription uid k url d now L = Some L' -> lgrows L L'.
Proof. unfold save_subscription. case_bool_decide; [done|]. intros [= <-]. by apply lgrows_same. Qed.

Lemma lgrows_test_usage uid now L : lgrows L (add_test_usage uid now L).
Proof.
  split; [done|]. intros u. unfold has_used_test. cbn. rewrite fmap_app.
  rewrite !bool_decide_eq_true, elem_of_app. auto.
Qed.

Lemma lgrows_with_subs L l : lgrows L (with_subs L l).
Proof. by apply lgrows_same. Qed.

Lemma lgrows_delete_rows ks L : lgrows L (delete_rows ks L).
Proof. rewrite delete_rows_spec. apply lgrows_with_subs. Qed.

#[local] Abbreviation cspec := (mspec confirmed grows).
#[local] Abbreviation crspec := (rspec confirmed grows).

(** An effect that writes no message and lets the records grow. *)
Lemma cspec_quiet {A} P (c : M A) :
  (forall w, w_outbox (fst (c w)) = w_outbox w /\ lgrows (w_ledger w) (w_ledger (fst (c w)))) ->
  cspec P c (fun _ _ => True).
Proof.
  intros Hc w Hw _. destruct (Hc w) as [Ho Hg]. split; [|split; [done|done]].
  intros uid m. rewrite Ho. intros Hm. eapply confirms_mono; [exact Hg|]. by apply Hw.
Qed.

(** A message may be sent when what it asserts holds. *)
Lemma cspec_send P uid m :
  (forall w, P w -> confirms uid m (w_ledger w)) -> cspec P (send uid m) (fun _ _ => True).
Proof.
  intros Hm w Hw HP. unfold send. case_if; [|done]. cbn. split; [|split; [done|done]].
  intros u m'. cbn [w_outbox w_ledger add_msg]. rewrite elem_of_app, list_elem_of_singleton.
  intros [Hin|[= -> ->]]; auto.
Qed.

Lemma cspec_db_update P f : (forall L, lgrows L (f L)) -> cspec P (db_update f) (fun _ _ => True).
Proof. intros Hf. apply cspec_quiet. intros w. split; [done|apply Hf]. Qed.

Lemma cspec_db_insert P f :
  (forall L L', f L = Some L' -> lgrows L L') -> cspec P (db_insert f) (fun _ _ => True).
Proof.
  intros Hf. apply cspec_quiet. intros w. unfold db_insert.
  destruct (f (w_ledger w)) eqn:E; [split; [done|by apply Hf]|done].
Qed.

(** The purchase record and the trial use, once stored, are what the
    next message may assert. *)
Lemma cspec_save_purchase P p :
  cspec P (db_insert (save_purchase_history p)) (fun _ w => p ∈ purchases (w_ledger w)).
Proof.
  intros w Hw _. destruct (cspec_db_insert (fun _ => True) _ (lgrows_purchase p) w Hw I) as (? & ? & _).
  split; [done|split; [done|]]. intros a. unfold db_insert, save_purchase_history.
  destruct (purchase_exists (pr_op p) (w_ledger w)); cbn; intros Ha; [discriminate|]. set_solver.
Qed.

Lemma cspec_add_test_usage P uid now :
  cspec P (db_update (add_test_usage uid now)) (fun _ w => has_used_test uid (w_ledger w) = true).
Proof.
  intros w Hw _. destruct (cspec_db_update (fun _ => True) _ (lgrows_test_usage uid now) w Hw I)
    as (? & ? & _).
  split; [done|split; [done|]]. intros _ [= <-]. unfold has_used_test. cbn.
  apply bool_decide_eq_true. rewrite fmap_app. set_solver.
Qed.

Lemma cspec_provider_call {A} P c (f : Server -> A * Server) :
  cspec P (provider_call c f) (fun _ _ => True).
Proof. apply cspec_quiet. intros w. unfold provider_call. by case_if. Qed.

Lemma cspec_get_key P id : cspec P (get_key id) (fun _ _ => True).
Proof. apply cspec_quiet. intros w. unfold get_key. by repeat case_match. Qed.

Lemma stable_purchase p : stable grows (fun w => p ∈ purchases (w_ledger w)).
Proof. intros w w' Hp [Hg _]. auto. Qed.

Lemma stable_test_usage uid : stable grows (fun w => has_used_test uid (w_ledger w) = true).
Proof. intros w w' Hp [_ Hg]. auto. Qed.

Create HintDb cspec.
#[export] Hint Resolve lgrows_purchase lgrows_save lgrows_test_usage lgrows_with_subs
  lgrows_delete_rows : cspec.
#[export] Hint Resolve read_utcnow read_db_read read_py_int_m read_compare_digest
  read_find_match read_third_part read_timestamp_now read_get_keys : cspec.
#[export] Hint Resolve cspec_provider_call cspec_get_key stable_purchase stable_test_usage : cspec.
#[export] Hint Extern 1 (stable _ _) => apply stable_True : cspec.

(** A primitive effect, or a handler whose triple is a hint. *)
Ltac cspec_prim :=
  first [ apply cspec_save_purchase
        | apply cspec_add_test_usage
        | apply (mspec_raise confirmed grows)
        | apply cspec_send; intros ? HP; cbv beta in HP; cbn [confirms];
          first [ exact I | done | eexists; split; [exact HP|done]
                | unfold time_left_msg; repeat case_if; exact I ]
        | apply cspec_db_update; intros; solve [eauto with cspec]
        | apply cspec_db_insert; intros ? ? ?; solve [eauto with cspec]
        | solve [eauto with cspec]
        | apply (mspec_read confirmed grows); intros; solve [eauto with cspec] ].

Ltac cspec_step :=
  cbv beta zeta;
  match goal with
  | |- mspec _ _ _ (py_bind _ _) _ =>
      first [ eapply (mspec_bind confirmed grows); [cspec_prim | intros ?]
            | apply (mspec_bind confirmed grows _ _ _ (fun _ _ => True)); [|intros ?] ]
  | |- mspec _ _ _ (py_try _ _) _ => apply (mspec_try confirmed grows)
  | |- mspec _ _ _ (py_ret _) _ => apply (mspec_ret confirmed grows); intros; exact I
  | |- mspec _ _ _ (if ?b then _ else _) _ => destruct b
  | |- mspec _ _ _ (match ?x with _ => _ end) _ => destruct x
  | |- _ => cspec_prim
  end.

Ltac cspec_auto := repeat cspec_step.

(** *** The handlers that run without suspending *)

Lemma cspec_delete_key P id : cspec P (delete_key id) (fun _ _ => True).
Proof. apply cspec_provider_call. Qed.

#[local] Hint Resolve cspec_delete_key : cspec.

Lemma cspec_create isoformat P uid :
  cspec P (VpnManager.create_vpn_key_with_name isoformat uid) (fun _ _ => True).
Proof. unfold VpnManager.create_vpn_key_with_name, create_key, rename_key. cspec_auto. Qed.

Lemma cspec_delete_orphans P ks : cspec P (delete_orphans ks) (fun _ _ => True).
Proof. revert P. induction ks; intros P; cbn [delete_orphans]; cspec_auto. Qed.

Lemma cspec_delete_quietly P id : cspec P (delete_quietly id) (fun _ _ => True).
Proof. unfold delete_quietly. cspec_auto. Qed.

Lemma cspec_notify_wrong_amount P label : cspec P (notify_wrong_amount label) (fun _ _ => True).
Proof. unfold notify_wrong_amount. cspec_auto. Qed.

#[local] Hint Resolve cspec_create cspec_delete_orphans cspec_delete_quietly
  cspec_notify_wrong_amount : cspec.

Lemma cspec_list_keys P uid l : cspec P (list_keys uid l) (fun _ _ => True).
Proof. revert P. induction l; intros P; cbn [list_keys]; cspec_auto. Qed.

#[local] Hint Resolve cspec_list_keys : cspec.

(** The sequential trial handler stores the trial use before the
    message that announces the key. *)
Lemma cspec_handle_test_vpn isoformat P uid : cspec P (handle_test_vpn isoformat uid) (fun _ _ => True).
Proof. unfold handle_test_vpn. cspec_auto. Qed.

#[local] Hint Resolve cspec_handle_test_vpn : cspec.

Lemma cspec_dispatch isoformat P uid data : cspec P (dispatch isoformat uid data) (fun _ _ => True).
Proof.
  unfold dispatch, handle_instruction, handle_my_keys, handle_buy_new_key, handle_renew_subscription,
    handle_choose_subscription, process_new_subscription, process_renew_subscription,
    handle_pay_subscription, choose_renewal_period.
  cspec_auto.
Qed.

Lemma cspec_start P uid : cspec P (Frontend.start uid) (fun _ _ => True).
Proof. unfold Frontend.start. cspec_auto. Qed.

#[local] Hint Resolve cspec_dispatch cspec_start : cspec.

(** *** The tasks *)

Ltac crspec_step :=
  cbv beta zeta;
  match goal with
  | |- rspec _ _ _ (rbind _ _) _ =>
      first [ eapply (rspec_bind confirmed grows); [solve [eauto with cspec] | intros ?]
            | eapply (rspec_bind confirmed grows); [apply (rspec_lift confirmed grows); cspec_prim | intros ?]
            | eapply (rspec_bind confirmed grows);
              [ first [ apply (rspec_await confirmed grows); [solve [eauto with cspec] | cspec_prim]
                      | apply (rspec_await_any confirmed grows); cspec_prim ]
              | intros ? ]
            | apply (rspec_bind confirmed grows _ _ _ (fun _ _ => True)); [|intros ?] ]
  | |- rspec _ _ _ (rtry _ _) _ => apply (rspec_try confirmed grows)
  | |- rspec _ _ _ (rret _) _ => apply (rspec_ret confirmed grows); intros; exact I
  | |- rspec _ _ _ rraise _ => apply (rspec_raise confirmed grows)
  | |- rspec _ _ _ (lift _) _ => apply (rspec_lift confirmed grows); cspec_auto
  | |- rspec _ _ _ (await _) _ =>
      first [ apply (rspec_await confirmed grows); [solve [eauto with cspec] | cspec_auto]
            | apply (rspec_await_any confirmed grows); cspec_auto ]
  | |- rspec _ _ _ (if ?b then _ else _) _ => destruct b
  | |- rspec _ _ _ (match ?x with _ => _ end) _ => destruct x
  | |- _ => solve [eauto with cspec]
  end.

Ltac crspec_auto := repeat crspec_step.

Lemma crspec_check_row P s : crspec P (check_row_task s) (fun _ _ => True).
Proof. unfold check_row_task, notify_task, teardown_task. crspec_auto. Qed.

#[local] Hint Resolve crspec_check_row : cspec.

Lemma crspec_sweep_rows P rows : crspec P (sweep_rows_task rows) (fun _ _ => True).
Proof. revert P. induction rows; intros P; cbn [sweep_rows_task]; crspec_auto. Qed.

#[local] Hint Resolve crspec_sweep_rows : cspec.

(** The renewal stores its purchase record, then awaits the
    confirmation: the record is still there when it is resumed. *)
Lemma crspec_renewal P label op amt period :
  crspec P (renewal_task label op amt period) (fun _ _ => True).
Proof. unfold renewal_task. crspec_auto. Qed.

Lemma crspec_new_subscription isoformat P label op amt period :
  crspec P (new_subscription_task isoformat label op amt period) (fun _ _ => True).
Proof. unfold new_subscription_task. crspec_auto. Qed.

Lemma crspec_notification sha1_hex secret isoformat P f :
  crspec P (yoomoney_notification_task sha1_hex secret isoformat f) (fun _ _ => True).
Proof.
  unfold yoomoney_notification_task, process_payment_task. crspec_auto.
  - apply crspec_renewal.
  - apply crspec_new_subscription.
Qed.

Lemma crspec_callback isoformat P uid data : crspec P (callback_task isoformat uid data) (fun _ _ => True).
Proof. unfold callback_task, handle_test_vpn_task. crspec_auto. Qed.

Lemma crspec_spawn {A} (c : RM A) : crspec (fun _ => True) c (fun _ _ => True) ->
  crspec (fun _ => True) (spawn c) (fun _ _ => True).
Proof.
  intros Hc. unfold spawn. eapply (rspec_bind confirmed grows); [exact Hc|].
  intros a. by apply (rspec_ret confirmed grows).
Qed.

Lemma crspec_loop l : crspec (fun _ => True) (loop_body l) (fun _ _ => True).
Proof.
  destruct l; apply crspec_spawn; [unfold check_subscriptions_task|unfold sync_keys_task]; crspec_auto.
Qed.

Lemma crspec_request sha1_hex secret isoformat t :
  request sha1_hex secret isoformat t -> crspec (fun _ => True) t (fun _ _ => True).
Proof.
  destruct 1; apply crspec_spawn;
    [apply crspec_notification | apply crspec_callback | apply (rspec_lift confirmed grows), cspec_start].
Qed.

Lemma confirmed_env w now net :
  confirmed w -> let w' := mkWorld (w_ledger w) (w_server w) (w_outbox w) now net in
  confirmed w' /\ grows w w'.
Proof. done. Qed.


(** ** Tasks step by step

    Where a task suspends and what it does when resumed, stated up to
    the rest of its code: the continuation is only known through what it
    does in the world it is resumed in. *)

Lemma rbind_lift_eq {A B} (c : M A) (k : A -> RM B) w w' a :
  c w = (w', Some a) -> rbind (lift c) k w = k a w'.
Proof. intros E. unfold rbind, lift. by rewrite E. Qed.

Lemma rbind_await_eq {A B} (c : M A) (k : A -> RM B) w :
  rbind (await c) k w = RSusp w (fun w' => rbind (lift c) k w').
Proof. reflexivity. Qed.

Lemma renewal_task_trace uid sid ts op amt period w :
  0 <= uid -> 0 <= sid ->
  let label := renew_label uid sid ts in
  let p := mkPurchase uid amt period RenewSubscription label op in
  exists k1, renewal_task label op amt period w = RSusp w k1 /\
  forall w1, exists k2,
    k1 w1 = RSusp (set_ledger (extend_subscription uid sid period (w_ledger w1)) w1) k2 /\
  forall w2, exists k3,
    k2 w2 = match save_purchase_history p (w_ledger w2) with
            | Some L => RSusp (set_ledger L w2) k3
            | None => RDone w2 None
            end /\
  forall w3, k3 w3 = if w_net w3 (CallSend uid (MsgRenewed period))
                     then RDone (add_msg uid (MsgRenewed period) w3) (Some "OK")
                     else RDone w3 None.
Proof.
  intros Hu Hs label p. unfold renewal_task. subst label.
  rewrite split_renew_label. cbn [List.length Nat.ltb Nat.leb].
  rewrite !py_str_Z_isdigit by done. cbn [negb orb].
  rewrite (rbind_lift_eq _ _ _ _ _ (py_int_m_str uid w Hu)).
  rewrite (rbind_lift_eq _ _ _ _ _ (py_int_m_str sid w Hs)).
  rewrite rbind_await_eq. eexists. split; [reflexivity|]. intros w1.
  rewrite (rbind_lift_eq _ _ _ _ _ (eq_refl : db_update _ w1 = (_, Some tt))).
  rewrite rbind_await_eq. eexists. split; [reflexivity|]. intros w2.
  unfold p. destruct (save_purchase_history _ (w_ledger w2)) as [L|] eqn:E.
  - unfold rbind at 1, lift at 1, db_insert at 1. rewrite E. cbn [res_then].
    rewrite rbind_await_eq. eexists. split; [reflexivity|]. intros w3.
    unfold rbind, lift, send. by destruct (w_net w3 _).
  - eexists. unfold rbind at 1, lift at 1, db_insert at 1. rewrite E. split; [done|]. intros w3. done.
Qed.


Lemma erases_app {A} (c : RM A) m w : erases_to c m -> erase c w = m w.
Proof. done. Qed.

Lemma spawn_run_fst {A} (c : RM A) w : fst (run_res (spawn c w)) = fst (erase c w).
Proof. unfold spawn, rbind, erase. rewrite run_then. by destruct (run_res (c w)) as [? [?|]]. Qed.

Lemma run_then_ret_fst {A B} (r : Res A) (b : B) :
  fst (run_res (res_then r (fun _ => rret b))) = fst (run_res r).
Proof. rewrite run_then. by destruct (run_res r) as [? [?|]]. Qed.

Lemma run_catch_erase {A} (c h : RM A) w : run_res (res_catch (c w) h) = erase (rtry c h) w.
Proof. done. Qed.

Lemma run_then_catch {A B} (c h : RM A) (g : A -> RM B) w :
  run_res (res_then (res_catch (c w) h) g) = erase (rbind (rtry c h) g) w.
Proof. done. Qed.

(** A trial request suspends at the [test_usage] lookup; resumed where
    the user has no trial and the key creation goes through, it creates
    the key and suspends before the row insert; from there, run alone,
    it is [trial_after_key]. *)
Lemma trial_task_trace isoformat uid w0 :
  exists k0, spawn (callback_task isoformat uid "test_vpn") w0 = RSusp w0 k0 /\
  forall w, has_used_test uid (w_ledger w) = false ->
    w_net w CallCreateKey = true -> w_net w (CallRenameKey (VpnManager.next_key_id w)) = true ->
    w_net w (CallGetKey (VpnManager.next_key_id w)) = true ->
    let key := mkKey (VpnManager.next_key_id w) (VpnManager.key_name_for isoformat uid (w_now w))
                     (outline_url (VpnManager.next_key_id w)) in
    exists k1, k0 w = RSusp (set_server (VpnManager.renamed isoformat uid w) w) k1 /\
    forall w', run_res (k1 w') = py_bind (trial_after_key uid key (w_now w)) (fun _ => py_ret tt) w'.
Proof.
  unfold spawn, callback_task. rewrite bool_decide_true by done.
  unfold rbind at 1, handle_test_vpn_task. rewrite rbind_await_eq. cbn [res_then].
  eexists. split; [reflexivity|]. intros w Hu E1 E2 E3. cbv beta.
  rewrite (rbind_lift_eq _ _ _ _ _ (eq_refl : db_read _ w = (w, Some _))). cbv beta. rewrite Hu.
  rewrite (rbind_lift_eq _ _ _ _ _ (VpnManager.create_vpn_key_up isoformat uid w E1 E2 E3)).
  unfold rtry. rewrite (rbind_lift_eq _ _ _ _ _ (eq_refl : utcnow _ = (_, Some _))).
  rewrite rbind_await_eq. cbn [res_catch res_then].
  eexists. split; [reflexivity|]. intros w'. cbv beta. rewrite run_then_catch.
  apply erases_app. unfold trial_after_key, delete_quietly. erases_auto.
Qed.

Lemma trial_after_key_up uid key now w :
  key_id key ∉ ledger_key_ids (w_ledger w) -> (forall c, w_net w c = true) ->
  let L := w_ledger w in
  let w' := fst (py_bind (trial_after_key uid key now) (fun _ => py_ret tt) w) in
  w_ledger w' = add_test_usage uid (w_now w)
    (mkLedger (subs L ++ [mkSub (next_sub_id L) uid (key_id key) (access_url key)
                                (now + trial_duration) false false false])
              (next_sub_id L + 1) (test_usage L) (purchases L)) /\
  w_server w' = w_server w /\ w_now w' = w_now w /\ w_net w' = w_net w.
Proof.
  intros Hk Hnet L w'. unfold w', trial_after_key, py_try, py_bind, db_insert.
  rewrite save_subscription_fresh by done.
  unfold utcnow, db_update, py_modify, send. cbn [w_net w_now w_ledger set_ledger add_msg].
  repeat (rewrite Hnet; cbn [w_net w_now w_ledger w_server set_ledger add_msg]). done.
Qed.


(** The sweeper suspends at its [SELECT] and, resumed, processes the
    rows it reads then. *)
Lemma sweeper_task_trace w0 :
  exists k, loop_body LoopCheckSubscriptions w0 = RSusp w0 k /\
  forall w, k w = res_then (sweep_rows_task (subs (w_ledger w)) w) (fun _ => rret tt).
Proof. eexists. split; [reflexivity|]. done. Qed.

(** An expired row whose key deletion fails: the task suspends at the
    error message of the [except] block; resumed, it raises if that
    send fails. *)
Lemma check_row_task_teardown_fails s w :
  branch s (w_now w) = BExpired -> w_net w (CallDeleteKey (sub_key s)) = false ->
  exists k, check_row_task s w = RSusp w k /\
  forall w', k w' = if w_net w' (CallSend (sub_user s) (MsgTeardownError (sub_key s)))
                    then RDone (add_msg (sub_user s) (MsgTeardownError (sub_key s)) w') (Some tt)
                    else RDone w' None.
Proof.
  intros Hb Hdel. unfold check_row_task.
  rewrite (rbind_lift_eq _ _ _ _ _ (eq_refl : utcnow w = (w, Some (w_now w)))), Hb.
  unfold rtry, teardown_task, rbind at 1, lift at 1, delete_key, provider_call. rewrite Hdel.
  cbn [res_then res_catch]. eexists. split; [reflexivity|]. intros w'.
  unfold rbind, lift, send. cbn. by destruct (w_net w' _).
Qed.

Lemma notify_some m fl s w : snd (notify m fl s w) = Some tt.
Proof. unfold notify, py_try. by destruct (py_bind _ _ w) as [? [[]|]]. Qed.

(** A row in its 5-day window: the task suspends at the notice; resumed
    at the same time, the rest is [check_row]. *)
Lemma check_row_task_notify s w :
  branch s (w_now w) = BFiveDays ->
  exists k, check_row_task s w = RSusp w k /\
  forall w', w_now w' = w_now w -> run_res (k w') = check_row s w'.
Proof.
  intros Hb. unfold check_row_task.
  rewrite (rbind_lift_eq _ _ _ _ _ (eq_refl : utcnow w = (w, Some (w_now w)))), Hb.
  unfold notify_task, rtry at 1. rewrite rbind_await_eq. cbn [res_catch].
  eexists. split; [reflexivity|]. intros w' Hn. rewrite check_row_eq, Hn, Hb.
  rewrite run_catch_erase. apply erases_app. unfold notify. erases_auto.
Qed.

Section Traces.
Context (sha1_hex : string -> string) (secret : string) (isoformat : Z -> string).

(** A verified notification for a plan price suspends at the
    idempotency [SELECT]; resumed in a world where the operation is not
    recorded, it goes on with the branch its label selects. *)
Lemma notification_task_trace f w n period :
  signature_valid sha1_hex secret f = true -> form_get "label" f <> "" ->
  withdraw_amount_str f = amount_text n 0 -> (Z.of_N n * 100, period) ∈ amount_mapping ->
  exists k, yoomoney_notification_task sha1_hex secret isoformat f w = RSusp w k /\
  forall w', purchase_exists (form_get "operation_id" f) (w_ledger w') = false ->
    k w' = (if py_startswith (form_get "label" f) "renew_"
            then renewal_task (form_get "label" f) (form_get "operation_id" f) (Z.of_N n * 100) period
            else new_subscription_task isoformat (form_get "label" f) (form_get "operation_id" f)
                   (Z.of_N n * 100) period) w'.
Proof.
  intros Hv Hl Hwa Hplan. assert (Hb : 0 < Z.of_N n * 100 <= 100000) by (eapply amount_mapping_bound; eauto).
  unfold yoomoney_notification_task. rewrite (rbind_lift_eq _ _ _ _ _ (compare_digest_valid _ _ f w Hv)).
  cbn [negb]. rewrite rbind_await_eq. eexists. split; [reflexivity|]. intros w' Hf.
  rewrite (rbind_lift_eq _ _ _ _ _ (eq_refl : db_read _ w' = (w', Some _))). cbv beta.
  rewrite Hf, bool_decide_false, Hwa by done.
  rewrite amount_text_quantize by (unfold prec; lia).
  unfold process_payment_task. rewrite (rbind_lift_eq _ _ _ _ _ (find_match_fin _ _ _ _ _)).
  rewrite (plan_for_mapping _ _ _ Hplan) by (unfold hundredths; lia). done.
Qed.


(** A new purchase whose key creation goes through creates the key
    without suspending, reads the clock, and suspends before the
    [INSERT] of its row; resumed at the same time, the rest is
    [Concurrency.new_sub_after_key]. *)
Lemma new_subscription_task_trace uid ts op amt period w :
  0 <= uid -> w_net w CallCreateKey = true ->
  w_net w (CallRenameKey (VpnManager.next_key_id w)) = true ->
  w_net w (CallGetKey (VpnManager.next_key_id w)) = true ->
  let key := mkKey (VpnManager.next_key_id w) (VpnManager.key_name_for isoformat uid (w_now w))
                   (outline_url (VpnManager.next_key_id w)) in
  exists k, new_subscription_task isoformat (new_label uid ts) op amt period w =
            RSusp (set_server (VpnManager.renamed isoformat uid w) w) k /\
  forall w', w_now w' = w_now w ->
    run_res (k w') = Concurrency.new_sub_after_key (new_label uid ts) op amt period uid (Some key) w'.
Proof.
  intros Hu E1 E2 E3 key. unfold new_subscription_task.
  rewrite split_new_label. cbn [List.length Nat.ltb Nat.leb].
  rewrite py_str_Z_isdigit by done. cbn [negb].
  rewrite (rbind_lift_eq _ _ _ _ _ (py_int_m_str uid w Hu)).
  rewrite (rbind_lift_eq _ _ _ _ _ (VpnManager.create_vpn_key_up isoformat uid w E1 E2 E3)).
  rewrite (rbind_lift_eq _ _ _ _ _ (eq_refl : utcnow _ = (_, Some _))).
  rewrite rbind_await_eq. eexists. split; [reflexivity|]. intros w' Hn.
  unfold Concurrency.new_sub_after_key. rewrite (py_bind_Some _ _ _ _ _ (eq_refl : utcnow w' = (w', Some (w_now w')))), Hn.
  refine (erases_app _ _ w' _). erases_auto.
Qed.

(** The rest of a new purchase writes the ledger and the outbox only. *)
Lemma new_sub_after_key_keeps label op amt period uid r w :
  let w' := fst (Concurrency.new_sub_after_key label op amt period uid r w) in
  w_server w' = w_server w /\ w_now w' = w_now w /\ w_net w' = w_net w.
Proof.
  unfold Concurrency.new_sub_after_key, py_bind, utcnow, db_insert, send, py_ret.
  destruct r; repeat (case_match; cbn [fst w_server w_now w_net set_ledger add_msg] in *; simplify_eq);
    cbn; auto.
Qed.

End Traces.

(** ** A dead loop stays dead *)

Lemma elem_of_insert_inv {A} (x y : A) (l : list A) i : x ∈ <[i:=y]> l -> x = y \/ x ∈ l.
Proof.
  intros (j & Hj)%list_elem_of_lookup. destruct (decide (i = j)) as [->|Hne].
  - destruct (decide (j < List.length l)%nat).
    + rewrite list_lookup_insert_eq in Hj by done. naive_solver.
    + rewrite list_insert_ge in Hj by lia. right. by eapply list_elem_of_lookup_2.
  - rewrite list_lookup_insert_ne in Hj by done. right. by eapply list_elem_of_lookup_2.
Qed.

Lemma elem_of_delete_inv {A} (x : A) (l : list A) i : x ∈ delete i l -> x ∈ l.
Proof.
  revert i. induction l as [|y l IH]; intros [|i]; cbn; [done|done|set_solver|].
  rewrite !elem_of_cons. naive_solver.
Qed.

(** No step of the event loop starts the sweeper loop: only [main()]
    does, once. *)
Lemma sweeper_dead_step sha1_hex secret isoformat S S' :
  sched_step sha1_hex secret isoformat S S' -> ~ sweeper_alive S -> ~ sweeper_alive S'.
Proof.
  intros Hs Hd (th & Hin & Hl). apply Hd.
  destruct Hs as [t w ts Hr|i th0 w ts w' k Hi Hrun|i th0 w ts w' o Hi Hrun|w ts now net Hle];
    cbn [sys_threads] in *.
  - apply elem_of_app in Hin as [Hin|Hin]; [by exists th|].
    apply list_elem_of_singleton in Hin. by subst th.
  - apply elem_of_insert_inv in Hin as [->|Hin]; [|by exists th].
    exists th0. split; [by eapply list_elem_of_lookup_2|done].
  - unfold after_finish in Hin. destruct o, (th_loop th0) as [l|] eqn:Hb;
      try (apply elem_of_delete_inv in Hin; by exists th).
    apply elem_of_insert_inv in Hin as [->|Hin]; [|by exists th].
    exists th0. split; [by eapply list_elem_of_lookup_2|]. cbn in Hl. by rewrite Hb, Hl.
  - by exists th.
Qed.

Lemma sweeper_dead_rtc sha1_hex secret isoformat S S' :
  rtc (sched_step sha1_hex secret isoformat) S S' -> ~ sweeper_alive S -> ~ sweeper_alive S'.
Proof. induction 1; [done|]. eauto using sweeper_dead_step. Qed.

(** ** Ledger and server facts used by the schedules *)

(** A record whose operation is new is inserted once; a second insert
    of it fails on the unique [operation_id]. *)
Lemma save_purchase_twice p L :
  purchase_exists (pr_op p) L = false ->
  exists L', save_purchase_history p L = Some L' /\ save_purchase_history p L' = None /\
    subs L' = subs L /\ purchases L' = (purchases L ++ [p])%list.
Proof.
  intros Hf. unfold save_purchase_history. rewrite Hf. eexists. split_and!; [done| |done|done].
  unfold purchase_exists. rewrite bool_decide_true; [done|]. cbn. rewrite fmap_app. set_solver.
Qed.

Lemma extend_twice_lookup uid sid d L s :
  lookup_sub sid L = Some s -> sub_user s = uid ->
  lookup_sub sid (extend_subscription uid sid d (extend_subscription uid sid d L)) =
  Some (mkSub sid uid (sub_key s) (sub_url s) (expires_at s + 2 * days_us d)
              (notified_5_days s) (notified_1_day s) (notified_expired s)).
Proof.
  intros Hl Hu. rewrite (extend_subscription_additive uid sid d _ _
                           (extend_subscription_additive uid sid d _ s Hl Hu)) by done.
  cbn. do 2 f_equal. lia.
Qed.

(** The world after a key creation that goes through is well formed. *)
Lemma create_up_wf isoformat uid w :
  world_wf w -> (forall c, w_net w c = true) ->
  world_wf (set_server (VpnManager.renamed isoformat uid w) w).
Proof.
  intros Hw Hnet. destruct (safe_create isoformat (fun _ => True) uid w Hw I) as (Hw1 & _).
  by rewrite (VpnManager.create_vpn_key_up isoformat uid w (Hnet _) (Hnet _) (Hnet _)) in Hw1.
Qed.

(** Two creations in a row: the two ids differ and both are on the
    server. *)
Lemma create_twice_ids isoformat uid w :
  let w1 := set_server (VpnManager.renamed isoformat uid w) w in
  let S := VpnManager.renamed isoformat uid w1 in
  VpnManager.next_key_id w <> VpnManager.next_key_id w1 /\
  VpnManager.next_key_id w ∈ srv_ids S /\ VpnManager.next_key_id w1 ∈ srv_ids S.
Proof.
  cbv zeta. split.
  - intros ?%py_str_N_inj. cbn in *. rewrite VpnManager.renamed_next in *. lia.
  - rewrite VpnManager.renamed_ids, VpnManager.created_ids. cbn [w_server set_server].
    rewrite VpnManager.renamed_ids, VpnManager.created_ids. set_solver.
Qed.

Lemma key_fresh_after_row k L row u t :
  k ∉ ledger_key_ids L -> k <> sub_key row ->
  k ∉ ledger_key_ids (add_test_usage u t
        (mkLedger (subs L ++ [row]) (next_sub_id L + 1) (test_usage L) (purchases L))).
Proof.
  intros Hk Hne. unfold ledger_key_ids. cbn [subs add_test_usage]. rewrite fmap_app, elem_of_app.
  cbn [fmap list_fmap]. rewrite list_elem_of_singleton. tauto.
Qed.

(** Resuming thread [i] of the pool, its step given by [tac]. *)
Ltac resume i tac :=
  eapply rtc_l;
  [ first [ eapply (sched_suspend _ _ _ i); [reflexivity | cbn [th_run]; tac; reflexivity]
          | eapply (sched_finish _ _ _ i); [reflexivity | cbn [th_run]; tac; reflexivity] ]
  | ].


(** ** Properties *)

(** C15: under every schedule the bot confirms only what it has
    recorded. From a world where every message sent so far is backed
    by the ledger, in every state the event loop started by [main()]
    reaches (any task resumed at any [await], any webhook request or
    chat update arriving, the loops restarting, time passing), every
    renewal confirmation sent to a user is backed by a renewal purchase
    of that user for that many days, every paid key by a new-purchase
    record of that user, and every trial key by the user's [test_usage]
    entry. The webhook and the trial handler store the record before
    the message, with a suspension in between, and no task deletes a
    purchase or a trial use. *)
Theorem confirmations_recorded sha1_hex secret isoformat w S :
  confirmed w -> rtc (sched_step sha1_hex secret isoformat) (boot w) S -> confirmed (sys_world S).
Proof.
  apply (loop_invariant sha1_hex secret isoformat confirmed grows).
  - apply crspec_loop.
  - apply crspec_request.
  - intros w' now net Hw _. by apply confirmed_env.
Qed.

Section Duplicate.
Context (sha1_hex : string -> string) (secret : string) (isoformat : Z -> string).

(** C11: two deliveries of one payment, handled concurrently, renew twice.
    YooMoney redelivers a notification it got no answer for, so the
    same verified renewal notification can arrive twice. The two tasks
    both pass the idempotency [SELECT] before either records the
    operation, because the check and the [INSERT] are separate awaits.
    Both then extend the subscription, and the second [INSERT] into
    [purchase_history] fails on the unique [operation_id] after the
    extension is committed. The event loop started by [main()] reaches
    a state where both requests are done, the subscription is extended
    by twice the paid period, the payment is recorded once, and the user
    got one confirmation. *)
Theorem duplicate_delivery_double_renewal f w uid sid ts n period s :
  world_wf w ->
  signature_valid sha1_hex secret f = true ->
  purchase_exists (form_get "operation_id" f) (w_ledger w) = false ->
  form_get "label" f = renew_label uid sid ts -> 0 <= uid -> 0 <= sid ->
  withdraw_amount_str f = amount_text n 0 -> (Z.of_N n * 100, period) ∈ amount_mapping ->
  lookup_sub sid (w_ledger w) = Some s -> sub_user s = uid ->
  w_net w (CallSend uid (MsgRenewed period)) = true ->
  exists S, rtc (sched_step sha1_hex secret isoformat) (boot w) S /\
    sys_threads S = sys_threads (boot w) /\
    lookup_sub sid (w_ledger (sys_world S)) =
      Some (mkSub sid uid (sub_key s) (sub_url s) (expires_at s + 2 * days_us period)
                  (notified_5_days s) (notified_1_day s) (notified_expired s)) /\
    purchases (w_ledger (sys_world S)) =
      (purchases (w_ledger w) ++ [mkPurchase uid (Z.of_N n * 100) period RenewSubscription
                                   (form_get "label" f) (form_get "operation_id" f)])%list /\
    w_outbox (sys_world S) = (w_outbox w ++ [(uid, MsgRenewed period)])%list.
Proof.
  intros Hw Hv Hf Hl Hu Hs Hwa Hplan Hsub Hown Hnet.
  destruct (notification_task_trace sha1_hex secret isoformat f w n period Hv ltac:(rewrite Hl; apply renew_label_nonempty) Hwa Hplan)
    as (k & Hk & Hk').
  rewrite Hl, renew_label_prefix in Hk'.
  destruct (renewal_task_trace uid sid ts (form_get "operation_id" f) (Z.of_N n * 100) period w Hu Hs)
    as (k1 & Hk1 & Hk1').
  set (p := mkPurchase uid (Z.of_N n * 100) period RenewSubscription (renew_label uid sid ts)
              (form_get "operation_id" f)) in *.
  destruct (Hk1' w) as (k2 & Hk2 & Hk2').
  set (w1 := set_ledger (extend_subscription uid sid period (w_ledger w)) w) in *.
  destruct (Hk1' w1) as (k2' & Hk2b & Hk2b').
  set (w2 := set_ledger (extend_subscription uid sid period (w_ledger w1)) w1) in *.
  destruct (save_purchase_twice p (w_ledger w2) Hf) as (L3 & E3 & E4 & Hs3 & Hp3).
  destruct (Hk2' w2) as (k3 & Hk3 & Hk3'). rewrite E3 in Hk3.
  set (w3 := set_ledger L3 w2) in *.
  destruct (Hk2b' w3) as (k3' & Hk3b & _). rewrite (E4 : save_purchase_history p (w_ledger w3) = None) in Hk3b.
  eexists. split.
  { eapply rtc_l; [apply sched_request, (req_webhook _ _ _ f)|].
    eapply rtc_l; [apply sched_request, (req_webhook _ _ _ f)|].
    resume 2%nat ltac:(unfold spawn, rbind; rewrite Hk). resume 3%nat ltac:(unfold spawn, rbind; rewrite Hk).
    resume 2%nat ltac:(rewrite (Hk' w Hf), Hk1). resume 3%nat ltac:(rewrite (Hk' w Hf), Hk1).
    resume 2%nat ltac:(rewrite Hk2). resume 3%nat ltac:(rewrite Hk2b).
    resume 2%nat ltac:(rewrite Hk3). resume 3%nat ltac:(rewrite Hk3b).
    resume 2%nat ltac:(rewrite Hk3'; cbn [w3 w2 w1 w_net set_ledger]; rewrite Hnet).
    apply rtc_refl. }
  split; [reflexivity|]. cbn [sys_world w_ledger w_outbox add_msg w3 set_ledger].
  split_and!; [| rewrite Hp3, Hl; done | by unfold w2, w1].
  unfold lookup_sub. rewrite Hs3. by apply extend_twice_lookup.
Qed.

End Duplicate.

Section Stale.
Context (sha1_hex : string -> string) (secret : string) (isoformat : Z -> string).

(** C13: the sweeper deletes a subscription that was just renewed, in a
    schedule of the event loop. Its cycle reads the snapshot [[r; s]],
    where [r] is due for its 5-day notice and [s] is expired, and
    suspends at the notice of [r]. A verified payment for the renewal
    of [s] arrives and is processed to its end ([S1]): the row of [s]
    now expires in the future and the payment is recorded. The sweeper
    then resumes and finishes its cycle ([S2]). It decides on the
    snapshot value of [s], deletes its key and its row, and never reads
    the renewal. Spec section 5 requires the opposite: the sweep must
    not delete a row that was just renewed. *)
Theorem stale_sweep_in_event_loop w r s f ts n period :
  subs (w_ledger w) = [r; s] -> sub_id r <> sub_id s ->
  branch r (w_now w) = BFiveDays -> branch s (w_now w) = BExpired ->
  signature_valid sha1_hex secret f = true ->
  purchase_exists (form_get "operation_id" f) (w_ledger w) = false ->
  form_get "label" f = renew_label (sub_user s) (sub_id s) ts ->
  0 <= sub_user s -> 0 <= sub_id s ->
  withdraw_amount_str f = amount_text n 0 -> (Z.of_N n * 100, period) ∈ amount_mapping ->
  w_now w < expires_at s + days_us period ->
  w_net w (CallDeleteKey (sub_key s)) = true ->
  exists S1 S2, rtc (sched_step sha1_hex secret isoformat) (boot w) S1 /\
    rtc (sched_step sha1_hex secret isoformat) S1 S2 /\
    (exists s', lookup_sub (sub_id s) (w_ledger (sys_world S1)) = Some s' /\
                w_now (sys_world S1) < expires_at s') /\
    (forall s', s' ∈ subs (w_ledger (sys_world S2)) -> ~ (sub_id s' = sub_id s /\ sub_user s' = sub_user s)) /\
    (sub_key s ∉ srv_ids (w_server (sys_world S2))) /\
    purchase_exists (form_get "operation_id" f) (w_ledger (sys_world S2)) = true.
Proof.
  intros Hsnap Hrs Hbr Hb Hv Hf Hl Hu Hs Hwa Hplan Hact Hdel.
  destruct (sweeper_task_trace w) as (k & Hk & Hk').
  destruct (check_row_task_notify r w Hbr) as (k1 & Hk1 & Hk1').
  set (w1 := fst (yoomoney_notification sha1_hex secret isoformat f w)).
  assert (Hs1 : lookup_sub (sub_id s) (w_ledger w) = Some s).
  { unfold lookup_sub. rewrite Hsnap. cbn. rewrite bool_decide_false by congruence. cbn. by rewrite bool_decide_true. }
  destruct (Concurrency.renewal_effect sha1_hex secret isoformat f w (sub_user s) (sub_id s) ts n period s)
    as (Hn1 & Hnet1 & _ & Hlk1 & Hrec1); try done. fold w1 in Hn1, Hnet1, Hlk1, Hrec1.
  set (T := mkThread (spawn (yoomoney_notification_task sha1_hex secret isoformat f)) None).
  set (w2 := fst (check_row s (fst (check_row r w1)))).
  eexists (mkSys w1 _), (mkSys w2 _). split; [|split].
  { eapply rtc_l; [apply sched_request, (req_webhook _ _ _ f)|].
    resume 0%nat ltac:(exact Hk).
    resume 0%nat ltac:(rewrite Hk', Hsnap; cbn [sweep_rows_task]; unfold rbind at 1; rewrite Hk1).
    apply (sched_run_alone_oneshot_at _ _ _ 2 T); [reflexivity|reflexivity|].
    unfold T. cbn [th_run]. by rewrite spawn_run_fst, (erases_notification sha1_hex secret isoformat f w). }
  { apply (sched_run_alone_at _ _ _ 0); [reflexivity|]. cbn [th_run].
    change (fst (run_res (res_then (res_then (k1 w1) (fun _ => sweep_rows_task [s])) (fun _ => rret tt))) = w2).
    rewrite run_then, run_then, (Hk1' w1 Hn1).
    assert (Er : check_row r w1 = (fst (check_row r w1), Some tt)).
    { pose proof (notify_some MsgFiveDays Flag5Days r w1) as Hsome.
      rewrite check_row_eq, Hn1, Hbr in *. by destruct (notify _ _ _ w1) as [? [[]|]]. }
    rewrite Er. cbv iota beta. rewrite (erases_sweep_rows [s]).
    unfold w2. rewrite <- (Concurrency.sweep_rows_single s). by destruct (sweep_rows [s] _) as [? [[]|]]. }
  cbn [sys_world].
  destruct (Concurrency.check_row_keeps r w1) as (Hn' & Hnet' & Hp' & _).
  destruct (Concurrency.check_row_expired_gone s (fst (check_row r w1))) as (Hgone & Hkey & Hp3);
    [by rewrite Hn', Hn1 | by rewrite Hnet', Hnet1 |].
  fold w2 in Hgone, Hkey, Hp3. split_and!; [|done|done|].
  - eexists. split; [exact Hlk1|]. cbn. lia.
  - unfold purchase_exists in *. by rewrite Hp3, Hp'.
Qed.
End Stale.

Section SyncRace.
Context (sha1_hex : string -> string) (secret : string) (isoformat : Z -> string).

(** C14: the reconciliation loop destroys a paid purchase, in a schedule
    of the event loop. A verified, fresh notification for a new purchase
    creates the key [k] without suspending and suspends at the [INSERT]
    of its row. The [sync_keys] loop then runs a whole cycle: it lists
    [k] on the server, reads a ledger without it, and deletes it. The
    webhook resumes and finishes ([S1]): the row is inserted with the
    dead key and the payment recorded. The next sync cycle ([S2])
    deletes the row. Both loops are still in the pool, the webhook is
    done, the payment stays recorded, and the user holds nothing. *)
Theorem sync_races_in_event_loop f w uid ts n period :
  world_wf w ->
  signature_valid sha1_hex secret f = true ->
  purchase_exists (form_get "operation_id" f) (w_ledger w) = false ->
  form_get "label" f = new_label uid ts -> 0 <= uid ->
  withdraw_amount_str f = amount_text n 0 -> (Z.of_N n * 100, period) ∈ amount_mapping ->
  let k := VpnManager.next_key_id w in
  w_net w CallCreateKey = true -> w_net w (CallRenameKey k) = true ->
  w_net w (CallGetKey k) = true -> w_net w CallGetKeys = true -> w_net w (CallDeleteKey k) = true ->
  exists S1 S2, rtc (sched_step sha1_hex secret isoformat) (boot w) S1 /\
    rtc (sched_step sha1_hex secret isoformat) S1 S2 /\
    sys_threads S2 = sys_threads (boot w) /\
    (exists s, s ∈ subs (w_ledger (sys_world S1)) /\ sub_user s = uid /\ sub_key s = k /\
               k ∉ srv_ids (w_server (sys_world S1))) /\
    (forall s, s ∈ subs (w_ledger (sys_world S2)) -> sub_key s <> k) /\
    purchase_exists (form_get "operation_id" f) (w_ledger (sys_world S2)) = true.
Proof.
  intros Hwf Hv Hf Hl Hu Hwa Hplan k E1 E2 E3 Eget Edel.
  pose proof (Concurrency.sync_races_new_purchase sha1_hex secret isoformat f w uid ts n period
                Hwf Hv Hf Hl Hu Hwa Hplan E1 E2 E3 Eget Edel) as H.
  cbv zeta in H. rewrite (VpnManager.create_vpn_key_up isoformat uid w E1 E2 E3) in H.
  destruct H as (_ & Hrow & Hgone & Hrec).
  destruct (notification_task_trace sha1_hex secret isoformat f w n period Hv
              ltac:(rewrite Hl; apply new_label_nonempty) Hwa Hplan) as (kn & Hkn & Hkn').
  rewrite Hl, new_label_prefix in Hkn'.
  destruct (new_subscription_task_trace isoformat uid ts (form_get "operation_id" f) (Z.of_N n * 100)
              period w Hu E1 E2 E3) as (ks & Hks & Hks').
  set (w1 := set_server (VpnManager.renamed isoformat uid w) w) in *.
  assert (Hs1 : srv_wf (w_server w1)) by (apply VpnManager.renamed_wf; by destruct Hwf as (_ & ? & _)).
  destruct (Concurrency.sync_cycle_facts w1 Hs1 Eget) as (Hn2 & Hnet2 & _ & Hs2 & _).
  set (w2 := fst (sync_keys_cycle w1)) in *.
  set (w3 := fst (Concurrency.new_sub_after_key _ _ _ _ _ _ w2)) in *.
  destruct (new_sub_after_key_keeps (new_label uid ts) (form_get "operation_id" f) (Z.of_N n * 100)
              period uid (Some (mkKey k (VpnManager.key_name_for isoformat uid (w_now w)) (outline_url k))) w2)
    as (Hsv3 & _ & Hnet3).
  eexists (mkSys w3 _), (mkSys (fst (sync_keys_cycle w3)) _). split_and!.
  - eapply rtc_l; [apply sched_request, (req_webhook _ _ _ f)|].
    resume 2%nat ltac:(unfold spawn, rbind; rewrite Hkn).
    resume 2%nat ltac:(rewrite (Hkn' w Hf), Hks).
    eapply rtc_trans; [apply (sched_sync_cycle _ _ _ 1); [reflexivity|done|done]|].
    eapply (sched_run_alone_oneshot_at _ _ _ 2); [reflexivity|reflexivity|].
    cbn [th_run]. by rewrite run_then_ret_fst, (Hks' (fst (sync_keys_cycle w1)) Hn2).
  - apply (sched_sync_cycle _ _ _ 1); [reflexivity| |].
    + by rewrite (Hsv3 : w_server w3 = w_server w2).
    + by rewrite (Hnet3 : w_net w3 = w_net w2), Hnet2.
  - reflexivity.
  - done.
  - done.
  - done.
Qed.

End SyncRace.

Section Crash.
Context (sha1_hex : string -> string) (secret : string) (isoformat : Z -> string).

(** C16: one failed teardown stops the sweeper for good. Suppose the
    first row of the sweeper's snapshot is expired, its key deletion
    fails, and so does the error message of the [except] block, which
    is sent outside any [try]. Then the exception ends the
    [check_subscriptions] task, and no later schedule of the event loop
    runs the sweeper again: no subscription is ever notified or torn
    down after that. Spec section 7 requires failures in background
    loops to be isolated per item and never abort the loop. *)
Theorem sweeper_crash_is_permanent w s rest :
  subs (w_ledger w) = s :: rest -> branch s (w_now w) = BExpired ->
  w_net w (CallDeleteKey (sub_key s)) = false ->
  w_net w (CallSend (sub_user s) (MsgTeardownError (sub_key s))) = false ->
  exists S, rtc (sched_step sha1_hex secret isoformat) (boot w) S /\
    sys_world S = w /\
    forall S', rtc (sched_step sha1_hex secret isoformat) S S' -> ~ sweeper_alive S'.
Proof.
  intros Hsubs Hb Hdel Hsend.
  destruct (sweeper_task_trace w) as (k & Hk & Hk').
  destruct (check_row_task_teardown_fails s w Hb Hdel) as (k1 & Hk1 & Hk1').
  eexists. split.
  { resume 0%nat ltac:(exact Hk).
    resume 0%nat ltac:(rewrite Hk', Hsubs; cbn [sweep_rows_task]; unfold rbind at 1; rewrite Hk1).
    resume 0%nat ltac:(rewrite Hk1', Hsend).
    apply rtc_refl. }
  split; [done|]. intros S' HS'. apply (sweeper_dead_rtc _ _ _ _ _ HS').
  intros (th & Hin & Hl). cbn in Hin. apply list_elem_of_singleton in Hin. by subst th.
Qed.

End Crash.

Section Trial.
Context (sha1_hex : string -> string) (secret : string) (isoformat : Z -> string).

(** C12: a double tap on the trial button grants two trials. Two
    callbacks ["test_vpn"] of one user who never had a trial are
    handled concurrently with every call going through. Both pass the
    [test_usage] lookup before either inserts its usage, because the
    lookup and the [INSERT] are separate awaits. The event loop reaches a
    state where both requests are done, the ledger has two new rows of
    the user with two different live keys, and [test_usage] holds the
    user twice. Spec section 3 says a usage row permanently disables
    further trial grants. *)
Theorem concurrent_trial_granted_twice w uid :
  world_wf w -> has_used_test uid (w_ledger w) = false -> (forall c, w_net w c = true) ->
  exists S, rtc (sched_step sha1_hex secret isoformat) (boot w) S /\
    sys_threads S = sys_threads (boot w) /\
    (exists sA sB, subs (w_ledger (sys_world S)) = (subs (w_ledger w) ++ [sA; sB])%list /\
       sub_user sA = uid /\ sub_user sB = uid /\ sub_key sA <> sub_key sB /\
       sub_key sA ∈ srv_ids (w_server (sys_world S)) /\ sub_key sB ∈ srv_ids (w_server (sys_world S))) /\
    test_usage (w_ledger (sys_world S)) = (test_usage (w_ledger w) ++ [(uid, w_now w); (uid, w_now w)])%list.
Proof.
  intros Hw Hu Hnet.
  destruct (trial_task_trace isoformat uid w) as (k0 & Hk0 & Hk0').
  destruct (Hk0' w Hu (Hnet _) (Hnet _) (Hnet _)) as (k1 & Hk1 & Hk1').
  set (w1 := set_server (VpnManager.renamed isoformat uid w) w) in *.
  destruct (Hk0' w1 Hu (Hnet _) (Hnet _) (Hnet _)) as (k1' & Hk1b & Hk1b').
  set (w2 := set_server (VpnManager.renamed isoformat uid w1) w1) in *.
  destruct (create_twice_ids isoformat uid w) as (HkAB & HinA & HinB). fold w1 in HkAB, HinA, HinB.
  set (kA := VpnManager.next_key_id w) in *. set (kB := VpnManager.next_key_id w1) in *.
  assert (HkA : kA ∉ ledger_key_ids (w_ledger w2))
    by (change (w_ledger w2) with (w_ledger w); by apply VpnManager.next_key_not_in_ledger).
  destruct (trial_after_key_up uid (mkKey kA (VpnManager.key_name_for isoformat uid (w_now w)) (outline_url kA))
              (w_now w) w2 HkA Hnet) as (HlA & HsA & HnA & HnetA).
  rewrite <- Hk1' in HlA, HsA, HnA, HnetA. set (wA := fst (run_res (k1 w2))) in *.
  assert (HkB : kB ∉ ledger_key_ids (w_ledger wA)).
  { rewrite HlA. apply key_fresh_after_row; [|by apply not_eq_sym].
    apply (VpnManager.next_key_not_in_ledger w1). by apply create_up_wf. }
  destruct (trial_after_key_up uid (mkKey kB (VpnManager.key_name_for isoformat uid (w_now w1)) (outline_url kB))
              (w_now w1) wA HkB ltac:(intros c; rewrite HnetA; apply Hnet)) as (HlB & HsB & HnB & _).
  rewrite <- Hk1b' in HlB, HsB, HnB. set (wB := fst (run_res (k1' wA))) in *.
  exists (mkSys wB (sys_threads (boot w))). split.
  { eapply rtc_l; [apply sched_request, (req_callback _ _ _ uid "test_vpn")|].
    eapply rtc_l; [apply sched_request, (req_callback _ _ _ uid "test_vpn")|].
    resume 2%nat ltac:(exact Hk0). resume 3%nat ltac:(exact Hk0).
    resume 2%nat ltac:(exact Hk1). resume 3%nat ltac:(exact Hk1b).
    eapply rtc_trans; [apply (sched_run_alone_oneshot _ _ _ 2 (mkThread k1 None)); reflexivity|].
    apply (sched_run_alone_oneshot _ _ _ 2 (mkThread k1' None)); reflexivity. }
  cbn [sys_world sys_threads]. split_and!; [done| |].
  - eexists _, _. rewrite HlB, HsB, HsA. cbn [add_test_usage subs]. rewrite HlA. cbn [add_test_usage subs].
    split_and!; [by rewrite <- app_assoc|done..].
  - rewrite HlB, HlA. cbn [add_test_usage test_usage]. rewrite HnA. by rewrite <- app_assoc.
Qed.
End Trial.

(** ** Witnesses *)

(** The renewal notification of [Payment]'s witnesses (user 42,
    subscription 1, 200.00 for 30 days), delivered twice to
    [Payment.wit_world]. *)
Lemma duplicate_delivery_double_renewal_witness :
  exists S, rtc (sched_step wit_hash wit_secret VpnManager.iso_fixed) (boot wit_world) S /\
    sys_threads S = sys_threads (boot wit_world) /\
    lookup_sub 1 (w_ledger (sys_world S)) =
      Some (mkSub 1 42 "7" "ss://outline/7" (0 + 2 * days_us 30) false false false) /\
    purchases (w_ledger (sys_world S)) =
      (purchases (w_ledger wit_world) ++ [mkPurchase 42 (Z.of_N 200 * 100) 30 RenewSubscription
          (form_get "label" (wit_form (renew_label 42 1 1700000000) "200.00"))
          (form_get "operation_id" (wit_form (renew_label 42 1 1700000000) "200.00"))])%list /\
    w_outbox (sys_world S) = (w_outbox wit_world ++ [(42, MsgRenewed 30)])%list.
Proof.
  refine (duplicate_delivery_double_renewal wit_hash wit_secret VpnManager.iso_fixed
    (wit_form (renew_label 42 1 1700000000) "200.00") wit_world 42 1 1700000000 200 30
    Reconcile.row_7 _ _ _ _ _ _ _ _ _ _ _); wit_hyp.
Defined.

(** A double tap of user 42 on the trial button, on [System.boot_world]
    (no row, no trial used, every call goes through). *)
Lemma concurrent_trial_granted_twice_witness :
  exists S, rtc (sched_step wit_hash wit_secret VpnManager.iso_fixed) (boot boot_world) S /\
    sys_threads S = sys_threads (boot boot_world) /\
    (exists sA sB, subs (w_ledger (sys_world S)) = (subs (w_ledger boot_world) ++ [sA; sB])%list /\
       sub_user sA = 42 /\ sub_user sB = 42 /\ sub_key sA <> sub_key sB /\
       sub_key sA ∈ srv_ids (w_server (sys_world S)) /\ sub_key sB ∈ srv_ids (w_server (sys_world S))) /\
    test_usage (w_ledger (sys_world S)) =
      (test_usage (w_ledger boot_world) ++ [(42, w_now boot_world); (42, w_now boot_world)])%list.
Proof.
  apply (concurrent_trial_granted_twice wit_hash wit_secret VpnManager.iso_fixed boot_world 42).
  - apply (bool_decide_unpack _). vm_compute. reflexivity.
  - reflexivity.
  - intros c. reflexivity.
Defined.

(** The Outline server and Telegram are unreachable (every deletion and
    every send fails) while the sweeper reads a snapshot whose first row,
    [Concurrency.row_exp], expired at time 0. *)
Definition outage : Call -> bool :=
  fun c => match c with CallDeleteKey _ | CallSend _ _ => false | _ => true end.

Definition outage_world : World :=
  mkWorld (mkLedger [Concurrency.row_exp; Concurrency.row_5d] 3 [] []) Reconcile.srv_79 [] 10 outage.

Lemma sweeper_crash_is_permanent_witness :
  exists S, rtc (sched_step wit_hash wit_secret VpnManager.iso_fixed) (boot outage_world) S /\
    sys_world S = outage_world /\
    forall S', rtc (sched_step wit_hash wit_secret VpnManager.iso_fixed) S S' -> ~ sweeper_alive S'.
Proof.
  apply (sweeper_crash_is_permanent wit_hash wit_secret VpnManager.iso_fixed outage_world
           Concurrency.row_exp [Concurrency.row_5d]); reflexivity.
Defined.

(** The snapshot of [Concurrency.race_world]: [row_5d] (user 43, in its
    5-day window) and [row_exp] (user 42, subscription 1, expired); the
    renewal of subscription 1 for 200.00 arrives while the sweeper
    awaits the notice of [row_5d]. *)
Lemma stale_sweep_in_event_loop_witness :
  exists S1 S2, rtc (sched_step wit_hash wit_secret VpnManager.iso_fixed) (boot Concurrency.race_world) S1 /\
    rtc (sched_step wit_hash wit_secret VpnManager.iso_fixed) S1 S2 /\
    (exists s', lookup_sub 1 (w_ledger (sys_world S1)) = Some s' /\ w_now (sys_world S1) < expires_at s') /\
    (forall s', s' ∈ subs (w_ledger (sys_world S2)) -> ~ (sub_id s' = 1 /\ sub_user s' = 42)) /\
    ("7" ∉ srv_ids (w_server (sys_world S2))) /\
    purchase_exists "op-1" (w_ledger (sys_world S2)) = true.
Proof.
  refine (stale_sweep_in_event_loop wit_hash wit_secret VpnManager.iso_fixed Concurrency.race_world
            Concurrency.row_5d Concurrency.row_exp (wit_form (renew_label 42 1 0) "200.00") 0 200 30
            _ _ _ _ _ _ _ _ _ _ _ _ _); wit_hyp.
Defined.

(** A new purchase of user 42 for 200.00 on [wit_world], with every
    call going through: the key is "10". *)
Lemma sync_races_in_event_loop_witness :
  exists S1 S2,
    rtc (sched_step wit_hash wit_secret VpnManager.iso_fixed) (boot wit_world) S1 /\
    rtc (sched_step wit_hash wit_secret VpnManager.iso_fixed) S1 S2 /\
    sys_threads S2 = sys_threads (boot wit_world) /\
    (exists s, s ∈ subs (w_ledger (sys_world S1)) /\ sub_user s = 42 /\ sub_key s = "10" /\
               "10" ∉ srv_ids (w_server (sys_world S1))) /\
    (forall s, s ∈ subs (w_ledger (sys_world S2)) -> sub_key s <> "10") /\
    purchase_exists "op-1" (w_ledger (sys_world S2)) = true.
Proof.
  refine (sync_races_in_event_loop wit_hash wit_secret VpnManager.iso_fixed
            (wit_form (new_label 42 0) "200.00") wit_world 42 0 200 30
            _ _ _ _ _ _ _ _ _ _ _ _); wit_hyp.
Defined.

(** The renewal of [Payment]'s witnesses, delivered once to
    [Payment.wit_world] and run to its end: the confirmation is sent and
    backed by its record. *)
Lemma confirmations_recorded_witness :
  exists S, rtc (sched_step wit_hash wit_secret VpnManager.iso_fixed) (boot wit_world) S /\
    (42, MsgRenewed 30) ∈ w_outbox (sys_world S) /\ confirmed (sys_world S).
Proof.
  set (F := wit_form (renew_label 42 1 1700000000) "200.00").
  assert (Hr : rtc (sched_step wit_hash wit_secret VpnManager.iso_fixed) (boot wit_world)
                 (mkSys (fst (wit_notify F wit_world)) (sys_threads (boot wit_world)))).
  { eapply rtc_l; [apply sched_request, (req_webhook _ _ _ F)|].
    eapply (sched_run_alone_oneshot_at _ _ _ 2); [reflexivity|reflexivity|].
    cbn [th_run]. by rewrite spawn_run_fst, (erases_notification wit_hash wit_secret VpnManager.iso_fixed F). }
  eexists. split; [exact Hr|]. split.
  - apply list_elem_of_In. vm_compute. auto.
  - apply (confirmations_recorded wit_hash wit_secret VpnManager.iso_fixed wit_world); [|exact Hr].
    intros u m Hm. vm_compute in Hm. by apply elem_of_nil in Hm.
Defined.

End Scheduler.
